(** * Flight sun tracker: the seat-side calculator

    A shallow embedding of [calculateSunPositionForFlight], the function
    exported by the flight calculator module ([lib/flightCalculator]), and
    the properties of its sampling loop, event de-duplication and
    recommendation rule.

    Conventions of the embedding:
    - a JavaScript [number] that may be fractional (angles, distances,
      progress, confidence) is a rational [Q]; arithmetic is exact, so the
      rounding of IEEE doubles is not part of the model, except in the
      module [Binary64], which runs geolib's conversion between degrees and
      radians on doubles;
    - a [Date] is the integer [Z] of milliseconds its [getTime()] returns,
      and [new Date(ms)] cuts a fractional number of milliseconds to a whole
      one; a [Date] that may be invalid (the suncalc times at polar day or
      night, whose [getTime()] is NaN) is an [option Z], and a comparison
      with NaN is [false];
    - [durationMinutes] is a number like any other: the API route lets
      fractions of a minute through;
    - an array is a [list], [push] appends at the end;
    - [throw]/[catch] is the [Outcome] sum;
    - the imported libraries (geolib, suncalc, date-fns-tz) and the airport
      table are the fields of the class [Imports]. *)

From Stdlib Require Import ZArith QArith Qround Qminmax Qabs.
From Stdlib Require Import List Sorted String Bool Lia Lqa.
From Stdlib Require Import Ascii NArith.
From Stdlib Require DecimalString DecimalPos DecimalN.
From Stdlib Require Uint63 PrimFloat FloatOps SpecFloat.
Import ListNotations.

Set Implicit Arguments.

(** ** Data model *)

Inductive Side : Type := SideLeft | SideRight.

Inductive Recommendation : Type := RecLeft | RecRight | RecEither.

Inductive EventType : Type := Sunrise | Sunset.

Module Airport.
Record t : Type := mk {
  iata : string;
  name : string;
  latitude : Q;
  longitude : Q
}.
End Airport.

Module FlightDetails.
Record t : Type := mk {
  departure : string;
  arrival : string;
  departureTime : Z;
  durationMinutes : Q
}.
End FlightDetails.

(** The [{ latitude, longitude }] objects handed to geolib. *)
Module Coords.
Record t : Type := mk {
  latitude : Q;
  longitude : Q
}.
End Coords.

Module Location.
Record t : Type := mk {
  lat : Q;
  lon : Q
}.
End Location.

Module SunEvent.
Record t : Type := mk {
  type : EventType;
  time : Z;
  location : Location.t;
  sunAzimuth : Q;
  aircraftBearing : Q;
  viewingSide : Side;
  elevation : Q
}.
End SunEvent.

Module SunPosition.
Record t : Type := mk {
  azimuth : Q;
  elevation : Q;
  visible : bool
}.
End SunPosition.

Module FlightPathPoint.
Record t : Type := mk {
  time : Z;
  location : Location.t;
  progress : Q;
  sunPosition : SunPosition.t;
  aircraftBearing : Q;
  viewingSide : option Side
}.
End FlightPathPoint.

Module Summary.
Record t : Type := mk {
  totalSunriseEvents : nat;
  totalSunsetEvents : nat;
  averageSunVisibility : Q;
  bestViewingSide : Recommendation
}.
End Summary.

Module GlobeData.
Record t : Type := mk {
  departure : Airport.t;
  arrival : Airport.t;
  flightPath : list FlightPathPoint.t;
  totalDistance : Q;
  totalDuration : Q;
  summary : Summary.t
}.
End GlobeData.

Module FlightRecommendation.
Record t : Type := mk {
  recommendation : Recommendation;
  confidence : Q;
  description : string;
  events : list SunEvent.t;
  globeData : GlobeData.t
}.
End FlightRecommendation.

(** What suncalc's [getPosition] returns: radians. *)
Module SunCalcPosition.
Record t : Type := mk {
  azimuth : Q;
  altitude : Q
}.
End SunCalcPosition.

(** What suncalc's [getTimes] returns, reduced to the two fields read.
    [None] is an invalid [Date]. *)
Module SunCalcTimes.
Record t : Type := mk {
  sunrise : option Z;
  sunset : option Z
}.
End SunCalcTimes.

(** ** The imports of the calculator *)

Class Imports : Type := {
  airports : list Airport.t;
  getDistance : Coords.t -> Coords.t -> Q;
  getRhumbLineBearing : Coords.t -> Coords.t -> Q;
  computeDestinationPoint : Coords.t -> Q -> Q -> Coords.t;
  getPosition : Z -> Q -> Q -> SunCalcPosition.t;
  getTimes : Z -> Q -> Q -> SunCalcTimes.t;
  (** [formatInTimeZone(date, 'UTC', 'HH:mm')] *)
  formatInTimeZone : Z -> string -> string -> string
}.

(** ** JavaScript primitives *)

Inductive Outcome (A : Type) : Type :=
| Returned (value : A)
| Thrown (message : string).

Arguments Returned {A} value.
Arguments Thrown {A} message.

(** [Math.PI], the double nearest to pi, as the rational it is. *)
Definition Math_PI : Q := 884279719003555 # 281474976710656.

(** Rounding toward zero. *)
Definition Qtrunc (q : Q) : Z :=
  if Qlt_le_dec q 0 then Qceiling q else Qfloor q.

(** The [%] operator: the remainder has the sign of the dividend. *)
Definition js_rem (x y : Q) : Q := x - y * inject_Z (Qtrunc (x / y)).

Definition Math_ceil (q : Q) : Z := Qceiling q.

(** [new Date(ms).getTime()]: the time value loses its fraction. *)
Definition newDate (ms : Q) : Z := Qtrunc ms.

(** [a < b] on numbers, as a boolean. *)
Definition Qltb (a b : Q) : bool := if Qlt_le_dec a b then true else false.

(** [Math.abs(t - d.getTime()) < bound], where [d] may be an invalid date. *)
Definition within (t : Z) (d : option Z) (bound : Z) : bool :=
  match d with
  | Some u => (Z.abs (t - u) <? bound)%Z
  | None => false
  end.

(** [Array.prototype.findIndex], [-1] when nothing matches. *)
Fixpoint findIndex_from {A : Type} (p : A -> bool) (l : list A) (k : Z) : Z :=
  match l with
  | [] => (-1)%Z
  | x :: l' => if p x then k else findIndex_from p l' (k + 1)%Z
  end.

Definition findIndex {A : Type} (p : A -> bool) (l : list A) : Z :=
  findIndex_from p l 0%Z.

(** [Array.prototype.filter] with the index passed to the callback. *)
Fixpoint filter_from {A : Type} (f : A -> Z -> bool) (l : list A) (k : Z) : list A :=
  match l with
  | [] => []
  | x :: l' =>
      if f x k then x :: filter_from f l' (k + 1)%Z else filter_from f l' (k + 1)%Z
  end.

Definition filter_index {A : Type} (f : A -> Z -> bool) (l : list A) : list A :=
  filter_from f l 0%Z.

Definition string_of_nat (n : nat) : string :=
  DecimalString.NilZero.string_of_uint (Nat.to_uint n).

Definition EventType_eqb (a b : EventType) : bool :=
  match a, b with
  | Sunrise, Sunrise | Sunset, Sunset => true
  | _, _ => false
  end.

Definition Side_eqb (a b : Side) : bool :=
  match a, b with
  | SideLeft, SideLeft | SideRight, SideRight => true
  | _, _ => false
  end.

Definition EventType_to_string (t : EventType) : string :=
  match t with Sunrise => "sunrise" | Sunset => "sunset" end.

Definition Side_to_string (s : Side) : string :=
  match s with SideLeft => "left" | SideRight => "right" end.

Definition Qnat (n : nat) : Q := inject_Z (Z.of_nat n).

(** ** The calculator *)

(** The variables the sampling loop updates: the two arrays it pushes to
    and its three counters. *)
Record LoopState : Type := mkLoopState {
  flightPath : list FlightPathPoint.t;
  sunEvents : list SunEvent.t;
  sunVisibleCount : nat;
  leftSideCount : nat;
  rightSideCount : nat
}.

(** The three variables the recommendation step assigns. *)
Record Advice : Type := mkAdvice {
  recommendation : Recommendation;
  confidence : Q;
  description : string
}.

Definition intervalMinutes : Z := 5.

(** [azimuthDiff] after its two adjustments. *)
Definition azimuthDiff (sunAzimuthDegrees flightBearing : Q) : Q :=
  let azimuthDiff := sunAzimuthDegrees - flightBearing in
  let azimuthDiff := if Qltb azimuthDiff 0 then azimuthDiff + 360 else azimuthDiff in
  let azimuthDiff := if Qltb 360 azimuthDiff then azimuthDiff - 360 else azimuthDiff in
  azimuthDiff.

Definition viewingSideOf (sunAzimuthDegrees flightBearing : Q) : Side :=
  let azimuthDiff := azimuthDiff sunAzimuthDegrees flightBearing in
  if Qltb 0 azimuthDiff && Qltb azimuthDiff 180 then SideRight else SideLeft.

(** The callback of the [findIndex] inside the de-duplicating filter. *)
Definition sameEvent (event e : SunEvent.t) : bool :=
  EventType_eqb (SunEvent.type e) (SunEvent.type event)
  && (Z.abs (SunEvent.time e - SunEvent.time event) <? 10 * 60 * 1000)%Z.

Definition uniqueEvents (sunEvents : list SunEvent.t) : list SunEvent.t :=
  filter_index
    (fun event index => (index =? findIndex (sameEvent event) sunEvents)%Z)
    sunEvents.

Definition countSide (s : Side) (events : list SunEvent.t) : nat :=
  List.length (filter (fun e => Side_eqb (SunEvent.viewingSide e) s) events).

Definition countType (t : EventType) (events : list SunEvent.t) : nat :=
  List.length (filter (fun e => EventType_eqb (SunEvent.type e) t) events).

Section Calculator.

Context {imports : Imports}.

(** One turn of the loop of step 5, for the index [i]. *)
Definition loop_body (flightDetails : FlightDetails.t) (departureCoords : Coords.t)
    (totalDistance flightBearing : Q) (st : LoopState) (i : Z) : LoopState :=
  let timeOffsetMinutes :=
    Qmin (inject_Z (i * intervalMinutes)) (FlightDetails.durationMinutes flightDetails) in
  let progress := timeOffsetMinutes / FlightDetails.durationMinutes flightDetails in
  let intermediateDistance := totalDistance * progress in
  let currentPosition :=
    computeDestinationPoint departureCoords intermediateDistance flightBearing in
  let currentTime :=
    newDate (inject_Z (FlightDetails.departureTime flightDetails)
             + timeOffsetMinutes * 60 * 1000) in
  let sunPosition :=
    getPosition currentTime
      (Coords.latitude currentPosition) (Coords.longitude currentPosition) in
  let sunAzimuthDegrees :=
    js_rem (SunCalcPosition.azimuth sunPosition * 180 / Math_PI + 180) 360 in
  let sunElevationDegrees := SunCalcPosition.altitude sunPosition * 180 / Math_PI in
  let sunVisible := Qltb 0 sunElevationDegrees in
  let location :=
    Location.mk (Coords.latitude currentPosition) (Coords.longitude currentPosition) in
  let '(viewingSide, st) :=
    if sunVisible then
      let viewingSide := viewingSideOf sunAzimuthDegrees flightBearing in
      let sunTimes :=
        getTimes currentTime
          (Coords.latitude currentPosition) (Coords.longitude currentPosition) in
      let isNearSunrise :=
        within currentTime (SunCalcTimes.sunrise sunTimes) (15 * 60 * 1000) in
      let isNearSunset :=
        within currentTime (SunCalcTimes.sunset sunTimes) (15 * 60 * 1000) in
      (Some viewingSide,
       {| flightPath := flightPath st;
          sunEvents :=
            if (isNearSunrise || isNearSunset) && Qltb (-5) sunElevationDegrees then
              sunEvents st ++
              [ {| SunEvent.type := if isNearSunrise then Sunrise else Sunset;
                   SunEvent.time := currentTime;
                   SunEvent.location := location;
                   SunEvent.sunAzimuth := sunAzimuthDegrees;
                   SunEvent.aircraftBearing := flightBearing;
                   SunEvent.viewingSide := viewingSide;
                   SunEvent.elevation := sunElevationDegrees |} ]
            else sunEvents st;
          sunVisibleCount := S (sunVisibleCount st);
          leftSideCount :=
            if Side_eqb viewingSide SideLeft then S (leftSideCount st)
            else leftSideCount st;
          rightSideCount :=
            if Side_eqb viewingSide SideLeft then rightSideCount st
            else S (rightSideCount st) |})
    else (None, st) in
  {| flightPath :=
       flightPath st ++
       [ {| FlightPathPoint.time := currentTime;
            FlightPathPoint.location := location;
            FlightPathPoint.progress := progress;
            FlightPathPoint.sunPosition :=
              {| SunPosition.azimuth := sunAzimuthDegrees;
                 SunPosition.elevation := sunElevationDegrees;
                 SunPosition.visible := sunVisible |};
            FlightPathPoint.aircraftBearing := flightBearing;
            FlightPathPoint.viewingSide := viewingSide |} ];
     sunEvents := sunEvents st;
     sunVisibleCount := sunVisibleCount st;
     leftSideCount := leftSideCount st;
     rightSideCount := rightSideCount st |}.

(** *** The loop body, read one variable at a time

    The same expressions as in [loop_body], named after the variable each
    one is bound to, as functions of the index [i]. *)

Definition timeOffsetMinutesAt (flightDetails : FlightDetails.t) (i : Z) : Q :=
  Qmin (inject_Z (i * intervalMinutes)) (FlightDetails.durationMinutes flightDetails).

Definition progressAt (flightDetails : FlightDetails.t) (i : Z) : Q :=
  timeOffsetMinutesAt flightDetails i / FlightDetails.durationMinutes flightDetails.

Definition currentTimeAt (flightDetails : FlightDetails.t) (i : Z) : Z :=
  newDate (inject_Z (FlightDetails.departureTime flightDetails)
           + timeOffsetMinutesAt flightDetails i * 60 * 1000).

Definition currentPositionAt (flightDetails : FlightDetails.t) (departureCoords : Coords.t)
    (totalDistance flightBearing : Q) (i : Z) : Coords.t :=
  computeDestinationPoint departureCoords
    (totalDistance * progressAt flightDetails i) flightBearing.

Definition sunPositionAt (flightDetails : FlightDetails.t) (departureCoords : Coords.t)
    (totalDistance flightBearing : Q) (i : Z) : SunCalcPosition.t :=
  let currentPosition :=
    currentPositionAt flightDetails departureCoords totalDistance flightBearing i in
  getPosition (currentTimeAt flightDetails i)
    (Coords.latitude currentPosition) (Coords.longitude currentPosition).

Definition sunTimesAt (flightDetails : FlightDetails.t) (departureCoords : Coords.t)
    (totalDistance flightBearing : Q) (i : Z) : SunCalcTimes.t :=
  let currentPosition :=
    currentPositionAt flightDetails departureCoords totalDistance flightBearing i in
  getTimes (currentTimeAt flightDetails i)
    (Coords.latitude currentPosition) (Coords.longitude currentPosition).

Definition sunAzimuthDegreesOf (sunPosition : SunCalcPosition.t) : Q :=
  js_rem (SunCalcPosition.azimuth sunPosition * 180 / Math_PI + 180) 360.

Definition sunElevationDegreesOf (sunPosition : SunCalcPosition.t) : Q :=
  SunCalcPosition.altitude sunPosition * 180 / Math_PI.

Definition locationAt (flightDetails : FlightDetails.t) (departureCoords : Coords.t)
    (totalDistance flightBearing : Q) (i : Z) : Location.t :=
  let currentPosition :=
    currentPositionAt flightDetails departureCoords totalDistance flightBearing i in
  Location.mk (Coords.latitude currentPosition) (Coords.longitude currentPosition).

(** The point sample [i] pushes to [flightPath]. *)
Definition pointAt (flightDetails : FlightDetails.t) (departureCoords : Coords.t)
    (totalDistance flightBearing : Q) (i : Z) : FlightPathPoint.t :=
  let sunPosition :=
    sunPositionAt flightDetails departureCoords totalDistance flightBearing i in
  let sunVisible := Qltb 0 (sunElevationDegreesOf sunPosition) in
  {| FlightPathPoint.time := currentTimeAt flightDetails i;
     FlightPathPoint.location :=
       locationAt flightDetails departureCoords totalDistance flightBearing i;
     FlightPathPoint.progress := progressAt flightDetails i;
     FlightPathPoint.sunPosition :=
       {| SunPosition.azimuth := sunAzimuthDegreesOf sunPosition;
          SunPosition.elevation := sunElevationDegreesOf sunPosition;
          SunPosition.visible := sunVisible |};
     FlightPathPoint.aircraftBearing := flightBearing;
     FlightPathPoint.viewingSide :=
       if sunVisible
       then Some (viewingSideOf (sunAzimuthDegreesOf sunPosition) flightBearing)
       else None |}.

(** The events sample [i] pushes to [sunEvents]: one or none. *)
Definition eventsAt (flightDetails : FlightDetails.t) (departureCoords : Coords.t)
    (totalDistance flightBearing : Q) (i : Z) : list SunEvent.t :=
  let sunPosition :=
    sunPositionAt flightDetails departureCoords totalDistance flightBearing i in
  let sunTimes :=
    sunTimesAt flightDetails departureCoords totalDistance flightBearing i in
  let currentTime := currentTimeAt flightDetails i in
  let isNearSunrise :=
    within currentTime (SunCalcTimes.sunrise sunTimes) (15 * 60 * 1000) in
  let isNearSunset :=
    within currentTime (SunCalcTimes.sunset sunTimes) (15 * 60 * 1000) in
  if Qltb 0 (sunElevationDegreesOf sunPosition)
     && ((isNearSunrise || isNearSunset) && Qltb (-5) (sunElevationDegreesOf sunPosition))
  then
    [ {| SunEvent.type := if isNearSunrise then Sunrise else Sunset;
         SunEvent.time := currentTime;
         SunEvent.location :=
           locationAt flightDetails departureCoords totalDistance flightBearing i;
         SunEvent.sunAzimuth := sunAzimuthDegreesOf sunPosition;
         SunEvent.aircraftBearing := flightBearing;
         SunEvent.viewingSide :=
           viewingSideOf (sunAzimuthDegreesOf sunPosition) flightBearing;
         SunEvent.elevation := sunElevationDegreesOf sunPosition |} ]
  else [].

(** The values [i] takes in [for (let i = 0; i <= numIntervals; i++)]. *)
Definition loop_indices (numIntervals : Z) : list Z :=
  map Z.of_nat (seq 0 (Z.to_nat (numIntervals + 1))).

Definition initialState : LoopState :=
  {| flightPath := []; sunEvents := [];
     sunVisibleCount := 0; leftSideCount := 0; rightSideCount := 0 |}.

Definition eventDescription (event : SunEvent.t) : string :=
  (EventType_to_string (SunEvent.type event) ++ " at "
   ++ formatInTimeZone (SunEvent.time event) "UTC" "HH:mm" ++ " UTC ("
   ++ Side_to_string (SunEvent.viewingSide event) ++ " side)")%string.

(** Step 6: the recommendation, its confidence and its description. *)
Definition advise (uniqueEvents : list SunEvent.t)
    (sunVisibleCount leftSideCount rightSideCount : nat) : Advice :=
  if (0 <? List.length uniqueEvents)%nat then
    let leftEvents := countSide SideLeft uniqueEvents in
    let rightEvents := countSide SideRight uniqueEvents in
    let eventDetails :=
      (" Events: " ++ String.concat ", " (map eventDescription uniqueEvents) ++ ".")%string in
    if (rightEvents <? leftEvents)%nat then
      {| recommendation := RecLeft;
         confidence := Qmin 95 (60 + Qnat leftEvents * 15);
         description :=
           ("Choose the LEFT side for the best view! " ++ string_of_nat leftEvents
            ++ " sunrise/sunset event(s) visible on the left side." ++ eventDetails)%string |}
    else if (leftEvents <? rightEvents)%nat then
      {| recommendation := RecRight;
         confidence := Qmin 95 (60 + Qnat rightEvents * 15);
         description :=
           ("Choose the RIGHT side for the best view! " ++ string_of_nat rightEvents
            ++ " sunrise/sunset event(s) visible on the right side." ++ eventDetails)%string |}
    else
      {| recommendation := RecEither;
         confidence := 75;
         description :=
           ("Either side works well! Sunrise/sunset events are visible from both sides of the aircraft."
            ++ eventDetails)%string |}
  else if (0 <? sunVisibleCount)%nat then
    if Qltb (Qnat rightSideCount * (12 # 10)) (Qnat leftSideCount) then
      {| recommendation := RecLeft;
         confidence := Qmin 80 (50 + Qnat leftSideCount / Qnat sunVisibleCount * 30);
         description := "Choose the LEFT side for better sun exposure during the flight." |}
    else if Qltb (Qnat leftSideCount * (12 # 10)) (Qnat rightSideCount) then
      {| recommendation := RecRight;
         confidence := Qmin 80 (50 + Qnat rightSideCount / Qnat sunVisibleCount * 30);
         description := "Choose the RIGHT side for better sun exposure during the flight." |}
    else
      {| recommendation := RecEither;
         confidence := 50;
         description := "No significant sunrise or sunset events detected during this flight." |}
  else
    {| recommendation := RecEither;
       confidence := 50;
       description := "No significant sunrise or sunset events detected during this flight." |}.

Definition findAirport (code : string) : option Airport.t :=
  find (fun airport => String.eqb (Airport.iata airport) code) airports.

(** The sampling loop of steps 4 and 5, run to its end. *)
Definition sampleFlight (flightDetails : FlightDetails.t) (departureCoords : Coords.t)
    (totalDistance flightBearing : Q) : LoopState :=
  let numIntervals :=
    Math_ceil (FlightDetails.durationMinutes flightDetails
               / inject_Z intervalMinutes) in
  fold_left (loop_body flightDetails departureCoords totalDistance flightBearing)
    (loop_indices numIntervals) initialState.

(** The body of the [try] block. *)
Definition tryBlock (flightDetails : FlightDetails.t) : Outcome FlightRecommendation.t :=
  let departureAirport := findAirport (FlightDetails.departure flightDetails) in
  let arrivalAirport := findAirport (FlightDetails.arrival flightDetails) in
  match departureAirport, arrivalAirport with
  | None, _ =>
      Thrown ("Airport not found: " ++ FlightDetails.departure flightDetails)%string
  | Some _, None =>
      Thrown ("Airport not found: " ++ FlightDetails.arrival flightDetails)%string
  | Some departureAirport, Some arrivalAirport =>
      let departureCoords :=
        Coords.mk (Airport.latitude departureAirport) (Airport.longitude departureAirport) in
      let arrivalCoords :=
        Coords.mk (Airport.latitude arrivalAirport) (Airport.longitude arrivalAirport) in
      let totalDistance := getDistance departureCoords arrivalCoords in
      let flightBearing := getRhumbLineBearing departureCoords arrivalCoords in
      let st := sampleFlight flightDetails departureCoords totalDistance flightBearing in
      let uniqueEvents := uniqueEvents (sunEvents st) in
      let advice :=
        advise uniqueEvents (sunVisibleCount st) (leftSideCount st) (rightSideCount st) in
      let averageSunVisibility :=
        if (0 <? List.length (flightPath st))%nat
        then Qnat (sunVisibleCount st) / Qnat (List.length (flightPath st)) * 100
        else 0 in
      let sunriseEvents := countType Sunrise uniqueEvents in
      let sunsetEvents := countType Sunset uniqueEvents in
      Returned
        {| FlightRecommendation.recommendation := recommendation advice;
           FlightRecommendation.confidence := confidence advice;
           FlightRecommendation.description := description advice;
           FlightRecommendation.events := uniqueEvents;
           FlightRecommendation.globeData :=
             {| GlobeData.departure := departureAirport;
                GlobeData.arrival := arrivalAirport;
                GlobeData.flightPath := flightPath st;
                GlobeData.totalDistance := totalDistance;
                GlobeData.totalDuration := FlightDetails.durationMinutes flightDetails;
                GlobeData.summary :=
                  {| Summary.totalSunriseEvents := sunriseEvents;
                     Summary.totalSunsetEvents := sunsetEvents;
                     Summary.averageSunVisibility := averageSunVisibility;
                     Summary.bestViewingSide := recommendation advice |} |} |}
  end.

(** The [catch] block. *)
Definition errorResult (flightDetails : FlightDetails.t) (message : string) :
    FlightRecommendation.t :=
  {| FlightRecommendation.recommendation := RecEither;
     FlightRecommendation.confidence := 0;
     FlightRecommendation.description :=
       ("Unable to calculate sun position: " ++ message)%string;
     FlightRecommendation.events := [];
     FlightRecommendation.globeData :=
       {| GlobeData.departure :=
            Airport.mk (FlightDetails.departure flightDetails) "Unknown" 0 0;
          GlobeData.arrival :=
            Airport.mk (FlightDetails.arrival flightDetails) "Unknown" 0 0;
          GlobeData.flightPath := [];
          GlobeData.totalDistance := 0;
          GlobeData.totalDuration := FlightDetails.durationMinutes flightDetails;
          GlobeData.summary :=
            {| Summary.totalSunriseEvents := 0;
               Summary.totalSunsetEvents := 0;
               Summary.averageSunVisibility := 0;
               Summary.bestViewingSide := RecEither |} |} |}.

Definition calculateSunPositionForFlight (flightDetails : FlightDetails.t) :
    FlightRecommendation.t :=
  match tryBlock flightDetails with
  | Returned result => result
  | Thrown message => errorResult flightDetails message
  end.

End Calculator.

(** ** Reference notions used in the statements *)

(** [x] brought into [[0, 360)] by a whole number of turns. *)
Definition mod360 (x : Q) : Q := x - 360 * inject_Z (Qfloor (x / 360)).

(** The two events are of one type and less than ten minutes apart. *)
Definition near10 (a b : SunEvent.t) : Prop :=
  SunEvent.type a = SunEvent.type b
  /\ (Z.abs (SunEvent.time a - SunEvent.time b) < 10 * 60 * 1000)%Z.

(** The coordinate object built from an airport record. *)
Definition coordsOf (airport : Airport.t) : Coords.t :=
  Coords.mk (Airport.latitude airport) (Airport.longitude airport).

Definition numIntervalsOf (flightDetails : FlightDetails.t) : Z :=
  Math_ceil (FlightDetails.durationMinutes flightDetails
             / inject_Z intervalMinutes).

(** Both codes of the flight are in the airport table. *)
Definition resolves {imports : Imports} (flightDetails : FlightDetails.t)
    (departureAirport arrivalAirport : Airport.t) : Prop :=
  findAirport (FlightDetails.departure flightDetails) = Some departureAirport
  /\ findAirport (FlightDetails.arrival flightDetails) = Some arrivalAirport.

(** The instant suncalc gives for an event type. *)
Definition instantOf (type : EventType) (sunTimes : SunCalcTimes.t) : option Z :=
  match type with
  | Sunrise => SunCalcTimes.sunrise sunTimes
  | Sunset => SunCalcTimes.sunset sunTimes
  end.

(** geolib's bearing is a compass bearing. *)
Definition bearing_in_range {imports : Imports} : Prop :=
  forall a b : Coords.t, 0 <= getRhumbLineBearing a b /\ getRhumbLineBearing a b < 360.

(** suncalc's azimuth is an [atan2], so between minus pi and pi. *)
Definition azimuth_in_range {imports : Imports} : Prop :=
  forall (t : Z) (la lo : Q),
    - Math_PI <= SunCalcPosition.azimuth (getPosition t la lo)
    /\ SunCalcPosition.azimuth (getPosition t la lo) <= Math_PI.

(** geolib's distance from a point to itself is zero. *)
Definition distance_self_zero {imports : Imports} : Prop :=
  forall a : Coords.t, getDistance a a == 0.

(** geolib's destination point depends on the distance as a number, not on
    the fraction that stands for it. *)
Definition destination_respects_eq {imports : Imports} : Prop :=
  forall (origin : Coords.t) (distance distance' bearing : Q),
    distance == distance' ->
    Coords.latitude (computeDestinationPoint origin distance bearing)
      == Coords.latitude (computeDestinationPoint origin distance' bearing)
    /\ Coords.longitude (computeDestinationPoint origin distance bearing)
      == Coords.longitude (computeDestinationPoint origin distance' bearing).

(** The location object the loop builds from a position. *)
Definition locationOf (position : Coords.t) : Location.t :=
  Location.mk (Coords.latitude position) (Coords.longitude position).

(** ** A small instance of the imports, for running the calculator *)

Module Fixture.

Definition JFK : Airport.t :=
  Airport.mk "JFK" "John F Kennedy International Airport" (4064 # 100) (- 7378 # 100).

Definition LHR : Airport.t :=
  Airport.mk "LHR" "London Heathrow Airport" (5147 # 100) (- 45 # 100).

(** A flat-earth stand-in for geolib: degrees of latitude and longitude
    summed, 111 km each. *)
Definition flatDistance (a b : Coords.t) : Q :=
  (Qabs (Coords.latitude a - Coords.latitude b)
   + Qabs (Coords.longitude a - Coords.longitude b)) * 111000.

Definition eastward (origin : Coords.t) (distance bearing : Q) : Coords.t :=
  Coords.mk (Coords.latitude origin) (Coords.longitude origin + distance / 111000).

(** A stand-in for suncalc: the sun is up from 06:00 to 18:00 UTC of day
    zero, one degree (in radians, roughly) above or below the horizon, and
    stands to the south-east. *)
Definition sunrise0 : Z := 6 * 3600 * 1000.
Definition sunset0 : Z := 18 * 3600 * 1000.

Definition toyPosition (t : Z) (la lo : Q) : SunCalcPosition.t :=
  SunCalcPosition.mk (- 1 # 2)
    (if ((sunrise0 <=? t) && (t <? sunset0))%Z then 1 # 50 else - 1 # 50).

Definition toyTimes (t : Z) (la lo : Q) : SunCalcTimes.t :=
  SunCalcTimes.mk (Some sunrise0) (Some sunset0).

(** Polar summer: no sunrise and no sunset. *)
Definition polarTimes (t : Z) (la lo : Q) : SunCalcTimes.t :=
  SunCalcTimes.mk None None.

Definition two_digits (n : Z) : string :=
  ((if (n <? 10)%Z then "0" else "") ++ string_of_nat (Z.to_nat n))%string.

Definition clock (t : Z) (zone pattern : string) : string :=
  (two_digits ((t / 3600000) mod 24) ++ ":" ++ two_digits ((t / 60000) mod 60))%string.

#[export] Instance toy : Imports := {|
  airports := [JFK; LHR];
  getDistance := flatDistance;
  getRhumbLineBearing := fun _ _ => 51;
  computeDestinationPoint := eastward;
  getPosition := toyPosition;
  getTimes := toyTimes;
  formatInTimeZone := clock
|}.

Definition polar : Imports := {|
  airports := [JFK; LHR];
  getDistance := flatDistance;
  getRhumbLineBearing := fun _ _ => 51;
  computeDestinationPoint := eastward;
  getPosition := toyPosition;
  getTimes := polarTimes;
  formatInTimeZone := clock
|}.

(** Departure at 05:40 UTC, 40 minutes: the sun rises 20 minutes in. *)
Definition dawnFlight : FlightDetails.t :=
  FlightDetails.mk "JFK" "LHR" (5 * 3600 * 1000 + 40 * 60 * 1000) 40.

Definition sameAirportFlight : FlightDetails.t :=
  FlightDetails.mk "JFK" "JFK" (5 * 3600 * 1000 + 40 * 60 * 1000) 42.

Definition unknownFlight : FlightDetails.t :=
  FlightDetails.mk "ZZZ" "LHR" 0 60.

(** Three raw events of one type, eight minutes apart. *)
Definition rawEvent (minutes : Z) : SunEvent.t :=
  SunEvent.mk Sunrise (minutes * 60 * 1000) (Location.mk 0 0) 90 0 SideRight 1.

Definition threeEvents : list SunEvent.t := [rawEvent 0; rawEvent 8; rawEvent 16].

End Fixture.

(** ** geolib at distance zero, on double-precision numbers

    geolib turns degrees into radians with [toRad] and back with [toDeg].
    At distance 0 its destination point has latitude
    [toDeg (asin (sin (toRad latitude)))] and longitude
    [toDeg (toRad longitude)].  With [asin (sin x)] read as [x], what is
    left is the trip through radians and back, run here on IEEE 754
    binary64 numbers, the numbers of JavaScript. *)

Module Binary64.

Import PrimFloat.

Definition PI : float := 0x1.921fb54442d18p+1%float.

Definition toRad (value : float) : float := (value * PI / 180)%float.

Definition toDeg (value : float) : float := (value * 180 / PI)%float.

Definition ofZ (z : Z) : float :=
  match z with
  | Z0 => 0%float
  | Zpos p => of_uint63 (Uint63.of_Z (Zpos p))
  | Zneg p => (- of_uint63 (Uint63.of_Z (Zpos p)))%float
  end.

(** The double nearest to a fraction of two integers below 2^53. *)
Definition ofQ (q : Q) : float := (ofZ (Qnum q) / ofZ (Zpos (Qden q)))%float.

(** The exact value of a finite double. *)
Definition toQ (f : float) : Q :=
  match FloatOps.Prim2SF f with
  | SpecFloat.S754_finite sign m e =>
      (if sign then - 1 else 1) * inject_Z (Zpos m)
      * (if (0 <=? e)%Z then inject_Z (2 ^ e) else 1 # (2 ^ Z.to_pos (- e)))
  | _ => 0
  end.

Definition roundTrip (degrees : Q) : Q := toQ (toDeg (toRad (ofQ degrees))).

(** The JFK record with the doubles that the literals 40.64 and -73.78
    denote. *)
Definition latitudeJFK : Q := Eval vm_compute in toQ (ofQ (4064 # 100)).

Definition longitudeJFK : Q := Eval vm_compute in toQ (ofQ (- 7378 # 100)).

Definition JFK : Airport.t :=
  Airport.mk "JFK" "John F Kennedy International Airport" latitudeJFK longitudeJFK.

Definition destinationPoint (origin : Coords.t) (distance bearing : Q) : Coords.t :=
  if Qeq_bool distance 0 then
    Coords.mk (roundTrip (Coords.latitude origin)) (roundTrip (Coords.longitude origin))
  else Fixture.eastward origin distance bearing.

Definition imports : Imports := {|
  airports := [JFK; Fixture.LHR];
  getDistance := Fixture.flatDistance;
  getRhumbLineBearing := fun _ _ => 51;
  computeDestinationPoint := destinationPoint;
  getPosition := Fixture.toyPosition;
  getTimes := Fixture.toyTimes;
  formatInTimeZone := Fixture.clock
|}.

End Binary64.

(** ** Counting over the returned path *)

Definition visiblePoints (path : list FlightPathPoint.t) : nat :=
  List.length
    (filter (fun p => SunPosition.visible (FlightPathPoint.sunPosition p)) path).

Definition hasSide (s : Side) (p : FlightPathPoint.t) : bool :=
  match FlightPathPoint.viewingSide p with
  | Some s' => Side_eqb s' s
  | None => false
  end.

Definition sidePoints (s : Side) (path : list FlightPathPoint.t) : nat :=
  List.length (filter (hasSide s) path).

(** The three counters of the loop say what its path says. *)
Definition counters_agree (st : LoopState) : Prop :=
  sunVisibleCount st = visiblePoints (flightPath st)
  /\ leftSideCount st = sidePoints SideLeft (flightPath st)
  /\ rightSideCount st = sidePoints SideRight (flightPath st).

(** [a] happens before [b]. *)
Definition earlier (a b : SunEvent.t) : Prop :=
  (SunEvent.time a < SunEvent.time b)%Z.

(** [a] happens no later than [b]. *)
Definition notLater (a b : SunEvent.t) : Prop :=
  (SunEvent.time a <= SunEvent.time b)%Z.

Module Scenarios.

(** Half an hour in full daylight, far from sunrise and sunset. *)
Definition noonFlight : FlightDetails.t :=
  FlightDetails.mk "JFK" "LHR" (10 * 3600 * 1000) 30.

(** Half an hour at midnight. *)
Definition nightFlight : FlightDetails.t :=
  FlightDetails.mk "JFK" "LHR" 0 30.

(** Thirty minutes and 60 microseconds, departing at 05:40 UTC. *)
Definition fractionFlight : FlightDetails.t :=
  FlightDetails.mk "JFK" "LHR" (5 * 3600 * 1000 + 40 * 60 * 1000) (30000001 # 1000000).

End Scenarios.

(** * The form and the duration it reads

    Strings here are sequences of ASCII characters.  JavaScript's case
    mapping and white space from code unit 128 on follow Unicode and are not
    modelled; a number read from a string is exact, as a double is up to
    2^53. *)

(** ** Characters and strings *)

Definition charCode (c : ascii) : N := N_of_ascii c.

(** [\d] *)
Definition isDigit (c : ascii) : bool :=
  ((48 <=? charCode c) && (charCode c <=? 57))%N.

(** [\s], and what [trim] removes: tab, line feed, vertical tab, form feed,
    carriage return, space. *)
Definition isWhiteSpace (c : ascii) : bool :=
  (((9 <=? charCode c) && (charCode c <=? 13)) || (charCode c =? 32))%N.

Definition isUpper (c : ascii) : bool :=
  ((65 <=? charCode c) && (charCode c <=? 90))%N.

Definition isLower (c : ascii) : bool :=
  ((97 <=? charCode c) && (charCode c <=? 122))%N.

(** [[A-Za-z]] *)
Definition isLetter (c : ascii) : bool := isUpper c || isLower c.

Definition toLowerChar (c : ascii) : ascii :=
  if isUpper c then ascii_of_N (charCode c + 32) else c.

Definition toUpperChar (c : ascii) : ascii :=
  if isLower c then ascii_of_N (charCode c - 32) else c.

Fixpoint mapString (f : ascii -> ascii) (s : string) : string :=
  match s with
  | EmptyString => EmptyString
  | String c rest => String (f c) (mapString f rest)
  end.

Fixpoint filterString (p : ascii -> bool) (s : string) : string :=
  match s with
  | EmptyString => EmptyString
  | String c rest => if p c then String c (filterString p rest) else filterString p rest
  end.

Fixpoint allString (p : ascii -> bool) (s : string) : bool :=
  match s with
  | EmptyString => true
  | String c rest => p c && allString p rest
  end.

Definition toLowerCase (s : string) : string := mapString toLowerChar s.

Definition toUpperCase (s : string) : string := mapString toUpperChar s.

Fixpoint trimStart (s : string) : string :=
  match s with
  | EmptyString => EmptyString
  | String c rest => if isWhiteSpace c then trimStart rest else s
  end.

Fixpoint trimEnd (s : string) : string :=
  match s with
  | EmptyString => EmptyString
  | String c rest =>
      match trimEnd rest with
      | EmptyString => if isWhiteSpace c then EmptyString else String c EmptyString
      | kept => String c kept
      end
  end.

Definition trim (s : string) : string := trimEnd (trimStart s).

(** The text of a non-negative integer. *)
Definition string_of_N (n : N) : string :=
  DecimalString.NilZero.string_of_uint (N.to_uint n).

(** The text of an integer, as a template literal prints it. *)
Definition string_of_Z (z : Z) : string :=
  if (z <? 0)%Z then ("-" ++ string_of_N (Z.abs_N z))%string
  else string_of_N (Z.to_N z).

(** [(\d+)]: the longest run of digits at the start, and what follows it.
    The patterns below put after a run of digits only what no digit
    matches, so the longest run is the only one that can match. *)
Fixpoint digitRun (s : string) : string * string :=
  match s with
  | EmptyString => (EmptyString, EmptyString)
  | String c rest =>
      if isDigit c
      then let (digits, after) := digitRun rest in (String c digits, after)
      else (EmptyString, s)
  end.

(** [parseInt(digits, 10)] on a run of digits. *)
Fixpoint decimalValue (acc : N) (digits : string) : N :=
  match digits with
  | EmptyString => acc
  | String c rest => decimalValue (10 * acc + (charCode c - 48)) rest
  end.

Definition parseInt (digits : string) : N := decimalValue 0 digits.

Definition isEmpty (s : string) : bool :=
  match s with EmptyString => true | String _ _ => false end.

(** [s] without the prefix [p], when it starts with it. *)
Fixpoint stripPrefix (p s : string) : option string :=
  match p, s with
  | EmptyString, _ => Some s
  | String a p', String b s' => if Ascii.eqb a b then stripPrefix p' s' else None
  | String _ _, EmptyString => None
  end.

(** ** [parseDurationToMinutes] *)

(** [(?:minutes?|mins?|m)] and [(?:hours?|hrs?|h)], each alternative in the
    order the pattern tries it. *)
Definition minuteUnits : list string := ["minutes"; "minute"; "mins"; "min"; "m"]%string.

Definition hourUnits : list string := ["hours"; "hour"; "hrs"; "hr"; "h"]%string.

(** [\s*(?:...)$]: white space, one of the units, the end. *)
Definition endsWithUnit (units : list string) (s : string) : bool :=
  existsb (String.eqb (trimStart s)) units.

(** [^(\d+)\s*(?:...)$], returning the captured digits. *)
Definition matchNumberUnit (units : list string) (s : string) : option string :=
  let (digits, after) := digitRun s in
  if isEmpty digits then None
  else if endsWithUnit units after then Some digits else None.

(** [(\d+)\s*(?:minutes?|mins?|m)$], returning the captured digits. *)
Definition matchMinutesTail (s : string) : option string :=
  matchNumberUnit minuteUnits s.

(** The first alternative of [units] after which the rest of the pattern,
    [continue], matches: alternation with backtracking. *)
Fixpoint firstUnit {B : Type} (units : list string) (continue : string -> option B)
    (s : string) : option B :=
  match units with
  | [] => None
  | unit :: others =>
      match stripPrefix unit s with
      | Some after =>
          match continue after with
          | Some found => Some found
          | None => firstUnit others continue s
          end
      | None => firstUnit others continue s
      end
  end.

(** [^(\d+)\s*(?:hours?|hrs?|h)\s*(\d+)\s*(?:minutes?|mins?|m)$] *)
Definition matchHoursMinutes (s : string) : option (string * string) :=
  let (hours, after) := digitRun s in
  if isEmpty hours then None
  else
    firstUnit hourUnits
      (fun rest =>
         match matchMinutesTail (trimStart rest) with
         | Some minutes => Some (hours, minutes)
         | None => None
         end)
      (trimStart after).

(** [^(\d+):(\d+)$] *)
Definition matchColon (s : string) : option (string * string) :=
  let (hours, after) := digitRun s in
  if isEmpty hours then None
  else
    match after with
    | String ":" rest =>
        let (minutes, tail) := digitRun rest in
        if isEmpty minutes then None
        else if isEmpty tail then Some (hours, minutes) else None
    | _ => None
    end.

(** [None] is [null]. *)
Definition parseDurationToMinutes (duration : string) : option N :=
  if isEmpty duration then None
  else
    let trimmed := toLowerCase (trim duration) in
    match matchNumberUnit minuteUnits trimmed with
    | Some minutes => Some (parseInt minutes)
    | None =>
        match matchNumberUnit hourUnits trimmed with
        | Some hours => Some (parseInt hours * 60)%N
        | None =>
            match matchHoursMinutes trimmed with
            | Some (hours, minutes) => Some (parseInt hours * 60 + parseInt minutes)%N
            | None =>
                match matchColon trimmed with
                | Some (hours, minutes) =>
                    Some (parseInt hours * 60 + parseInt minutes)%N
                | None => None
                end
            end
        end
    end.

(** ** [formatDuration] of the results panel, on whole minutes *)

Definition formatDuration (minutes : Z) : string :=
  let hours := (minutes / 60)%Z in
  let mins := Z.rem minutes 60 in
  (string_of_Z hours ++ "h " ++ string_of_Z mins ++ "m")%string.

(** The largest integer below which every integer is a double. *)
Definition MAX_SAFE_INTEGER : N := 9007199254740991.

(** ** [validateField] of the form *)

(** [s] between double quotes. *)
Definition quoted (s : string) : string :=
  (String (ascii_of_N 34) s ++ String (ascii_of_N 34) EmptyString)%string.

(** What the form and the route read from the environment: the parsing of
    a date text ([None] for an invalid date) and the successive readings of
    the clock. *)
Class Clock : Type := {
  Date_parse : string -> option Z;
  Date_now : nat -> Z
}.

Inductive FormField : Type := SourceCity | DestinationCity | DepartureTime | FlightDuration.

Definition dayMs : Z := 24 * 60 * 60 * 1000.

(** [sourceCity] is the form's current source city, read by the
    destination check. *)
Definition validateField {clock : Clock} (sourceCity : string) (field : FormField)
    (value : string) : option string :=
  match field with
  | SourceCity =>
      if isEmpty (trim value) then Some "Source city is required"%string
      else if (String.length (trim value) <? 3)%nat
           then Some "Please enter at least 3 characters"%string
           else None
  | DestinationCity =>
      if isEmpty (trim value) then Some "Destination city is required"%string
      else if (String.length (trim value) <? 3)%nat
           then Some "Please enter at least 3 characters"%string
           else if String.eqb (toLowerCase (trim value)) (toLowerCase (trim sourceCity))
                then Some "Destination must be different from source city"%string
                else None
  | DepartureTime =>
      if isEmpty value then Some "Departure time is required"%string
      else
        let now := Date_now 0 in
        let oneDayAgo := (now - dayMs)%Z in
        let oneYearFromNow := (now + 365 * dayMs)%Z in
        match Date_parse value with
        | None => Some "Please enter a valid date and time"%string
        | Some departureDate =>
            if (departureDate <? oneDayAgo)%Z
            then Some "Departure time cannot be more than 1 day in the past"%string
            else if (oneYearFromNow <? departureDate)%Z
                 then Some "Departure time cannot be more than 1 year in the future"%string
                 else None
        end
  | FlightDuration =>
      if isEmpty (trim value) then Some "Flight duration is required"%string
      else
        match parseDurationToMinutes (trim value) with
        | None =>
            Some ("Invalid format. Use " ++ quoted "2h 30m" ++ ", " ++ quoted "2:30"
                  ++ ", or " ++ quoted "150 minutes")%string
        | Some parsedDuration =>
            if (parsedDuration <? 30)%N
            then Some "Flight duration must be at least 30 minutes"%string
            else if (1200 <? parsedDuration)%N
                 then Some "Flight duration cannot exceed 20 hours"%string
                 else None
        end
  end.

(** ** [mapCityToIATA] of the server action *)

Definition cityToIATA : list (string * string) :=
  [ ("new york", "JFK"); ("nyc", "JFK"); ("newyork", "JFK"); ("los angeles", "LAX");
    ("la", "LAX"); ("losangeles", "LAX"); ("chicago", "ORD"); ("miami", "MIA");
    ("san francisco", "SFO"); ("sanfrancisco", "SFO"); ("sf", "SFO");
    ("seattle", "SEA"); ("boston", "BOS"); ("denver", "DEN"); ("atlanta", "ATL");
    ("dallas", "DFW"); ("houston", "IAH"); ("phoenix", "PHX"); ("philadelphia", "PHL");
    ("detroit", "DTW"); ("minneapolis", "MSP"); ("orlando", "MCO");
    ("las vegas", "LAS"); ("lasvegas", "LAS"); ("vegas", "LAS"); ("washington", "DCA");
    ("dc", "DCA"); ("london", "LHR"); ("paris", "CDG"); ("tokyo", "NRT");
    ("beijing", "PEK"); ("shanghai", "PVG"); ("hong kong", "HKG"); ("hongkong", "HKG");
    ("singapore", "SIN"); ("dubai", "DXB"); ("amsterdam", "AMS"); ("frankfurt", "FRA");
    ("rome", "FCO"); ("madrid", "MAD"); ("barcelona", "BCN"); ("munich", "MUC");
    ("zurich", "ZUR"); ("vienna", "VIE"); ("stockholm", "ARN"); ("copenhagen", "CPH");
    ("oslo", "OSL"); ("helsinki", "HEL"); ("moscow", "SVO"); ("istanbul", "IST");
    ("cairo", "CAI"); ("johannesburg", "JNB"); ("sydney", "SYD"); ("melbourne", "MEL");
    ("toronto", "YYZ"); ("vancouver", "YVR"); ("montreal", "YUL");
    ("mexico city", "MEX"); ("mexicocity", "MEX"); ("sao paulo", "GRU");
    ("saopaulo", "GRU"); ("rio de janeiro", "GIG"); ("riodejaneiro", "GIG");
    ("rio", "GIG"); ("buenos aires", "EZE"); ("buenosaires", "EZE"); ("lima", "LIM");
    ("bogota", "BOG"); ("mumbai", "BOM"); ("delhi", "DEL"); ("bangalore", "BLR");
    ("kolkata", "CCU"); ("chennai", "MAA"); ("hyderabad", "HYD"); ("pune", "PNQ");
    ("ahmedabad", "AMD"); ("kochi", "COK"); ("thiruvananthapuram", "TRV");
    ("calicut", "CCJ"); ("coimbatore", "CJB"); ("goa", "GOI"); ("jakarta", "CGK");
    ("kuala lumpur", "KUL"); ("kualalumpur", "KUL"); ("bangkok", "BKK");
    ("manila", "MNL"); ("seoul", "ICN"); ("taipei", "TPE"); ("ho chi minh", "SGN");
    ("hochiminh", "SGN"); ("hanoi", "HAN") ]%string.

(** The names every object inherits from [Object.prototype]: looking one of
    them up in the table gives a function or an object, not a code. *)
Definition inheritedNames : list string :=
  [ "constructor"; "__defineGetter__"; "__defineSetter__"; "hasOwnProperty";
    "__lookupGetter__"; "__lookupSetter__"; "isPrototypeOf"; "propertyIsEnumerable";
    "toString"; "valueOf"; "__proto__"; "toLocaleString" ]%string.

(** What [mapCityToIATA] returns: a string, or an inherited member of the
    table object. *)
Inductive Mapped : Type :=
| Code (iata : string)
| Inherited.

(** [cityToIATA[city]], when truthy. *)
Definition lookupCity (city : string) : option Mapped :=
  match find (fun entry => String.eqb (fst entry) city) cityToIATA with
  | Some entry => Some (Code (snd entry))
  | None => if existsb (String.eqb city) inheritedNames then Some Inherited else None
  end.

Definition mapCityToIATA (cityName : string) : Mapped :=
  let city := trim (toLowerCase cityName) in
  match lookupCity city with
  | Some mapped => mapped
  | None =>
      if (String.length cityName =? 3)%nat && allString isLetter cityName
      then Code (toUpperCase cityName)
      else Code (toUpperCase (substring 0 3 (filterString isLetter cityName)))
  end.

(** * The API route *)

(** A field of the parsed request body. *)
Inductive JSONValue : Type :=
| JUndefined
| JNull
| JBoolean (b : bool)
| JNumber (q : Q)
| JInfinity (negative : bool)
| JString (s : string)
| JCompound.

Definition truthy (v : JSONValue) : bool :=
  match v with
  | JUndefined | JNull => false
  | JBoolean b => b
  | JNumber q => negb (Qeq_bool q 0)
  | JInfinity _ => true
  | JString s => negb (isEmpty s)
  | JCompound => true
  end.

Definition validateIataCode (code : JSONValue) (fieldName : string) : option string :=
  match code with
  | JString s =>
      if isEmpty s
      then Some (fieldName ++ " is required and must be a string")%string
      else
        let trimmedCode := toUpperCase (trim s) in
        if negb (String.length trimmedCode =? 3)%nat
        then Some (fieldName ++ " must be exactly 3 characters (e.g., LAX, JFK)")%string
        else if negb (allString isUpper trimmedCode)
             then Some (fieldName ++ " must contain only letters (e.g., LAX, JFK)")%string
             else None
  | _ => Some (fieldName ++ " is required and must be a string")%string
  end.

(** The [{ error }] or [{ date }] object. *)
Definition validateDepartureTime {clock : Clock} (timeString : JSONValue) : string + Z :=
  match timeString with
  | JString s =>
      if isEmpty s
      then inl "Departure time is required and must be a valid ISO string (e.g., 2024-01-15T14:30:00Z)"%string
      else
        match Date_parse s with
        | None =>
            inl "Departure time must be a valid ISO string (e.g., 2024-01-15T14:30:00Z)"%string
        | Some date =>
            let oneDayAgo := (Date_now 0 - dayMs)%Z in
            if (date <? oneDayAgo)%Z
            then inl "Departure time cannot be more than 1 day in the past"%string
            else
              let oneYearFromNow := (Date_now 1 + 365 * dayMs)%Z in
              if (oneYearFromNow <? date)%Z
              then inl "Departure time cannot be more than 1 year in the future"%string
              else inr date
        end
  | _ =>
      inl "Departure time is required and must be a valid ISO string (e.g., 2024-01-15T14:30:00Z)"%string
  end.

Definition validateDuration (duration : JSONValue) : option string :=
  match duration with
  | JUndefined | JNull => Some "Flight duration is required"%string
  | JNumber q =>
      if negb (Qltb 0 q) then Some "Flight duration must be greater than 0 minutes"%string
      else if Qltb (20 * 60) q
           then Some "Flight duration cannot exceed 20 hours (1200 minutes)"%string
           else if Qltb q 30
                then Some "Flight duration must be at least 30 minutes"%string
                else None
  | JInfinity negative =>
      if negative then Some "Flight duration must be greater than 0 minutes"%string
      else Some "Flight duration cannot exceed 20 hours (1200 minutes)"%string
  | _ => Some "Flight duration must be a valid number (in minutes)"%string
  end.

(** What [request.json()] gives: a rejection, [null], or a value whose four
    fields are read ([JUndefined] where there is none, as on a number, a
    string or an array). *)
Inductive RequestBody : Type :=
| InvalidJson
| JsonNull
| JsonFields (departure arrival departureTime durationMinutes : JSONValue).

Inductive Response (Data : Type) : Type :=
| Status200 (data : Data)
| Status400 (error : string) (details : option string)
| Status500 (error : string).

Arguments Status200 {Data} data.
Arguments Status400 {Data} error details.
Arguments Status500 {Data} error.

(** [haystack.includes(needle)] *)
Definition includes (haystack needle : string) : bool :=
  match String.index 0 needle haystack with
  | Some _ => true
  | None => false
  end.

Definition toList {A : Type} (o : option A) : list A :=
  match o with Some a => [a] | None => [] end.

(** The comparison of the two codes in the route; calling [trim] on what is
    not a string throws a [TypeError]. *)
Definition sameAirports (departure arrival : JSONValue) : Outcome bool :=
  if truthy departure && truthy arrival then
    match departure with
    | JString d =>
        match arrival with
        | JString a => Returned (String.eqb (toUpperCase (trim d)) (toUpperCase (trim a)))
        | _ => Thrown "body.arrival.trim is not a function"
        end
    | _ => Thrown "body.departure.trim is not a function"
    end
  else Returned false.

Section Route.

Context {clock : Clock}.
Variable Data : Type.

(** [calculateSunPositionForFlight] as the route calls it. *)
Variable calculate : FlightDetails.t -> Outcome Data.

(** The errors the route collects, in the order it pushes them, and the
    parsed departure date. *)
Definition validateRequest (departure arrival departureTime durationMinutes : JSONValue) :
    Outcome (list string * option Z) :=
  let departureError := validateIataCode departure "Departure airport" in
  let arrivalError := validateIataCode arrival "Arrival airport" in
  match sameAirports departure arrival with
  | Thrown message => Thrown message
  | Returned same =>
      let timeResult := validateDepartureTime departureTime in
      let durationError := validateDuration durationMinutes in
      Returned
        (toList departureError ++ toList arrivalError
         ++ (if same then ["Departure and arrival airports must be different"%string]
             else [])
         ++ (match timeResult with inl timeError => [timeError] | inr _ => [] end)
         ++ toList durationError,
         match timeResult with inl _ => None | inr date => Some date end)
  end.

(** The [try] block of [POST] once the body is parsed. *)
Definition handleBody (departure arrival departureTime durationMinutes : JSONValue) :
    Outcome (Response Data) :=
  match validateRequest departure arrival departureTime durationMinutes with
  | Thrown message => Thrown message
  | Returned (errors, departureDate) =>
      if (0 <? List.length errors)%nat then
        Returned (Status400 "Validation failed" (Some (String.concat "; " errors)))
      else
        match departure, arrival, departureDate, durationMinutes with
        | JString d, JString a, Some date, JNumber minutes =>
            match calculate
                    {| FlightDetails.departure := toUpperCase (trim d);
                       FlightDetails.arrival := toUpperCase (trim a);
                       FlightDetails.departureTime := date;
                       FlightDetails.durationMinutes := minutes |} with
            | Returned recommendation => Returned (Status200 recommendation)
            | Thrown message => Thrown message
            end
        | _, _, _, _ => Thrown "unreachable: the validators accept nothing else"
        end
  end.

Definition POST (body : RequestBody) : Response Data :=
  match body with
  | InvalidJson =>
      Status400 "Invalid JSON in request body. Please check your request format." None
  | JsonNull => Status500 "An unexpected error occurred while processing your request."
  | JsonFields departure arrival departureTime durationMinutes =>
      match handleBody departure arrival departureTime durationMinutes with
      | Returned response => response
      | Thrown message =>
          if includes message "Airport not found"
          then Status400 "Airport not found. Please check your airport codes." (Some message)
          else Status500 "An unexpected error occurred while processing your request."
      end
  end.

End Route.

(** The route with the calculator of this file behind it. *)
Definition recommendationRoute {imports : Imports} {clock : Clock} (body : RequestBody) :
    Response FlightRecommendation.t :=
  POST (fun flightDetails => Returned (calculateSunPositionForFlight flightDetails)) body.

Definition isString (v : JSONValue) : bool :=
  match v with JString _ => true | _ => false end.

(** A code as the route hands it to the calculator. *)
Definition codeOf (s : string) : string := toUpperCase (trim s).

(** Three capital letters. *)
Definition iataShaped (code : string) : Prop :=
  String.length code = 3%nat /\ allString isUpper code = true.

Module RouteFixture.

(** One date text is understood; the clock stands still shortly before it. *)
#[export] Instance clock : Clock := {|
  Date_parse := fun s =>
    if String.eqb s "1970-01-01T05:40:00Z" then Some (5 * 3600 * 1000 + 40 * 60 * 1000)%Z
    else None;
  Date_now := fun _ => (5 * 3600 * 1000)%Z
|}.

Definition goodRequest : RequestBody :=
  JsonFields (JString " jfk") (JString "lhr") (JString "1970-01-01T05:40:00Z") (JNumber 40).

Definition unknownAirportRequest : RequestBody :=
  JsonFields (JString "zzz") (JString "lhr") (JString "1970-01-01T05:40:00Z") (JNumber 40).

End RouteFixture.

(** * Properties *)

(** ** Numbers *)

Lemma Qltb_true (a b : Q) : Qltb a b = true <-> a < b.
Proof.
  unfold Qltb. destruct (Qlt_le_dec a b) as [Hlt | Hle].
  - tauto.
  - split; [discriminate | intros Hab; exfalso; lra].
Qed.

Lemma Qltb_false (a b : Q) : Qltb a b = false <-> b <= a.
Proof.
  unfold Qltb. destruct (Qlt_le_dec a b) as [Hlt | Hle].
  - split; [discriminate | intros Hab; exfalso; lra].
  - tauto.
Qed.

Lemma Qnat_nonneg (n : nat) : 0 <= Qnat n.
Proof.
  unfold Qnat. change 0 with (inject_Z 0). rewrite <- Zle_Qle. lia.
Qed.

Lemma Qnat_le (n m : nat) : (n <= m)%nat -> Qnat n <= Qnat m.
Proof.
  intros Hnm. unfold Qnat. rewrite <- Zle_Qle. lia.
Qed.

Lemma Qnat_pos (n : nat) : (0 < n)%nat -> 0 < Qnat n.
Proof.
  intros Hn. unfold Qnat. change 0 with (inject_Z 0). rewrite <- Zlt_Qlt. lia.
Qed.

Lemma Qfloor_unique (q : Q) (k : Z) :
  inject_Z k <= q -> q < inject_Z k + 1 -> Qfloor q = k.
Proof.
  intros Hlo Hhi.
  pose proof (Qfloor_le q) as Hfl. pose proof (Qlt_floor q) as Hfu.
  rewrite inject_Z_plus in Hfu. change (inject_Z 1) with 1 in Hfu.
  assert (H1 : inject_Z (Qfloor q) < inject_Z (k + 1)).
  { rewrite inject_Z_plus. change (inject_Z 1) with 1. lra. }
  assert (H2 : inject_Z k < inject_Z (Qfloor q + 1)).
  { rewrite inject_Z_plus. change (inject_Z 1) with 1. lra. }
  rewrite <- Zlt_Qlt in H1, H2. lia.
Qed.

Lemma div360 (x : Q) : x == 360 * (x / 360).
Proof. field. Qed.

(** The remainder of a non-negative number by 360 lies in [[0, 360)]. *)
Lemma js_rem_360_range (x : Q) :
  0 <= x -> 0 <= js_rem x 360 /\ js_rem x 360 < 360.
Proof.
  intros Hx. unfold js_rem, Qtrunc.
  pose proof (div360 x) as Hdiv.
  destruct (Qlt_le_dec (x / 360) 0) as [Hneg | Hpos]; [exfalso; lra |].
  pose proof (Qfloor_le (x / 360)) as Hfl.
  pose proof (Qlt_floor (x / 360)) as Hfu.
  rewrite inject_Z_plus in Hfu. change (inject_Z 1) with 1 in Hfu.
  split; lra.
Qed.

(** [mod360] lands in [[0, 360)]. *)
Lemma mod360_range (x : Q) : 0 <= mod360 x /\ mod360 x < 360.
Proof.
  unfold mod360.
  pose proof (div360 x) as Hdiv.
  pose proof (Qfloor_le (x / 360)) as Hfl.
  pose proof (Qlt_floor (x / 360)) as Hfu.
  rewrite inject_Z_plus in Hfu. change (inject_Z 1) with 1 in Hfu.
  split; lra.
Qed.

(** On differences of two compass angles the two adjustments of
    [azimuthDiff] are the reduction modulo 360. *)
Lemma azimuthDiff_mod360 (a b : Q) :
  0 <= a -> a < 360 -> 0 <= b -> b < 360 ->
  azimuthDiff a b == mod360 (a - b).
Proof.
  intros Ha0 Ha1 Hb0 Hb1. unfold azimuthDiff, mod360.
  pose proof (div360 (a - b)) as Hdiv.
  destruct (Qltb (a - b) 0) eqn:Hneg.
  - apply Qltb_true in Hneg.
    assert (Hbig : Qltb 360 (a - b + 360) = false) by (apply Qltb_false; lra).
    rewrite Hbig.
    rewrite (Qfloor_unique (q := (a - b) / 360) (k := -1)).
    + change (inject_Z (-1)) with (-1 # 1). lra.
    + change (inject_Z (-1)) with (-1 # 1). lra.
    + change (inject_Z (-1)) with (-1 # 1). lra.
  - apply Qltb_false in Hneg.
    assert (Hbig : Qltb 360 (a - b) = false) by (apply Qltb_false; lra).
    rewrite Hbig.
    rewrite (Qfloor_unique (q := (a - b) / 360) (k := 0)).
    + change (inject_Z 0) with 0. lra.
    + change (inject_Z 0) with 0. lra.
    + change (inject_Z 0) with 0. lra.
Qed.

(** The azimuth in degrees is a compass angle when suncalc's azimuth lies
    between minus pi and pi. *)
Lemma sunAzimuthDegreesOf_range (sunPosition : SunCalcPosition.t) :
  - Math_PI <= SunCalcPosition.azimuth sunPosition ->
  SunCalcPosition.azimuth sunPosition <= Math_PI ->
  0 <= sunAzimuthDegreesOf sunPosition /\ sunAzimuthDegreesOf sunPosition < 360.
Proof.
  intros Hlo Hhi. unfold sunAzimuthDegreesOf.
  apply js_rem_360_range.
  set (az := SunCalcPosition.azimuth sunPosition) in *.
  assert (Hpi : 0 < Math_PI) by reflexivity.
  assert (Hdiv : - (1) <= az / Math_PI).
  { apply Qle_shift_div_l; [exact Hpi | lra]. }
  assert (Heq : az * 180 / Math_PI == 180 * (az / Math_PI)).
  { field. intros Hz. rewrite Hz in Hpi. discriminate. }
  lra.
Qed.

(** ** The sampling loop *)

Section Loop.

Context {imports : Imports}.
Variable flightDetails : FlightDetails.t.
Variable departureCoords : Coords.t.
Variables totalDistance flightBearing : Q.

Let body := loop_body flightDetails departureCoords totalDistance flightBearing.
Let point := pointAt flightDetails departureCoords totalDistance flightBearing.
Let emitted := eventsAt flightDetails departureCoords totalDistance flightBearing.
Let sunUp (i : Z) : bool :=
  Qltb 0 (sunElevationDegreesOf
            (sunPositionAt flightDetails departureCoords totalDistance flightBearing i)).

Lemma loop_body_flightPath (st : LoopState) (i : Z) :
  flightPath (body st i) = flightPath st ++ [point i].
Proof.
  unfold body, point, loop_body, pointAt, sunPositionAt, locationAt,
    currentPositionAt, currentTimeAt, progressAt, timeOffsetMinutesAt,
    sunElevationDegreesOf, sunAzimuthDegreesOf.
  cbv zeta.
  destruct (Qltb 0 _); reflexivity.
Qed.

Lemma loop_body_sunEvents (st : LoopState) (i : Z) :
  sunEvents (body st i) = sunEvents st ++ emitted i.
Proof.
  unfold body, emitted, loop_body, eventsAt, sunPositionAt, sunTimesAt, locationAt,
    currentPositionAt, currentTimeAt, progressAt, timeOffsetMinutesAt,
    sunElevationDegreesOf, sunAzimuthDegreesOf.
  cbv zeta.
  destruct (Qltb 0 _); cbv beta iota; cbn [andb sunEvents app].
  - destruct (_ && _); [reflexivity | symmetry; apply app_nil_r].
  - symmetry. apply app_nil_r.
Qed.

Lemma loop_body_sunVisibleCount (st : LoopState) (i : Z) :
  sunVisibleCount (body st i)
  = (sunVisibleCount st + (if sunUp i then 1 else 0))%nat.
Proof.
  unfold body, sunUp, loop_body, sunPositionAt,
    currentPositionAt, currentTimeAt, progressAt, timeOffsetMinutesAt,
    sunElevationDegreesOf.
  cbv zeta.
  destruct (Qltb 0 _); cbv beta iota; cbn [sunVisibleCount]; lia.
Qed.

Lemma loop_flightPath (l : list Z) (st : LoopState) :
  flightPath (fold_left body l st) = flightPath st ++ map point l.
Proof.
  revert st. induction l as [| i l IH]; intros st; cbn [fold_left map].
  - symmetry. apply app_nil_r.
  - rewrite IH, loop_body_flightPath, <- app_assoc. reflexivity.
Qed.

Lemma loop_sunEvents (l : list Z) (st : LoopState) :
  sunEvents (fold_left body l st) = sunEvents st ++ flat_map emitted l.
Proof.
  revert st. induction l as [| i l IH]; intros st; cbn [fold_left flat_map].
  - symmetry. apply app_nil_r.
  - rewrite IH, loop_body_sunEvents, <- app_assoc. reflexivity.
Qed.

(** The loop never counts more visible samples than it has pushed points. *)
Lemma loop_sunVisibleCount_le (l : list Z) (st : LoopState) :
  (sunVisibleCount st <= List.length (flightPath st))%nat ->
  (sunVisibleCount (fold_left body l st)
   <= List.length (flightPath (fold_left body l st)))%nat.
Proof.
  revert st. induction l as [| i l IH]; intros st Hst; cbn [fold_left].
  - exact Hst.
  - apply IH. rewrite loop_body_sunVisibleCount, loop_body_flightPath.
    rewrite length_app. cbn [List.length]. destruct (sunUp i); lia.
Qed.

Lemma sampleFlight_flightPath :
  flightPath (sampleFlight flightDetails departureCoords totalDistance flightBearing)
  = map point (loop_indices (numIntervalsOf flightDetails)).
Proof.
  unfold sampleFlight. fold body. rewrite loop_flightPath. reflexivity.
Qed.

Lemma sampleFlight_sunEvents :
  sunEvents (sampleFlight flightDetails departureCoords totalDistance flightBearing)
  = flat_map emitted (loop_indices (numIntervalsOf flightDetails)).
Proof.
  unfold sampleFlight. fold body. rewrite loop_sunEvents. reflexivity.
Qed.

Lemma sampleFlight_sunVisibleCount_le :
  (sunVisibleCount (sampleFlight flightDetails departureCoords totalDistance flightBearing)
   <= List.length
        (flightPath (sampleFlight flightDetails departureCoords totalDistance flightBearing)))%nat.
Proof.
  unfold sampleFlight. fold body. apply loop_sunVisibleCount_le. cbn. lia.
Qed.

End Loop.

(** ** The result on the success path *)

Section Result.

Context {imports : Imports}.
Variable flightDetails : FlightDetails.t.
Variables departureAirport arrivalAirport : Airport.t.
Hypothesis Hresolves : resolves flightDetails departureAirport arrivalAirport.

Let departureCoords := coordsOf departureAirport.
Let arrivalCoords := coordsOf arrivalAirport.
Let totalDistance := getDistance departureCoords arrivalCoords.
Let flightBearing := getRhumbLineBearing departureCoords arrivalCoords.
Let st := sampleFlight flightDetails departureCoords totalDistance flightBearing.
Let result := calculateSunPositionForFlight flightDetails.

Lemma result_not_thrown : tryBlock flightDetails = Returned result.
Proof.
  destruct Hresolves as [Hdep Harr].
  unfold result, calculateSunPositionForFlight, tryBlock.
  rewrite Hdep, Harr. reflexivity.
Qed.

Lemma result_flightPath :
  GlobeData.flightPath (FlightRecommendation.globeData result)
  = map (pointAt flightDetails departureCoords totalDistance flightBearing)
      (loop_indices (numIntervalsOf flightDetails)).
Proof.
  destruct Hresolves as [Hdep Harr].
  unfold result, calculateSunPositionForFlight, tryBlock.
  rewrite Hdep, Harr. cbn [FlightRecommendation.globeData GlobeData.flightPath].
  apply sampleFlight_flightPath.
Qed.

Lemma result_events :
  FlightRecommendation.events result
  = uniqueEvents
      (flat_map (eventsAt flightDetails departureCoords totalDistance flightBearing)
         (loop_indices (numIntervalsOf flightDetails))).
Proof.
  destruct Hresolves as [Hdep Harr].
  unfold result, calculateSunPositionForFlight, tryBlock.
  rewrite Hdep, Harr. cbn [FlightRecommendation.events].
  f_equal. apply sampleFlight_sunEvents.
Qed.

Lemma result_advice :
  FlightRecommendation.recommendation result
    = recommendation (advise (FlightRecommendation.events result) (sunVisibleCount st)
                        (leftSideCount st) (rightSideCount st))
  /\ FlightRecommendation.confidence result
    = confidence (advise (FlightRecommendation.events result) (sunVisibleCount st)
                    (leftSideCount st) (rightSideCount st)).
Proof.
  destruct Hresolves as [Hdep Harr].
  unfold result, calculateSunPositionForFlight, tryBlock.
  rewrite Hdep, Harr. split; reflexivity.
Qed.

Lemma result_totalDistance :
  GlobeData.totalDistance (FlightRecommendation.globeData result) = totalDistance.
Proof.
  destruct Hresolves as [Hdep Harr].
  unfold result, calculateSunPositionForFlight, tryBlock.
  rewrite Hdep, Harr. reflexivity.
Qed.

Lemma result_averageSunVisibility :
  Summary.averageSunVisibility
    (GlobeData.summary (FlightRecommendation.globeData result))
  = if (0 <? List.length (flightPath st))%nat
    then Qnat (sunVisibleCount st) / Qnat (List.length (flightPath st)) * 100
    else 0.
Proof.
  destruct Hresolves as [Hdep Harr].
  unfold result, calculateSunPositionForFlight, tryBlock.
  rewrite Hdep, Harr. reflexivity.
Qed.

End Result.

(** ** Viewing side of a sample *)

Lemma viewingSideOf_right (a b : Q) :
  0 <= a -> a < 360 -> 0 <= b -> b < 360 ->
  viewingSideOf a b = SideRight <-> 0 < mod360 (a - b) /\ mod360 (a - b) < 180.
Proof.
  intros Ha0 Ha1 Hb0 Hb1.
  pose proof (azimuthDiff_mod360 Ha0 Ha1 Hb0 Hb1) as Heq.
  unfold viewingSideOf.
  destruct (Qltb 0 (azimuthDiff a b)) eqn:Hpos;
    destruct (Qltb (azimuthDiff a b) 180) eqn:Hlt; cbn [andb];
    repeat match goal with
      | H : Qltb _ _ = true |- _ => apply Qltb_true in H
      | H : Qltb _ _ = false |- _ => apply Qltb_false in H
      end;
    (split; [intros Hside; try discriminate; split; lra
            | intros [H0 H180]; try reflexivity; exfalso; lra]).
Qed.

Lemma viewingSideOf_left (a b : Q) :
  0 <= a -> a < 360 -> 0 <= b -> b < 360 ->
  viewingSideOf a b = SideLeft
  <-> mod360 (a - b) == 0 \/ (180 <= mod360 (a - b) /\ mod360 (a - b) < 360).
Proof.
  intros Ha0 Ha1 Hb0 Hb1.
  pose proof (viewingSideOf_right Ha0 Ha1 Hb0 Hb1) as Hright.
  pose proof (mod360_range (a - b)) as [Hm0 Hm1].
  destruct (viewingSideOf a b).
  - split; [intros _ | reflexivity].
    destruct (Qlt_le_dec (mod360 (a - b)) 180) as [Hlt | Hge].
    + left. destruct (Qlt_le_dec 0 (mod360 (a - b))) as [Hpos | Hzero].
      * assert (Habs : SideLeft = SideRight) by (apply Hright; split; assumption).
        discriminate.
      * lra.
    + right. split; assumption.
  - split; [discriminate |].
    assert (Hin : 0 < mod360 (a - b) /\ mod360 (a - b) < 180) by (apply Hright; reflexivity).
    intros [Hz | [Hge _]]; exfalso; lra.
Qed.

Section ViewingSide.

Context {imports : Imports}.

(** C1: at a sampled point where the sun's elevation is above 0 the
    difference sun azimuth minus bearing, as the code adjusts it, is that
    difference reduced into [0, 360); the point is on the right exactly when
    the reduced difference lies strictly between 0 and 180, and on the left
    exactly when it is 0 or in [180, 360); a point where the sun is not
    above the horizon has no viewing side.  The bearing of geolib and the
    azimuth of suncalc are taken within their documented ranges. *)
Theorem C1_viewing_side_by_azimuth_difference
    (flightDetails : FlightDetails.t) (departureAirport arrivalAirport : Airport.t)
    (p : FlightPathPoint.t) :
  resolves flightDetails departureAirport arrivalAirport ->
  bearing_in_range ->
  azimuth_in_range ->
  In p (GlobeData.flightPath
          (FlightRecommendation.globeData (calculateSunPositionForFlight flightDetails))) ->
  let sunAzimuth := SunPosition.azimuth (FlightPathPoint.sunPosition p) in
  let elevation := SunPosition.elevation (FlightPathPoint.sunPosition p) in
  let bearing := FlightPathPoint.aircraftBearing p in
  (0 < elevation ->
     azimuthDiff sunAzimuth bearing == mod360 (sunAzimuth - bearing)
     /\ (FlightPathPoint.viewingSide p = Some SideRight
         <-> 0 < mod360 (sunAzimuth - bearing) /\ mod360 (sunAzimuth - bearing) < 180)
     /\ (FlightPathPoint.viewingSide p = Some SideLeft
         <-> mod360 (sunAzimuth - bearing) == 0
             \/ (180 <= mod360 (sunAzimuth - bearing)
                 /\ mod360 (sunAzimuth - bearing) < 360)))
  /\ (~ 0 < elevation -> FlightPathPoint.viewingSide p = None).
Proof.
  intros Hres Hbearing Hazimuth Hin. cbv zeta.
  rewrite (result_flightPath Hres) in Hin.
  apply in_map_iff in Hin. destruct Hin as [i [Hp _]]. subst p.
  unfold pointAt.
  cbn [FlightPathPoint.viewingSide FlightPathPoint.sunPosition
       FlightPathPoint.aircraftBearing SunPosition.azimuth SunPosition.elevation].
  set (sunPosition := sunPositionAt _ _ _ _ _).
  set (bearing := getRhumbLineBearing _ _).
  assert (Hb : 0 <= bearing /\ bearing < 360) by apply Hbearing.
  assert (Ha : 0 <= sunAzimuthDegreesOf sunPosition
               /\ sunAzimuthDegreesOf sunPosition < 360).
  { apply sunAzimuthDegreesOf_range; apply Hazimuth. }
  destruct Hb as [Hb0 Hb1]. destruct Ha as [Ha0 Ha1].
  split.
  - intros Hup. apply Qltb_true in Hup. rewrite Hup.
    split; [apply azimuthDiff_mod360; assumption |].
    split.
    + rewrite <- (viewingSideOf_right Ha0 Ha1 Hb0 Hb1).
      split; [intros Hs; injection Hs; trivial | intros Hs; rewrite Hs; reflexivity].
    + rewrite <- (viewingSideOf_left Ha0 Ha1 Hb0 Hb1).
      split; [intros Hs; injection Hs; trivial | intros Hs; rewrite Hs; reflexivity].
  - intros Hdown.
    destruct (Qltb 0 (sunElevationDegreesOf sunPosition)) eqn:Hup; [| reflexivity].
    apply Qltb_true in Hup. contradiction.
Qed.

End ViewingSide.

Lemma toy_resolves_dawnFlight :
  @resolves Fixture.toy Fixture.dawnFlight Fixture.JFK Fixture.LHR.
Proof. split; reflexivity. Qed.

Lemma toy_bearing_in_range : @bearing_in_range Fixture.toy.
Proof. intros a b. cbn. split; lra. Qed.

Lemma toy_azimuth_in_range : @azimuth_in_range Fixture.toy.
Proof. intros t la lo. cbn. unfold Math_PI. split; lra. Qed.

Lemma C1_witness :
  let p :=
    @pointAt Fixture.toy Fixture.dawnFlight (coordsOf Fixture.JFK)
      (Fixture.flatDistance (coordsOf Fixture.JFK) (coordsOf Fixture.LHR)) 51 4 in
  let sunAzimuth := SunPosition.azimuth (FlightPathPoint.sunPosition p) in
  let elevation := SunPosition.elevation (FlightPathPoint.sunPosition p) in
  let bearing := FlightPathPoint.aircraftBearing p in
  (0 < elevation ->
     azimuthDiff sunAzimuth bearing == mod360 (sunAzimuth - bearing)
     /\ (FlightPathPoint.viewingSide p = Some SideRight
         <-> 0 < mod360 (sunAzimuth - bearing) /\ mod360 (sunAzimuth - bearing) < 180)
     /\ (FlightPathPoint.viewingSide p = Some SideLeft
         <-> mod360 (sunAzimuth - bearing) == 0
             \/ (180 <= mod360 (sunAzimuth - bearing)
                 /\ mod360 (sunAzimuth - bearing) < 360)))
  /\ (~ 0 < elevation -> FlightPathPoint.viewingSide p = None).
Proof.
  intros p.
  apply (@C1_viewing_side_by_azimuth_difference Fixture.toy Fixture.dawnFlight
           Fixture.JFK Fixture.LHR p).
  - exact toy_resolves_dawnFlight.
  - exact toy_bearing_in_range.
  - exact toy_azimuth_in_range.
  - rewrite (result_flightPath toy_resolves_dawnFlight).
    apply in_map. vm_compute. tauto.
Defined.

(** ** Shape of the sampled path *)

(** [numIntervals] is the least number of five-minute steps that covers the
    duration. *)
Lemma numIntervalsOf_bounds (flightDetails : FlightDetails.t) :
  let d := FlightDetails.durationMinutes flightDetails in
  let n := numIntervalsOf flightDetails in
  inject_Z (5 * (n - 1)) < d /\ d <= inject_Z (5 * n).
Proof.
  cbv zeta. unfold numIntervalsOf, Math_ceil, intervalMinutes.
  set (d := FlightDetails.durationMinutes flightDetails).
  set (x := d / inject_Z 5).
  pose proof (Qle_ceiling x) as Hup. pose proof (Qceiling_lt x) as Hlow.
  assert (Hd : d == 5 * x) by (unfold x; field).
  unfold Z.sub in *. rewrite inject_Z_plus in Hlow.
  change (inject_Z (- (1))) with (- (1)) in Hlow.
  rewrite !inject_Z_mult, inject_Z_plus.
  change (inject_Z 5) with 5. change (inject_Z (- (1))) with (- (1)).
  split; lra.
Qed.

Lemma nth_error_loop_indices (n : Z) (i : nat) (k : Z) :
  nth_error (loop_indices n) i = Some k ->
  (i < Z.to_nat (n + 1))%nat /\ k = Z.of_nat i.
Proof.
  unfold loop_indices. rewrite nth_error_map, nth_error_seq.
  destruct (Nat.ltb_spec i (Z.to_nat (n + 1))) as [Hlt | Hge]; cbn.
  - intros Hk. injection Hk as Hk. split; [exact Hlt | congruence].
  - discriminate.
Qed.

Lemma nth_error_loop_indices_lt (n : Z) (i : nat) :
  (i < Z.to_nat (n + 1))%nat ->
  nth_error (loop_indices n) i = Some (Z.of_nat i).
Proof.
  intros Hlt. unfold loop_indices. rewrite nth_error_map, nth_error_seq.
  destruct (Nat.ltb_spec i (Z.to_nat (n + 1))) as [_ | Hge]; [reflexivity | lia].
Qed.

Lemma length_loop_indices (n : Z) : List.length (loop_indices n) = Z.to_nat (n + 1).
Proof. unfold loop_indices. rewrite length_map, length_seq. reflexivity. Qed.

(** *** Cutting a time value to whole milliseconds *)

Lemma Qtrunc_inject_Z (z : Z) : Qtrunc (inject_Z z) = z.
Proof.
  unfold Qtrunc. destruct (Qlt_le_dec (inject_Z z) 0); [apply Qceiling_Z | apply Qfloor_Z].
Qed.

Lemma Qtrunc_comp (x y : Q) : x == y -> Qtrunc x = Qtrunc y.
Proof.
  intros Hxy. unfold Qtrunc.
  destruct (Qlt_le_dec x 0) as [Hx | Hx]; destruct (Qlt_le_dec y 0) as [Hy | Hy];
    try (exfalso; lra).
  - apply Qceiling_comp. exact Hxy.
  - apply Qfloor_comp. exact Hxy.
Qed.

Lemma Qtrunc_le (x y : Q) : x <= y -> (Qtrunc x <= Qtrunc y)%Z.
Proof.
  intros Hxy. unfold Qtrunc.
  destruct (Qlt_le_dec x 0) as [Hx | Hx]; destruct (Qlt_le_dec y 0) as [Hy | Hy].
  - apply Qceiling_resp_le. exact Hxy.
  - assert (Hc : (Qceiling x <= Qceiling 0)%Z) by (apply Qceiling_resp_le; lra).
    assert (Hf : (Qfloor 0 <= Qfloor y)%Z) by (apply Qfloor_resp_le; exact Hy).
    change (Qceiling 0) with 0%Z in Hc. change (Qfloor 0) with 0%Z in Hf. lia.
  - exfalso. lra.
  - apply Qfloor_resp_le. exact Hxy.
Qed.

Lemma newDate_whole (t ms : Z) (q : Q) :
  q == inject_Z ms -> newDate (inject_Z t + q) = (t + ms)%Z.
Proof.
  intros Hq. unfold newDate.
  rewrite (Qtrunc_comp (y := inject_Z (t + ms))); [apply Qtrunc_inject_Z |].
  rewrite inject_Z_plus, Hq. reflexivity.
Qed.

Section SampleTimes.

Variable flightDetails : FlightDetails.t.

Let d := FlightDetails.durationMinutes flightDetails.
Let t0 := FlightDetails.departureTime flightDetails.
Let n := numIntervalsOf flightDetails.
Let offset := timeOffsetMinutesAt flightDetails.

(** Before the last sample the offset is a whole number of steps. *)
Lemma offset_step (i : Z) : (i <= n - 1)%Z -> offset i == inject_Z (i * 5).
Proof.
  intros Hi. unfold offset, timeOffsetMinutesAt, intervalMinutes. apply Q.min_l.
  destruct (numIntervalsOf_bounds flightDetails) as [Hlow _].
  fold n in Hlow. fold d in Hlow |- *.
  assert (Hle : inject_Z (i * 5) <= inject_Z (5 * (n - 1))) by (rewrite <- Zle_Qle; lia).
  lra.
Qed.

(** The last sample is taken at the duration. *)
Lemma offset_last : offset n == d.
Proof.
  unfold offset, timeOffsetMinutesAt, intervalMinutes. apply Q.min_r.
  destruct (numIntervalsOf_bounds flightDetails) as [_ Hup].
  fold n in Hup. fold d in Hup |- *.
  assert (Heq : inject_Z (n * 5) == inject_Z (5 * n)) by (f_equiv; lia).
  lra.
Qed.

Lemma offset_increasing (i j : Z) : (i < j <= n)%Z -> offset i < offset j.
Proof.
  intros Hij. unfold offset at 2. unfold timeOffsetMinutesAt, intervalMinutes.
  rewrite (offset_step (i := i)) by lia.
  destruct (numIntervalsOf_bounds flightDetails) as [Hlow _].
  fold n in Hlow. fold d in Hlow.
  apply Q.min_glb_lt.
  - rewrite <- Zlt_Qlt. lia.
  - assert (Hle : inject_Z (i * 5) <= inject_Z (5 * (n - 1))) by (rewrite <- Zle_Qle; lia).
    fold d. lra.
Qed.

Lemma offset_nonneg (i : Z) : (0 <= i <= n)%Z -> 0 < d -> 0 <= offset i.
Proof.
  intros Hi Hd. unfold offset, timeOffsetMinutesAt, intervalMinutes.
  apply Q.min_glb; [| fold d; lra].
  change 0 with (inject_Z 0). rewrite <- Zle_Qle. lia.
Qed.

Lemma offset_le_duration (i : Z) : offset i <= d.
Proof. unfold offset, timeOffsetMinutesAt. apply Q.le_min_r. Qed.

Lemma currentTimeAt_step (i : Z) :
  (i <= n - 1)%Z -> currentTimeAt flightDetails i = (t0 + i * 5 * 60 * 1000)%Z.
Proof.
  intros Hi. unfold currentTimeAt. fold t0. apply newDate_whole.
  fold (offset i). rewrite (offset_step Hi), !inject_Z_mult. reflexivity.
Qed.

Lemma currentTimeAt_last_whole (ms : Z) :
  d * 60 * 1000 == inject_Z ms -> currentTimeAt flightDetails n = (t0 + ms)%Z.
Proof.
  intros Hms. unfold currentTimeAt. fold t0. apply newDate_whole.
  fold (offset n). rewrite offset_last. exact Hms.
Qed.

Lemma currentTimeAt_monotone (i j : Z) :
  (i < j <= n)%Z ->
  (currentTimeAt flightDetails i <= currentTimeAt flightDetails j)%Z.
Proof.
  intros Hij. pose proof (offset_increasing Hij) as Hlt.
  unfold currentTimeAt, newDate. apply Qtrunc_le.
  fold (offset i). fold (offset j). lra.
Qed.

Lemma currentTimeAt_increasing_before_last (i j : Z) :
  (i < j <= n - 1)%Z ->
  (currentTimeAt flightDetails i < currentTimeAt flightDetails j)%Z.
Proof. intros Hij. rewrite !currentTimeAt_step by lia. lia. Qed.

(** With a duration of whole milliseconds no two samples share a time. *)
Lemma currentTimeAt_increasing_whole (ms i j : Z) :
  d * 60 * 1000 == inject_Z ms ->
  (i < j <= n)%Z ->
  (currentTimeAt flightDetails i < currentTimeAt flightDetails j)%Z.
Proof.
  intros Hms Hij.
  destruct (Z.eq_dec j n) as [Hlast | Hbefore].
  - subst j. rewrite (currentTimeAt_last_whole Hms), currentTimeAt_step by lia.
    pose proof (offset_increasing Hij) as Hlt.
    rewrite (offset_step (i := i)), offset_last in Hlt by lia.
    assert (Hq : inject_Z (i * 5 * 60 * 1000) < inject_Z ms).
    { rewrite <- Hms, !inject_Z_mult.
      change (inject_Z 60) with 60. change (inject_Z 1000) with 1000.
      rewrite inject_Z_mult in Hlt. lra. }
    rewrite <- Zlt_Qlt in Hq. lia.
  - apply currentTimeAt_increasing_before_last. lia.
Qed.

Lemma progressAt_increasing (i j : Z) :
  0 < d -> (i < j <= n)%Z ->
  progressAt flightDetails i < progressAt flightDetails j.
Proof.
  intros Hd Hij. unfold progressAt, Qdiv. fold d.
  apply Qmult_lt_compat_r; [apply Qinv_lt_0_compat; exact Hd |].
  apply (offset_increasing Hij).
Qed.

Lemma numIntervalsOf_positive : 0 < d -> (1 <= n)%Z.
Proof.
  intros Hd. destruct (numIntervalsOf_bounds flightDetails) as [_ Hup].
  fold n in Hup. fold d in Hup.
  assert (Hpos : inject_Z 0 < inject_Z (5 * n)) by (change (inject_Z 0) with 0; lra).
  rewrite <- Zlt_Qlt in Hpos. lia.
Qed.

End SampleTimes.

Section Path.

Context {imports : Imports}.

(** C2, as amended: with both airports found and a positive duration, the
    path has ceil(durationMinutes / 5) + 1 points; sample i is taken
    min(5 i, durationMinutes) minutes after departure, its progress is that
    offset over the duration and its time is the departure plus the offset,
    cut to whole milliseconds; the first point has progress 0 at the
    departure time and the last has progress 1; progress strictly increases
    and time never decreases, strictly increasing up to the last sample.
    When the duration is a whole number of milliseconds (of minutes, in
    particular) the last time is the departure plus the duration and time
    strictly increases all along. *)
Theorem C2_flight_path_samples
    (flightDetails : FlightDetails.t) (departureAirport arrivalAirport : Airport.t) :
  resolves flightDetails departureAirport arrivalAirport ->
  0 < FlightDetails.durationMinutes flightDetails ->
  let d := FlightDetails.durationMinutes flightDetails in
  let t0 := FlightDetails.departureTime flightDetails in
  let path :=
    GlobeData.flightPath
      (FlightRecommendation.globeData (calculateSunPositionForFlight flightDetails)) in
  Z.of_nat (List.length path) = (Math_ceil (d / 5) + 1)%Z
  /\ (forall (i : nat) (p : FlightPathPoint.t),
        nth_error path i = Some p ->
        FlightPathPoint.time p
        = newDate (inject_Z t0 + Qmin (inject_Z (Z.of_nat i * 5)) d * 60 * 1000)
        /\ FlightPathPoint.progress p == Qmin (inject_Z (Z.of_nat i * 5)) d / d)
  /\ (exists first : FlightPathPoint.t,
        nth_error path 0 = Some first
        /\ FlightPathPoint.progress first == 0
        /\ FlightPathPoint.time first = t0)
  /\ (exists last : FlightPathPoint.t,
        nth_error path (List.length path - 1) = Some last
        /\ FlightPathPoint.progress last == 1
        /\ FlightPathPoint.time last = newDate (inject_Z t0 + d * 60 * 1000))
  /\ (forall (i j : nat) (p q : FlightPathPoint.t),
        (i < j)%nat -> nth_error path i = Some p -> nth_error path j = Some q ->
        FlightPathPoint.progress p < FlightPathPoint.progress q
        /\ (FlightPathPoint.time p <= FlightPathPoint.time q)%Z
        /\ ((j < List.length path - 1)%nat ->
            (FlightPathPoint.time p < FlightPathPoint.time q)%Z))
  /\ (forall ms : Z,
        d * 60 * 1000 == inject_Z ms ->
        (exists last : FlightPathPoint.t,
           nth_error path (List.length path - 1) = Some last
           /\ FlightPathPoint.time last = (t0 + ms)%Z)
        /\ (forall (i j : nat) (p q : FlightPathPoint.t),
              (i < j)%nat -> nth_error path i = Some p -> nth_error path j = Some q ->
              (FlightPathPoint.time p < FlightPathPoint.time q)%Z)).
Proof.
  intros Hres Hd. cbv zeta.
  rewrite (result_flightPath Hres).
  set (point := pointAt flightDetails _ _ _).
  pose proof (numIntervalsOf_positive flightDetails Hd) as Hn.
  set (n := numIntervalsOf flightDetails) in *.
  set (d := FlightDetails.durationMinutes flightDetails) in *.
  assert (Hlen : List.length (map point (loop_indices n)) = Z.to_nat (n + 1)).
  { rewrite length_map. apply length_loop_indices. }
  assert (Hnth : forall i p, nth_error (map point (loop_indices n)) i = Some p ->
                 (i < Z.to_nat (n + 1))%nat /\ p = point (Z.of_nat i)).
  { intros i p Hp. rewrite nth_error_map in Hp.
    destruct (nth_error (loop_indices n) i) as [k |] eqn:Hk; [| discriminate].
    apply nth_error_loop_indices in Hk. destruct Hk as [Hlt Hk]. subst k.
    cbn in Hp. injection Hp as Hp. split; [exact Hlt | congruence]. }
  assert (Hget : forall i, (i < Z.to_nat (n + 1))%nat ->
                 nth_error (map point (loop_indices n)) i = Some (point (Z.of_nat i))).
  { intros i Hlt. rewrite nth_error_map, (nth_error_loop_indices_lt n Hlt). reflexivity. }
  assert (Hlast : nth_error (map point (loop_indices n)) (Z.to_nat (n + 1) - 1)
                  = Some (point n)).
  { replace (point n) with (point (Z.of_nat (Z.to_nat (n + 1) - 1)))
      by (f_equal; lia).
    apply Hget. lia. }
  assert (Hdnz : ~ d == 0) by lra.
  split; [| split; [| split; [| split; [| split]]]].
  - rewrite Hlen. change (Math_ceil (d / 5)) with n. lia.
  - intros i p Hp. apply Hnth in Hp. destruct Hp as [_ Hp]. subst p.
    split; [reflexivity | apply Qeq_refl].
  - exists (point 0%Z). split; [apply (Hget 0%nat); lia |].
    unfold point, pointAt. cbn [FlightPathPoint.progress FlightPathPoint.time].
    split.
    + unfold progressAt. rewrite (offset_step flightDetails (i := 0)) by (fold n; lia).
      change (inject_Z (0 * 5)) with 0. unfold Qdiv. ring.
    + rewrite currentTimeAt_step by (fold n; lia). lia.
  - exists (point n). rewrite Hlen. split; [exact Hlast |].
    unfold point, pointAt. cbn [FlightPathPoint.progress FlightPathPoint.time].
    split.
    + unfold progressAt. unfold n. rewrite offset_last. fold d. field. exact Hdnz.
    + unfold currentTimeAt. apply Qtrunc_comp. unfold n. rewrite offset_last. reflexivity.
  - intros i j p q Hij Hp Hq.
    apply Hnth in Hp. apply Hnth in Hq.
    destruct Hp as [Hi Hp]. destruct Hq as [Hj Hq]. subst p q.
    unfold point, pointAt. cbn [FlightPathPoint.progress FlightPathPoint.time].
    split; [apply progressAt_increasing; [exact Hd | fold n; lia] |].
    split; [apply currentTimeAt_monotone; fold n; lia |].
    rewrite length_map, length_loop_indices. intros Hbefore.
    apply currentTimeAt_increasing_before_last. fold n. lia.
  - intros ms Hms. split.
    + exists (point n). rewrite Hlen. split; [exact Hlast |].
      unfold point, pointAt. cbn [FlightPathPoint.time].
      apply (currentTimeAt_last_whole flightDetails Hms).
    + intros i j p q Hij Hp Hq.
      apply Hnth in Hp. apply Hnth in Hq.
      destruct Hp as [Hi Hp]. destruct Hq as [Hj Hq]. subst p q.
      unfold point, pointAt. cbn [FlightPathPoint.time].
      apply (currentTimeAt_increasing_whole flightDetails Hms). fold n. lia.
Qed.

End Path.

Lemma C2_witness :
  let d := FlightDetails.durationMinutes Fixture.dawnFlight in
  let t0 := FlightDetails.departureTime Fixture.dawnFlight in
  let path :=
    GlobeData.flightPath
      (FlightRecommendation.globeData
         (@calculateSunPositionForFlight Fixture.toy Fixture.dawnFlight)) in
  Z.of_nat (List.length path) = (Math_ceil (d / 5) + 1)%Z
  /\ (forall (i : nat) (p : FlightPathPoint.t),
        nth_error path i = Some p ->
        FlightPathPoint.time p
        = newDate (inject_Z t0 + Qmin (inject_Z (Z.of_nat i * 5)) d * 60 * 1000)
        /\ FlightPathPoint.progress p == Qmin (inject_Z (Z.of_nat i * 5)) d / d)
  /\ (exists first : FlightPathPoint.t,
        nth_error path 0 = Some first
        /\ FlightPathPoint.progress first == 0
        /\ FlightPathPoint.time first = t0)
  /\ (exists last : FlightPathPoint.t,
        nth_error path (List.length path - 1) = Some last
        /\ FlightPathPoint.progress last == 1
        /\ FlightPathPoint.time last = newDate (inject_Z t0 + d * 60 * 1000))
  /\ (forall (i j : nat) (p q : FlightPathPoint.t),
        (i < j)%nat -> nth_error path i = Some p -> nth_error path j = Some q ->
        FlightPathPoint.progress p < FlightPathPoint.progress q
        /\ (FlightPathPoint.time p <= FlightPathPoint.time q)%Z
        /\ ((j < List.length path - 1)%nat ->
            (FlightPathPoint.time p < FlightPathPoint.time q)%Z))
  /\ (forall ms : Z,
        d * 60 * 1000 == inject_Z ms ->
        (exists last : FlightPathPoint.t,
           nth_error path (List.length path - 1) = Some last
           /\ FlightPathPoint.time last = (t0 + ms)%Z)
        /\ (forall (i j : nat) (p q : FlightPathPoint.t),
              (i < j)%nat -> nth_error path i = Some p -> nth_error path j = Some q ->
              (FlightPathPoint.time p < FlightPathPoint.time q)%Z)).
Proof.
  apply (@C2_flight_path_samples Fixture.toy Fixture.dawnFlight Fixture.JFK Fixture.LHR).
  - split; reflexivity.
  - reflexivity.
Defined.

(** C2 as first stated fails on a duration of 30.000001 minutes: the
    airports resolve and the duration is positive, yet the last two samples,
    30 and 30.000001 minutes after departure, carry the same time, and the
    last time is not the departure plus the duration. *)
Lemma C2_counterexample :
  let flightDetails := Scenarios.fractionFlight in
  let d := FlightDetails.durationMinutes flightDetails in
  let t0 := FlightDetails.departureTime flightDetails in
  let path :=
    GlobeData.flightPath
      (FlightRecommendation.globeData
         (@calculateSunPositionForFlight Fixture.toy flightDetails)) in
  @resolves Fixture.toy flightDetails Fixture.JFK Fixture.LHR
  /\ 0 < d
  /\ ~ (forall (i j : nat) (p q : FlightPathPoint.t),
          (i < j)%nat -> nth_error path i = Some p -> nth_error path j = Some q ->
          (FlightPathPoint.time p < FlightPathPoint.time q)%Z)
  /\ ~ (exists last : FlightPathPoint.t,
          nth_error path (List.length path - 1) = Some last
          /\ inject_Z (FlightPathPoint.time last) == inject_Z t0 + d * 60 * 1000).
Proof.
  cbv zeta.
  split; [split; reflexivity |]. split; [reflexivity |].
  rewrite (@result_flightPath Fixture.toy Scenarios.fractionFlight Fixture.JFK Fixture.LHR)
    by (split; reflexivity).
  set (point := pointAt _ _ _ _).
  assert (Hindices : loop_indices (numIntervalsOf Scenarios.fractionFlight)
                     = [0; 1; 2; 3; 4; 5; 6; 7]%Z) by reflexivity.
  rewrite Hindices.
  assert (H6 : FlightPathPoint.time (point 6%Z) = 22200000%Z) by reflexivity.
  assert (H7 : FlightPathPoint.time (point 7%Z) = 22200000%Z) by reflexivity.
  split.
  - intros Hstrict.
    specialize (Hstrict 6%nat 7%nat (point 6%Z) (point 7%Z)).
    rewrite H6, H7 in Hstrict.
    assert (Habs : (22200000 < 22200000)%Z)
      by (apply Hstrict; [lia | reflexivity | reflexivity]).
    lia.
  - intros (last & Hlast & Htime).
    cbn [map List.length Nat.sub nth_error] in Hlast.
    injection Hlast as Hlast. subst last. rewrite H7 in Htime.
    vm_compute in Htime. discriminate.
Qed.

(** ** The failure path *)

Section Failure.

Context {imports : Imports}.

(** C3: when the departure or the arrival code is not in the airport table
    the exception raised inside is caught and the function returns the
    error-shaped recommendation: 'either', confidence 0, no events, an empty
    path, distance 0, both airports named 'Unknown' under the codes given,
    and a description that ends with the first code that was not found. *)
Theorem C3_unknown_airport_error_result (flightDetails : FlightDetails.t) :
  findAirport (FlightDetails.departure flightDetails) = None
  \/ findAirport (FlightDetails.arrival flightDetails) = None ->
  let result := calculateSunPositionForFlight flightDetails in
  let globe := FlightRecommendation.globeData result in
  let missing :=
    match findAirport (FlightDetails.departure flightDetails) with
    | None => FlightDetails.departure flightDetails
    | Some _ => FlightDetails.arrival flightDetails
    end in
  findAirport missing = None
  /\ tryBlock flightDetails = Thrown ("Airport not found: " ++ missing)%string
  /\ FlightRecommendation.recommendation result = RecEither
  /\ FlightRecommendation.confidence result = 0
  /\ FlightRecommendation.events result = []
  /\ GlobeData.flightPath globe = []
  /\ GlobeData.totalDistance globe = 0
  /\ GlobeData.departure globe
     = Airport.mk (FlightDetails.departure flightDetails) "Unknown" 0 0
  /\ GlobeData.arrival globe
     = Airport.mk (FlightDetails.arrival flightDetails) "Unknown" 0 0
  /\ FlightRecommendation.description result
     = ("Unable to calculate sun position: Airport not found: " ++ missing)%string.
Proof.
  intros Hmissing. cbv zeta.
  unfold calculateSunPositionForFlight, tryBlock.
  destruct (findAirport (FlightDetails.departure flightDetails)) as [dep |] eqn:Hdep.
  - destruct Hmissing as [Habs | Harr]; [discriminate |].
    rewrite Harr. cbn. repeat split; reflexivity.
  - cbn. repeat split; try reflexivity. exact Hdep.
Qed.

End Failure.

Lemma C3_witness :
  let result := @calculateSunPositionForFlight Fixture.toy Fixture.unknownFlight in
  let globe := FlightRecommendation.globeData result in
  let missing :=
    match @findAirport Fixture.toy (FlightDetails.departure Fixture.unknownFlight) with
    | None => FlightDetails.departure Fixture.unknownFlight
    | Some _ => FlightDetails.arrival Fixture.unknownFlight
    end in
  @findAirport Fixture.toy missing = None
  /\ @tryBlock Fixture.toy Fixture.unknownFlight
     = Thrown ("Airport not found: " ++ missing)%string
  /\ FlightRecommendation.recommendation result = RecEither
  /\ FlightRecommendation.confidence result = 0
  /\ FlightRecommendation.events result = []
  /\ GlobeData.flightPath globe = []
  /\ GlobeData.totalDistance globe = 0
  /\ GlobeData.departure globe
     = Airport.mk (FlightDetails.departure Fixture.unknownFlight) "Unknown" 0 0
  /\ GlobeData.arrival globe
     = Airport.mk (FlightDetails.arrival Fixture.unknownFlight) "Unknown" 0 0
  /\ FlightRecommendation.description result
     = ("Unable to calculate sun position: Airport not found: " ++ missing)%string.
Proof.
  apply (@C3_unknown_airport_error_result Fixture.toy Fixture.unknownFlight).
  left. reflexivity.
Defined.

(** ** De-duplication of the raw events *)

Section IndexedSearch.

Variable A : Type.

Lemma findIndex_from_range (p : A -> bool) (l : list A) (k : Z) :
  findIndex_from p l k = (-1)%Z
  \/ (k <= findIndex_from p l k < k + Z.of_nat (List.length l))%Z.
Proof.
  revert k. induction l as [| x l IH]; intros k; cbn [findIndex_from List.length].
  - left. reflexivity.
  - destruct (p x).
    + right. lia.
    + destruct (IH (k + 1)%Z) as [Hnone | Hsome]; [left; exact Hnone | right; lia].
Qed.

(** Nothing before the index [findIndex] returns satisfies the predicate. *)
Lemma findIndex_from_before (p : A -> bool) (l : list A) (k : Z) (j : nat) :
  (0 <= k)%Z ->
  findIndex_from p l k = (k + Z.of_nat j)%Z ->
  forall (j' : nat) (y : A), (j' < j)%nat -> nth_error l j' = Some y -> p y = false.
Proof.
  revert k j. induction l as [| x l IH]; intros k j Hk Hfind j' y Hlt Hy.
  - destruct j'; discriminate.
  - cbn [findIndex_from] in Hfind. destruct (p x) eqn:Hpx.
    + lia.
    + destruct (findIndex_from_range p l (k + 1)) as [Hnone | Hsome]; [lia |].
      destruct j as [| j]; [lia |].
      destruct j' as [| j'].
      * cbn in Hy. injection Hy as Hy. subst y. exact Hpx.
      * cbn in Hy. apply (IH (k + 1)%Z j) with (j' := j'); [lia | lia | lia | exact Hy].
Qed.

(** An element that passes the indexed filter sits at some index at which
    the callback holds. *)
Lemma filter_from_nth (f : A -> Z -> bool) (l : list A) (k : Z) (a : nat) (e : A) :
  nth_error (filter_from f l k) a = Some e ->
  exists j : nat, nth_error l j = Some e /\ f e (k + Z.of_nat j)%Z = true.
Proof.
  revert k a. induction l as [| x l IH]; intros k a Ha; cbn [filter_from] in Ha.
  - destruct a; discriminate.
  - destruct (f x k) eqn:Hfx.
    + destruct a as [| a].
      * cbn in Ha. injection Ha as Ha. subst x.
        exists 0%nat. split; [reflexivity |].
        replace (k + Z.of_nat 0)%Z with k by lia. exact Hfx.
      * cbn in Ha. destruct (IH _ _ Ha) as [j [Hj Hfj]].
        exists (S j). split; [exact Hj |].
        replace (k + Z.of_nat (S j))%Z with (k + 1 + Z.of_nat j)%Z by lia. exact Hfj.
    + destruct (IH _ _ Ha) as [j [Hj Hfj]].
      exists (S j). split; [exact Hj |].
      replace (k + Z.of_nat (S j))%Z with (k + 1 + Z.of_nat j)%Z by lia. exact Hfj.
Qed.

(** The indexed filter keeps the order of the array. *)
Lemma filter_from_ordered (f : A -> Z -> bool) (l : list A) (k : Z)
    (a b : nat) (e1 e2 : A) :
  (a < b)%nat ->
  nth_error (filter_from f l k) a = Some e1 ->
  nth_error (filter_from f l k) b = Some e2 ->
  exists j1 j2 : nat,
    (j1 < j2)%nat
    /\ nth_error l j1 = Some e1 /\ nth_error l j2 = Some e2
    /\ f e1 (k + Z.of_nat j1)%Z = true /\ f e2 (k + Z.of_nat j2)%Z = true.
Proof.
  revert k a b. induction l as [| x l IH]; intros k a b Hab Ha Hb;
    cbn [filter_from] in Ha, Hb.
  - destruct a; discriminate.
  - assert (Hshift : forall j1 j2 : nat,
              (j1 < j2)%nat /\ nth_error l j1 = Some e1 /\ nth_error l j2 = Some e2
              /\ f e1 (k + 1 + Z.of_nat j1)%Z = true
              /\ f e2 (k + 1 + Z.of_nat j2)%Z = true ->
              exists j1' j2' : nat,
                (j1' < j2')%nat
                /\ nth_error (x :: l) j1' = Some e1 /\ nth_error (x :: l) j2' = Some e2
                /\ f e1 (k + Z.of_nat j1')%Z = true /\ f e2 (k + Z.of_nat j2')%Z = true).
    { intros j1 j2 (Hlt & H1 & H2 & Hf1 & Hf2).
      exists (S j1), (S j2).
      replace (k + Z.of_nat (S j1))%Z with (k + 1 + Z.of_nat j1)%Z by lia.
      replace (k + Z.of_nat (S j2))%Z with (k + 1 + Z.of_nat j2)%Z by lia.
      repeat split; [lia | exact H1 | exact H2 | exact Hf1 | exact Hf2]. }
    destruct (f x k) eqn:Hfx.
    + destruct b as [| b]; [lia |]. cbn in Hb.
      destruct a as [| a].
      * cbn in Ha. injection Ha as Ha. subst x.
        destruct (filter_from_nth _ _ _ _ Hb) as [j [Hj Hfj]].
        exists 0%nat, (S j).
        replace (k + Z.of_nat 0)%Z with k by lia.
        replace (k + Z.of_nat (S j))%Z with (k + 1 + Z.of_nat j)%Z by lia.
        repeat split; [lia | exact Hj | exact Hfx | exact Hfj].
      * cbn in Ha.
        destruct (IH (k + 1)%Z a b) as [j1 [j2 Hj]]; [lia | exact Ha | exact Hb |].
        apply (Hshift j1 j2 Hj).
    + destruct (IH (k + 1)%Z a b) as [j1 [j2 Hj]]; [lia | exact Ha | exact Hb |].
      apply (Hshift j1 j2 Hj).
Qed.

End IndexedSearch.

Lemma EventType_eqb_eq (a b : EventType) : EventType_eqb a b = true <-> a = b.
Proof. destruct a, b; cbn; split; congruence. Qed.

Lemma sameEvent_false (event e : SunEvent.t) :
  sameEvent event e = false -> ~ near10 e event.
Proof.
  unfold sameEvent, near10. intros Hfalse [Htype Htime].
  apply andb_false_iff in Hfalse. destruct Hfalse as [Hf | Hf].
  - apply EventType_eqb_eq in Htype. congruence.
  - apply Z.ltb_ge in Hf. lia.
Qed.

(** A retained event is the first of the raw events that are near it. *)
Lemma uniqueEvents_first (raw : list SunEvent.t) (j : nat) (e : SunEvent.t) :
  (Z.of_nat j =? findIndex (sameEvent e) raw)%Z = true ->
  forall (j' : nat) (y : SunEvent.t),
    (j' < j)%nat -> nth_error raw j' = Some y -> ~ near10 y e.
Proof.
  intros Hkept j' y Hlt Hy. apply Z.eqb_eq in Hkept.
  apply sameEvent_false.
  apply (findIndex_from_before (sameEvent e) raw (k := 0) (j := j)) with (j' := j');
    [lia | | exact Hlt | exact Hy].
  unfold findIndex in Hkept. lia.
Qed.

(** C4: after de-duplication no two retained events of one type are less
    than ten minutes apart, and every retained event is a raw event that no
    earlier raw event of its type is within ten minutes of: the first, in
    scan order, of the same-type events near it. *)
Theorem C4_unique_events_ten_minutes_apart (raw : list SunEvent.t) :
  (forall (a b : nat) (e1 e2 : SunEvent.t),
     (a < b)%nat ->
     nth_error (uniqueEvents raw) a = Some e1 ->
     nth_error (uniqueEvents raw) b = Some e2 ->
     ~ near10 e1 e2 /\ ~ near10 e2 e1)
  /\ (forall e : SunEvent.t,
        In e (uniqueEvents raw) ->
        exists j : nat,
          nth_error raw j = Some e
          /\ forall (j' : nat) (y : SunEvent.t),
               (j' < j)%nat -> nth_error raw j' = Some y -> ~ near10 y e).
Proof.
  split.
  - intros a b e1 e2 Hab Ha Hb.
    destruct (filter_from_ordered _ _ _ Hab Ha Hb)
      as (j1 & j2 & Hlt & H1 & H2 & _ & Hkept2).
    cbn [Z.add] in Hkept2.
    assert (Hfar : ~ near10 e1 e2) by (apply (@uniqueEvents_first raw j2 e2 Hkept2 j1 e1 Hlt H1)).
    split; [exact Hfar |].
    intros [Htype Htime]. apply Hfar. unfold near10. split; [congruence | lia].
  - intros e Hin. apply In_nth_error in Hin. destruct Hin as [a Ha].
    destruct (filter_from_nth _ _ _ _ Ha) as [j [Hj Hkept]].
    cbn [Z.add] in Hkept.
    exists j. split; [exact Hj |]. apply (@uniqueEvents_first raw j e Hkept).
Qed.

(** C10: de-duplication can discard an event that is more than ten minutes
    away from every retained event of its type.  Of three sunrise events at
    minutes 0, 8 and 16 only the first is retained: the third is compared
    with the second, eight minutes before it, which is itself discarded. *)
Theorem C10_discarded_though_far_from_retained :
  exists (raw : list SunEvent.t) (e earlier : SunEvent.t),
    In e raw
    /\ ~ In e (uniqueEvents raw)
    /\ (forall r : SunEvent.t,
          In r (uniqueEvents raw) ->
          SunEvent.type r = SunEvent.type e
          /\ (10 * 60 * 1000 < Z.abs (SunEvent.time r - SunEvent.time e))%Z)
    /\ findIndex (sameEvent e) raw = 1%Z
    /\ nth_error raw 1 = Some earlier
    /\ near10 earlier e
    /\ ~ In earlier (uniqueEvents raw).
Proof.
  exists Fixture.threeEvents, (Fixture.rawEvent 16), (Fixture.rawEvent 8).
  assert (Hunique : uniqueEvents Fixture.threeEvents = [Fixture.rawEvent 0])
    by reflexivity.
  rewrite Hunique.
  split; [cbn; tauto |].
  split; [intros [Habs | []]; discriminate |].
  split; [intros r [Hr | []]; subst r; cbn; split; [reflexivity | lia] |].
  split; [reflexivity |].
  split; [reflexivity |].
  split; [unfold near10; cbn; split; [reflexivity | lia] |].
  intros [Habs | []]; discriminate.
Qed.

(** ** The recommendation *)

Lemma countSide_total (events : list SunEvent.t) :
  (countSide SideLeft events + countSide SideRight events = List.length events)%nat.
Proof.
  unfold countSide. induction events as [| e events IH]; [reflexivity |].
  cbn [filter List.length]. destruct (SunEvent.viewingSide e); cbn [Side_eqb List.length]; lia.
Qed.

Section Advice.

Context {imports : Imports}.

(** With at least one event the advice follows the event counts alone. *)
Lemma advise_with_events (events : list SunEvent.t)
    (sunVisibleCount leftSideCount rightSideCount : nat) :
  events <> [] ->
  let advice := advise events sunVisibleCount leftSideCount rightSideCount in
  let leftEvents := countSide SideLeft events in
  let rightEvents := countSide SideRight events in
  ((rightEvents < leftEvents)%nat ->
     recommendation advice = RecLeft
     /\ confidence advice == Qmin 95 (60 + Qnat leftEvents * 15))
  /\ ((leftEvents < rightEvents)%nat ->
        recommendation advice = RecRight
        /\ confidence advice == Qmin 95 (60 + Qnat rightEvents * 15))
  /\ (leftEvents = rightEvents ->
        recommendation advice = RecEither /\ confidence advice == 75).
Proof.
  intros Hne. cbv zeta. unfold advise.
  destruct events as [| e events]; [congruence |].
  assert (Hpos : (0 <? List.length (e :: events))%nat = true) by reflexivity.
  rewrite Hpos. clear Hpos.
  set (l := countSide SideLeft (e :: events)).
  set (r := countSide SideRight (e :: events)).
  destruct (Nat.ltb_spec r l) as [Hrl | Hrl];
    [| destruct (Nat.ltb_spec l r) as [Hlr | Hlr]];
    (split; [| split]); intros Hcase; try (exfalso; lia);
    cbn [recommendation confidence]; split; reflexivity.
Qed.

(** C5: when the de-duplicated event list is not empty, every event counts
    for the left or for the right side, the side with strictly more events
    is recommended with confidence min(95, 60 + 15 * its count), and equal
    counts give 'either' with confidence 75. *)
Theorem C5_majority_of_events (flightDetails : FlightDetails.t) :
  let result := calculateSunPositionForFlight flightDetails in
  let events := FlightRecommendation.events result in
  let leftEvents := countSide SideLeft events in
  let rightEvents := countSide SideRight events in
  events <> [] ->
  (leftEvents + rightEvents = List.length events)%nat
  /\ ((rightEvents < leftEvents)%nat ->
        FlightRecommendation.recommendation result = RecLeft
        /\ FlightRecommendation.confidence result == Qmin 95 (60 + Qnat leftEvents * 15))
  /\ ((leftEvents < rightEvents)%nat ->
        FlightRecommendation.recommendation result = RecRight
        /\ FlightRecommendation.confidence result == Qmin 95 (60 + Qnat rightEvents * 15))
  /\ (leftEvents = rightEvents ->
        FlightRecommendation.recommendation result = RecEither
        /\ FlightRecommendation.confidence result == 75).
Proof.
  cbv zeta. unfold calculateSunPositionForFlight, tryBlock.
  destruct (findAirport (FlightDetails.departure flightDetails)) as [dep |];
    [destruct (findAirport (FlightDetails.arrival flightDetails)) as [arr |] |];
    cbn [FlightRecommendation.events FlightRecommendation.recommendation
         FlightRecommendation.confidence errorResult];
    try congruence.
  intros Hne. split; [apply countSide_total |].
  apply advise_with_events. exact Hne.
Qed.

End Advice.

Lemma C5_witness :
  let result := @calculateSunPositionForFlight Fixture.toy Fixture.dawnFlight in
  let events := FlightRecommendation.events result in
  let leftEvents := countSide SideLeft events in
  let rightEvents := countSide SideRight events in
  (leftEvents + rightEvents = List.length events)%nat
  /\ ((rightEvents < leftEvents)%nat ->
        FlightRecommendation.recommendation result = RecLeft
        /\ FlightRecommendation.confidence result == Qmin 95 (60 + Qnat leftEvents * 15))
  /\ ((leftEvents < rightEvents)%nat ->
        FlightRecommendation.recommendation result = RecRight
        /\ FlightRecommendation.confidence result == Qmin 95 (60 + Qnat rightEvents * 15))
  /\ (leftEvents = rightEvents ->
        FlightRecommendation.recommendation result = RecEither
        /\ FlightRecommendation.confidence result == 75).
Proof.
  apply (@C5_majority_of_events Fixture.toy Fixture.dawnFlight).
  vm_compute. discriminate.
Defined.

(** ** Samples without a sunrise or a sunset *)

Section MissingSunTimes.

Context {imports : Imports}.

(** C6: at a sample for which suncalc has no instant for an event type
    (no sunrise, or no sunset) the loop body, a total function that throws
    nothing, pushes no event of that type; at a sample with neither instant
    it pushes no event at all. *)
Theorem C6_no_event_without_sun_time
    (flightDetails : FlightDetails.t) (departureCoords : Coords.t)
    (totalDistance flightBearing : Q) (st : LoopState) (i : Z) (missing : EventType) :
  let sunTimes :=
    sunTimesAt flightDetails departureCoords totalDistance flightBearing i in
  instantOf missing sunTimes = None ->
  exists pushed : list SunEvent.t,
    sunEvents (loop_body flightDetails departureCoords totalDistance flightBearing st i)
    = sunEvents st ++ pushed
    /\ (forall e : SunEvent.t, In e pushed -> SunEvent.type e <> missing)
    /\ (SunCalcTimes.sunrise sunTimes = None ->
        SunCalcTimes.sunset sunTimes = None -> pushed = []).
Proof.
  cbv zeta. intros Hmissing.
  exists (eventsAt flightDetails departureCoords totalDistance flightBearing i).
  split; [apply loop_body_sunEvents |].
  unfold eventsAt.
  set (sunTimes := sunTimesAt _ _ _ _ _) in *.
  set (up := Qltb 0 _). set (twilight := Qltb (-5) _).
  split.
  - intros e. destruct missing; cbn [instantOf] in Hmissing; rewrite Hmissing;
      cbn [within orb].
    + destruct (up && (_ && twilight)); [| intros []].
      intros [He | []]. subst e. cbn. discriminate.
    + destruct (within _ (SunCalcTimes.sunrise sunTimes) _) eqn:Hnear.
      * destruct (up && (_ && twilight)); [| intros []].
        intros [He | []]. subst e. cbn. discriminate.
      * cbn [orb andb]. rewrite andb_false_r. intros [].
  - intros Hrise Hset. rewrite Hrise, Hset. cbn [within orb andb].
    rewrite andb_false_r. reflexivity.
Qed.

End MissingSunTimes.

Lemma C6_witness :
  let sunTimes :=
    @sunTimesAt Fixture.polar Fixture.dawnFlight (coordsOf Fixture.JFK) 0 51 4 in
  exists pushed : list SunEvent.t,
    sunEvents (@loop_body Fixture.polar Fixture.dawnFlight (coordsOf Fixture.JFK) 0 51
                 initialState 4)
    = sunEvents initialState ++ pushed
    /\ (forall e : SunEvent.t, In e pushed -> SunEvent.type e <> Sunrise)
    /\ (SunCalcTimes.sunrise sunTimes = None ->
        SunCalcTimes.sunset sunTimes = None -> pushed = []).
Proof.
  apply (@C6_no_event_without_sun_time Fixture.polar Fixture.dawnFlight
           (coordsOf Fixture.JFK) 0 51 initialState 4 Sunrise).
  reflexivity.
Defined.

(** ** Ranges of the result *)

Lemma Qnat_ratio_range (a b : nat) :
  (0 < b)%nat -> 0 <= Qnat a / Qnat b.
Proof.
  intros Hb. apply Qle_shift_div_l; [apply Qnat_pos; exact Hb |].
  pose proof (Qnat_nonneg a). lra.
Qed.

Lemma Qnat_ratio_le_1 (a b : nat) :
  (0 < b)%nat -> (a <= b)%nat -> Qnat a / Qnat b <= 1.
Proof.
  intros Hb Hab. apply Qle_shift_div_r; [apply Qnat_pos; exact Hb |].
  pose proof (Qnat_le Hab). lra.
Qed.

Section Ranges.

Context {imports : Imports}.

Lemma advise_confidence_range (events : list SunEvent.t)
    (sunVisibleCount leftSideCount rightSideCount : nat) :
  let advice := advise events sunVisibleCount leftSideCount rightSideCount in
  0 <= confidence advice /\ confidence advice <= 100.
Proof.
  cbv zeta. unfold advise.
  assert (Hevents : forall n : nat,
            0 <= Qmin 95 (60 + Qnat n * 15) /\ Qmin 95 (60 + Qnat n * 15) <= 100).
  { intros n. pose proof (Qnat_nonneg n) as Hn. split.
    - apply Q.min_glb; lra.
    - pose proof (Q.le_min_l 95 (60 + Qnat n * 15)). lra. }
  assert (Hshare : forall n : nat, (0 < sunVisibleCount)%nat ->
            0 <= Qmin 80 (50 + Qnat n / Qnat sunVisibleCount * 30)
            /\ Qmin 80 (50 + Qnat n / Qnat sunVisibleCount * 30) <= 100).
  { intros n Hv. pose proof (Qnat_ratio_range n Hv) as Hn. split.
    - apply Q.min_glb; lra.
    - pose proof (Q.le_min_l 80 (50 + Qnat n / Qnat sunVisibleCount * 30)). lra. }
  destruct (0 <? List.length events)%nat.
  - destruct (_ <? _)%nat; [apply Hevents |].
    destruct (_ <? _)%nat; [apply Hevents |].
    cbn [confidence]. split; lra.
  - destruct (Nat.ltb_spec 0 sunVisibleCount) as [Hv | Hv].
    + destruct (Qltb _ _); [apply Hshare; exact Hv |].
      destruct (Qltb _ _); [apply Hshare; exact Hv |].
      cbn [confidence]. split; lra.
    + cbn [confidence]. split; lra.
Qed.

(** C7: with both airports found the recommendation is 'left', 'right' or
    'either', the confidence lies in [0, 100], and so does the average sun
    visibility of the summary. *)
Theorem C7_result_ranges
    (flightDetails : FlightDetails.t) (departureAirport arrivalAirport : Airport.t) :
  resolves flightDetails departureAirport arrivalAirport ->
  let result := calculateSunPositionForFlight flightDetails in
  let visibility :=
    Summary.averageSunVisibility
      (GlobeData.summary (FlightRecommendation.globeData result)) in
  (FlightRecommendation.recommendation result = RecLeft
   \/ FlightRecommendation.recommendation result = RecRight
   \/ FlightRecommendation.recommendation result = RecEither)
  /\ (0 <= FlightRecommendation.confidence result
      /\ FlightRecommendation.confidence result <= 100)
  /\ (0 <= visibility /\ visibility <= 100).
Proof.
  intros Hres. cbv zeta.
  split; [| split].
  - destruct (FlightRecommendation.recommendation _); tauto.
  - destruct (result_advice Hres) as [_ Hconf]. rewrite Hconf.
    apply advise_confidence_range.
  - rewrite (result_averageSunVisibility Hres).
    set (st := sampleFlight _ _ _ _).
    pose proof (sampleFlight_sunVisibleCount_le flightDetails
                  (coordsOf departureAirport)
                  (getDistance (coordsOf departureAirport) (coordsOf arrivalAirport))
                  (getRhumbLineBearing (coordsOf departureAirport)
                     (coordsOf arrivalAirport))) as Hle.
    fold st in Hle.
    destruct (Nat.ltb_spec 0 (List.length (flightPath st))) as [Hlen | Hlen].
    + pose proof (Qnat_ratio_range (sunVisibleCount st) Hlen).
      pose proof (Qnat_ratio_le_1 Hlen Hle).
      split; lra.
    + split; lra.
Qed.

End Ranges.

Lemma C7_witness :
  let result := @calculateSunPositionForFlight Fixture.toy Fixture.dawnFlight in
  let visibility :=
    Summary.averageSunVisibility
      (GlobeData.summary (FlightRecommendation.globeData result)) in
  (FlightRecommendation.recommendation result = RecLeft
   \/ FlightRecommendation.recommendation result = RecRight
   \/ FlightRecommendation.recommendation result = RecEither)
  /\ (0 <= FlightRecommendation.confidence result
      /\ FlightRecommendation.confidence result <= 100)
  /\ (0 <= visibility /\ visibility <= 100).
Proof.
  apply (@C7_result_ranges Fixture.toy Fixture.dawnFlight Fixture.JFK Fixture.LHR).
  split; reflexivity.
Defined.

(** ** A flight from an airport to itself *)

Section SameAirport.

Context {imports : Imports}.

(** C8, as amended: when both codes are the same and resolve to one airport
    record, the duration is positive and geolib measures distance 0 from a
    point to itself, the calculation returns normally a result between that
    airport and itself whose total distance is 0 and whose path, not empty,
    has every point at the place geolib's destination point gives from the
    airport's coordinates at a distance equal to 0 along the flight bearing;
    all points are then at one and the same place. *)
Theorem C8_same_airport_zero_distance
    (flightDetails : FlightDetails.t) (airport : Airport.t) :
  FlightDetails.departure flightDetails = FlightDetails.arrival flightDetails ->
  findAirport (FlightDetails.departure flightDetails) = Some airport ->
  0 < FlightDetails.durationMinutes flightDetails ->
  distance_self_zero ->
  let result := calculateSunPositionForFlight flightDetails in
  let globe := FlightRecommendation.globeData result in
  let flightBearing := getRhumbLineBearing (coordsOf airport) (coordsOf airport) in
  tryBlock flightDetails = Returned result
  /\ GlobeData.departure globe = airport
  /\ GlobeData.arrival globe = airport
  /\ GlobeData.totalDistance globe == 0
  /\ GlobeData.flightPath globe <> []
  /\ (forall p : FlightPathPoint.t,
        In p (GlobeData.flightPath globe) ->
        exists distance : Q,
          distance == 0
          /\ FlightPathPoint.location p
             = locationOf (computeDestinationPoint (coordsOf airport) distance flightBearing))
  /\ (destination_respects_eq ->
      forall p q : FlightPathPoint.t,
        In p (GlobeData.flightPath globe) -> In q (GlobeData.flightPath globe) ->
        Location.lat (FlightPathPoint.location p) == Location.lat (FlightPathPoint.location q)
        /\ Location.lon (FlightPathPoint.location p)
           == Location.lon (FlightPathPoint.location q)).
Proof.
  intros Hsame Hfound Hd Hdistance. cbv zeta.
  assert (Hres : resolves flightDetails airport airport).
  { split; [exact Hfound | rewrite <- Hsame; exact Hfound]. }
  assert (Hzero : getDistance (coordsOf airport) (coordsOf airport) == 0)
    by apply Hdistance.
  split; [apply (result_not_thrown Hres) |].
  split.
  { unfold calculateSunPositionForFlight, tryBlock.
    destruct Hres as [Hdep Harr]. rewrite Hdep, Harr. reflexivity. }
  split.
  { unfold calculateSunPositionForFlight, tryBlock.
    destruct Hres as [Hdep Harr]. rewrite Hdep, Harr. reflexivity. }
  split; [rewrite (result_totalDistance Hres); exact Hzero |].
  rewrite (result_flightPath Hres).
  assert (Hpoint : forall p,
            In p (map (pointAt flightDetails (coordsOf airport)
                         (getDistance (coordsOf airport) (coordsOf airport))
                         (getRhumbLineBearing (coordsOf airport) (coordsOf airport)))
                    (loop_indices (numIntervalsOf flightDetails))) ->
            exists distance : Q,
              distance == 0
              /\ FlightPathPoint.location p
                 = locationOf
                     (computeDestinationPoint (coordsOf airport) distance
                        (getRhumbLineBearing (coordsOf airport) (coordsOf airport)))).
  { intros p Hin. apply in_map_iff in Hin. destruct Hin as [i [Hp _]]. subst p.
    exists (getDistance (coordsOf airport) (coordsOf airport) * progressAt flightDetails i).
    split; [rewrite Hzero; ring | reflexivity]. }
  split; [| split].
  - pose proof (numIntervalsOf_positive flightDetails Hd) as Hn.
    intros Hempty. apply (f_equal (@List.length _)) in Hempty.
    rewrite length_map, length_loop_indices in Hempty. cbn in Hempty. lia.
  - exact Hpoint.
  - intros Hrespects p q Hp Hq.
    destruct (Hpoint p Hp) as (dp & Hdp & Hlp).
    destruct (Hpoint q Hq) as (dq & Hdq & Hlq).
    rewrite Hlp, Hlq. unfold locationOf. cbn [Location.lat Location.lon].
    apply Hrespects. rewrite Hdp, Hdq. reflexivity.
Qed.

End SameAirport.

Lemma flatDistance_self_zero (a : Coords.t) : Fixture.flatDistance a a == 0.
Proof.
  unfold Fixture.flatDistance.
  assert (Hlat : Coords.latitude a - Coords.latitude a == 0) by ring.
  assert (Hlon : Coords.longitude a - Coords.longitude a == 0) by ring.
  rewrite Hlat, Hlon. reflexivity.
Qed.

Lemma eastward_respects_eq (origin : Coords.t) (distance distance' bearing : Q) :
  distance == distance' ->
  Coords.latitude (Fixture.eastward origin distance bearing)
    == Coords.latitude (Fixture.eastward origin distance' bearing)
  /\ Coords.longitude (Fixture.eastward origin distance bearing)
    == Coords.longitude (Fixture.eastward origin distance' bearing).
Proof.
  intros Heq. unfold Fixture.eastward. cbn [Coords.latitude Coords.longitude].
  split; [reflexivity | rewrite Heq; reflexivity].
Qed.

Lemma binary64_destination_respects_eq : @destination_respects_eq Binary64.imports.
Proof.
  intros origin distance distance' bearing Heq.
  cbn [computeDestinationPoint Binary64.imports]. unfold Binary64.destinationPoint.
  assert (Hsame : Qeq_bool distance 0 = Qeq_bool distance' 0).
  { destruct (Qeq_bool distance 0) eqn:Hd; destruct (Qeq_bool distance' 0) eqn:Hd';
      try reflexivity.
    - apply Qeq_bool_eq in Hd. apply Qeq_bool_neq in Hd'. exfalso. apply Hd'.
      rewrite <- Heq. exact Hd.
    - apply Qeq_bool_eq in Hd'. apply Qeq_bool_neq in Hd. exfalso. apply Hd.
      rewrite Heq. exact Hd'. }
  rewrite <- Hsame. destruct (Qeq_bool distance 0).
  - split; reflexivity.
  - apply eastward_respects_eq. exact Heq.
Qed.

Lemma C8_witness :
  let result :=
    @calculateSunPositionForFlight Binary64.imports Fixture.sameAirportFlight in
  let globe := FlightRecommendation.globeData result in
  let origin := coordsOf Binary64.JFK in
  @tryBlock Binary64.imports Fixture.sameAirportFlight = Returned result
  /\ GlobeData.departure globe = Binary64.JFK
  /\ GlobeData.arrival globe = Binary64.JFK
  /\ GlobeData.totalDistance globe == 0
  /\ GlobeData.flightPath globe <> []
  /\ (forall p : FlightPathPoint.t,
        In p (GlobeData.flightPath globe) ->
        exists distance : Q,
          distance == 0
          /\ FlightPathPoint.location p
             = locationOf (Binary64.destinationPoint origin distance 51))
  /\ (forall p q : FlightPathPoint.t,
        In p (GlobeData.flightPath globe) -> In q (GlobeData.flightPath globe) ->
        Location.lat (FlightPathPoint.location p) == Location.lat (FlightPathPoint.location q)
        /\ Location.lon (FlightPathPoint.location p)
           == Location.lon (FlightPathPoint.location q)).
Proof.
  destruct (@C8_same_airport_zero_distance Binary64.imports
              Fixture.sameAirportFlight Binary64.JFK)
    as (Hreturned & Hdeparture & Harrival & Hdistance & Hpath & Hpoints & Hsame).
  - reflexivity.
  - reflexivity.
  - reflexivity.
  - intros a. apply flatDistance_self_zero.
  - repeat split; try assumption.
    + apply (Hsame binary64_destination_respects_eq p q); assumption.
    + apply (Hsame binary64_destination_respects_eq p q); assumption.
Defined.

(** C8 as first stated fails on double-precision numbers: the flight from
    JFK to JFK has equal codes that resolve to one record and a total
    distance of 0, yet the latitude of its first point, 40.64 taken to
    radians and back, is one unit in the last place above the airport's. *)
Lemma C8_counterexample :
  let flightDetails := Fixture.sameAirportFlight in
  let result := @calculateSunPositionForFlight Binary64.imports flightDetails in
  let globe := FlightRecommendation.globeData result in
  FlightDetails.departure flightDetails = FlightDetails.arrival flightDetails
  /\ @findAirport Binary64.imports (FlightDetails.departure flightDetails)
     = Some Binary64.JFK
  /\ @tryBlock Binary64.imports flightDetails = Returned result
  /\ GlobeData.totalDistance globe == 0
  /\ ~ (forall p : FlightPathPoint.t,
          In p (GlobeData.flightPath globe) ->
          Location.lat (FlightPathPoint.location p) == Airport.latitude Binary64.JFK
          /\ Location.lon (FlightPathPoint.location p) == Airport.longitude Binary64.JFK).
Proof.
  cbv zeta.
  assert (Hres : @resolves Binary64.imports Fixture.sameAirportFlight
                   Binary64.JFK Binary64.JFK) by (split; reflexivity).
  split; [reflexivity |]. split; [reflexivity |].
  split; [apply (@result_not_thrown Binary64.imports _ _ _ Hres) |].
  split; [rewrite (@result_totalDistance Binary64.imports _ _ _ Hres);
          apply flatDistance_self_zero |].
  rewrite (@result_flightPath Binary64.imports _ _ _ Hres).
  set (point := pointAt _ _ _ _).
  assert (Hindices : loop_indices (numIntervalsOf Fixture.sameAirportFlight)
                     = [0; 1; 2; 3; 4; 5; 6; 7; 8; 9]%Z) by reflexivity.
  rewrite Hindices. intros Hall.
  destruct (Hall (point 0%Z)) as [Hlat _]; [left; reflexivity |].
  vm_compute in Hlat. discriminate.
Qed.

(** ** Events come from visible samples *)

Lemma In_filter_index (A : Type) (f : A -> Z -> bool) (l : list A) (e : A) :
  In e (filter_index f l) -> In e l.
Proof.
  intros Hin. apply In_nth_error in Hin. destruct Hin as [a Ha].
  destruct (filter_from_nth _ _ _ _ Ha) as [j [Hj _]].
  apply (nth_error_In _ _ Hj).
Qed.

Section EventsVisible.

Context {imports : Imports}.

(** An event pushed by sample [i] copies the point of sample [i], at which
    the sun is up. *)
Lemma eventsAt_point (flightDetails : FlightDetails.t) (departureCoords : Coords.t)
    (totalDistance flightBearing : Q) (i : Z) (e : SunEvent.t) :
  In e (eventsAt flightDetails departureCoords totalDistance flightBearing i) ->
  let p := pointAt flightDetails departureCoords totalDistance flightBearing i in
  0 < SunEvent.elevation e
  /\ FlightPathPoint.time p = SunEvent.time e
  /\ FlightPathPoint.location p = SunEvent.location e
  /\ SunPosition.visible (FlightPathPoint.sunPosition p) = true
  /\ SunPosition.elevation (FlightPathPoint.sunPosition p) = SunEvent.elevation e
  /\ SunPosition.azimuth (FlightPathPoint.sunPosition p) = SunEvent.sunAzimuth e
  /\ FlightPathPoint.viewingSide p = Some (SunEvent.viewingSide e).
Proof.
  unfold eventsAt, pointAt. cbv zeta.
  destruct (Qltb 0 _) eqn:Hup; cbn [andb]; [| intros []].
  destruct (_ && _); [| intros []].
  intros [He | []]. subst e.
  cbn [SunEvent.elevation SunEvent.time SunEvent.location SunEvent.sunAzimuth
       SunEvent.viewingSide FlightPathPoint.time FlightPathPoint.location
       FlightPathPoint.sunPosition FlightPathPoint.viewingSide
       SunPosition.visible SunPosition.elevation SunPosition.azimuth].
  apply Qltb_true in Hup.
  repeat split; try reflexivity. exact Hup.
Qed.

(** C9: every event of the returned list has an elevation above 0 and the
    viewing side of a point of the returned path, taken at the same time
    and place, at which the sun is visible: events are only detected at
    samples with the sun above the horizon, whatever the -5 degree floor. *)
Theorem C9_events_only_where_sun_visible
    (flightDetails : FlightDetails.t) (e : SunEvent.t) :
  let result := calculateSunPositionForFlight flightDetails in
  In e (FlightRecommendation.events result) ->
  0 < SunEvent.elevation e
  /\ exists p : FlightPathPoint.t,
       In p (GlobeData.flightPath (FlightRecommendation.globeData result))
       /\ FlightPathPoint.time p = SunEvent.time e
       /\ FlightPathPoint.location p = SunEvent.location e
       /\ SunPosition.visible (FlightPathPoint.sunPosition p) = true
       /\ SunPosition.elevation (FlightPathPoint.sunPosition p) = SunEvent.elevation e
       /\ SunPosition.azimuth (FlightPathPoint.sunPosition p) = SunEvent.sunAzimuth e
       /\ FlightPathPoint.viewingSide p = Some (SunEvent.viewingSide e).
Proof.
  cbv zeta.
  destruct (findAirport (FlightDetails.departure flightDetails)) as [dep |] eqn:Hdep;
    [destruct (findAirport (FlightDetails.arrival flightDetails)) as [arr |] eqn:Harr |].
  - assert (Hres : resolves flightDetails dep arr) by (split; assumption).
    rewrite (result_events Hres), (result_flightPath Hres).
    intros Hin. apply In_filter_index in Hin.
    apply in_flat_map in Hin. destruct Hin as [i [Hi He]].
    pose proof (eventsAt_point _ _ _ _ _ _ He) as Hpoint. cbv zeta in Hpoint.
    destruct Hpoint as [Hup Hpoint].
    split; [exact Hup |].
    eexists. split; [apply in_map; exact Hi | exact Hpoint].
  - unfold calculateSunPositionForFlight, tryBlock. rewrite Hdep, Harr. intros [].
  - unfold calculateSunPositionForFlight, tryBlock. rewrite Hdep. intros [].
Qed.

End EventsVisible.

Lemma C9_witness :
  let result := @calculateSunPositionForFlight Fixture.toy Fixture.dawnFlight in
  let e := nth 0 (FlightRecommendation.events result) (Fixture.rawEvent 0) in
  0 < SunEvent.elevation e
  /\ exists p : FlightPathPoint.t,
       In p (GlobeData.flightPath (FlightRecommendation.globeData result))
       /\ FlightPathPoint.time p = SunEvent.time e
       /\ FlightPathPoint.location p = SunEvent.location e
       /\ SunPosition.visible (FlightPathPoint.sunPosition p) = true
       /\ SunPosition.elevation (FlightPathPoint.sunPosition p) = SunEvent.elevation e
       /\ SunPosition.azimuth (FlightPathPoint.sunPosition p) = SunEvent.sunAzimuth e
       /\ FlightPathPoint.viewingSide p = Some (SunEvent.viewingSide e).
Proof.
  intros result e.
  apply (@C9_events_only_where_sun_visible Fixture.toy Fixture.dawnFlight e).
  vm_compute. left. reflexivity.
Defined.

(** * Further properties of the calculator *)

(** ** The counters and the returned path *)

Section Counters.

Context {imports : Imports}.
Variable flightDetails : FlightDetails.t.
Variable departureCoords : Coords.t.
Variables totalDistance flightBearing : Q.

Let body := loop_body flightDetails departureCoords totalDistance flightBearing.

Lemma loop_body_counters (st : LoopState) (i : Z) :
  counters_agree st -> counters_agree (body st i).
Proof.
  unfold counters_agree, body, loop_body. cbv zeta.
  intros (Hv & Hl & Hr).
  destruct (Qltb 0 _) eqn:Hup; cbv beta iota;
    cbn [flightPath sunVisibleCount leftSideCount rightSideCount];
    unfold visiblePoints, sidePoints; rewrite !filter_app, !length_app;
    fold (visiblePoints (flightPath st)); fold (sidePoints SideLeft (flightPath st));
    fold (sidePoints SideRight (flightPath st));
    cbn [filter hasSide FlightPathPoint.viewingSide FlightPathPoint.sunPosition
         SunPosition.visible].
  - destruct (viewingSideOf _ _); cbn [Side_eqb List.length]; lia.
  - cbn [List.length]. lia.
Qed.

Lemma loop_counters (l : list Z) (st : LoopState) :
  counters_agree st -> counters_agree (fold_left body l st).
Proof.
  revert st. induction l as [| i l IH]; intros st Hst; cbn [fold_left].
  - exact Hst.
  - apply IH. apply loop_body_counters. exact Hst.
Qed.

Lemma sampleFlight_counters :
  counters_agree (sampleFlight flightDetails departureCoords totalDistance flightBearing).
Proof.
  unfold sampleFlight. fold body. apply loop_counters.
  repeat split.
Qed.

End Counters.

Lemma visiblePoints_le (path : list FlightPathPoint.t) :
  (visiblePoints path <= List.length path)%nat.
Proof. unfold visiblePoints. apply filter_length_le. Qed.

(** A point has a side exactly when it is marked visible, as long as the
    path was built by the loop. *)
Lemma sidePoints_total (path : list FlightPathPoint.t) :
  (forall p, In p path ->
     (FlightPathPoint.viewingSide p <> None
      <-> SunPosition.visible (FlightPathPoint.sunPosition p) = true)) ->
  (sidePoints SideLeft path + sidePoints SideRight path = visiblePoints path)%nat.
Proof.
  unfold sidePoints, visiblePoints.
  induction path as [| p path IH]; intros Hpath; [reflexivity |].
  assert (IH' := IH (fun q Hq => Hpath q (or_intror Hq))).
  pose proof (Hpath p (or_introl eq_refl)) as Hp.
  cbn [filter].
  remember (hasSide SideLeft p) as onLeft eqn:HonLeft.
  remember (hasSide SideRight p) as onRight eqn:HonRight.
  unfold hasSide in HonLeft, HonRight.
  destruct (FlightPathPoint.viewingSide p) as [[|] |];
    destruct (SunPosition.visible (FlightPathPoint.sunPosition p));
    cbn [Side_eqb] in HonLeft, HonRight; subst onLeft onRight;
    cbn [List.length];
    try lia;
    exfalso; destruct Hp as [Hside Hvisible];
    solve [ assert (Habs : false = true) by (apply Hside; discriminate); discriminate
          | apply Hvisible; reflexivity ].
Qed.

Section ResultState.

Context {imports : Imports}.
Variable flightDetails : FlightDetails.t.
Variables departureAirport arrivalAirport : Airport.t.
Hypothesis Hresolves : resolves flightDetails departureAirport arrivalAirport.

Let departureCoords := coordsOf departureAirport.
Let arrivalCoords := coordsOf arrivalAirport.
Let totalDistance := getDistance departureCoords arrivalCoords.
Let flightBearing := getRhumbLineBearing departureCoords arrivalCoords.
Let st := sampleFlight flightDetails departureCoords totalDistance flightBearing.
Let result := calculateSunPositionForFlight flightDetails.

Lemma result_unfolded :
  result
  = let events := uniqueEvents (sunEvents st) in
    let advice :=
      advise events (sunVisibleCount st) (leftSideCount st) (rightSideCount st) in
    {| FlightRecommendation.recommendation := recommendation advice;
       FlightRecommendation.confidence := confidence advice;
       FlightRecommendation.description := description advice;
       FlightRecommendation.events := events;
       FlightRecommendation.globeData :=
         {| GlobeData.departure := departureAirport;
            GlobeData.arrival := arrivalAirport;
            GlobeData.flightPath := flightPath st;
            GlobeData.totalDistance := totalDistance;
            GlobeData.totalDuration := FlightDetails.durationMinutes flightDetails;
            GlobeData.summary :=
              {| Summary.totalSunriseEvents := countType Sunrise events;
                 Summary.totalSunsetEvents := countType Sunset events;
                 Summary.averageSunVisibility :=
                   if (0 <? List.length (flightPath st))%nat
                   then Qnat (sunVisibleCount st) / Qnat (List.length (flightPath st)) * 100
                   else 0;
                 Summary.bestViewingSide := recommendation advice |} |} |}.
Proof.
  destruct Hresolves as [Hdep Harr].
  unfold result, calculateSunPositionForFlight, tryBlock.
  rewrite Hdep, Harr. reflexivity.
Qed.

Lemma result_counters : counters_agree st.
Proof. apply sampleFlight_counters. Qed.

(** Every returned point has a side exactly when it is marked visible. *)
Lemma result_points_side_iff_visible (p : FlightPathPoint.t) :
  In p (flightPath st) ->
  (FlightPathPoint.viewingSide p <> None
   <-> SunPosition.visible (FlightPathPoint.sunPosition p) = true).
Proof.
  unfold st. rewrite sampleFlight_flightPath.
  intros Hin. apply in_map_iff in Hin. destruct Hin as [i [Hp _]]. subst p.
  unfold pointAt.
  cbn [FlightPathPoint.viewingSide FlightPathPoint.sunPosition SunPosition.visible].
  destruct (Qltb 0 _); split; congruence.
Qed.

(** An event of the de-duplicated list copies a visible point of the path. *)
Lemma result_event_point (e : SunEvent.t) :
  In e (uniqueEvents (sunEvents st)) ->
  exists p : FlightPathPoint.t,
    In p (flightPath st)
    /\ SunPosition.visible (FlightPathPoint.sunPosition p) = true
    /\ FlightPathPoint.time p = SunEvent.time e.
Proof.
  unfold st. rewrite sampleFlight_sunEvents, sampleFlight_flightPath.
  intros Hin. apply In_filter_index in Hin.
  apply in_flat_map in Hin. destruct Hin as [i [Hi He]].
  pose proof (eventsAt_point _ _ _ _ _ _ He) as Hpoint. cbv zeta in Hpoint.
  destruct Hpoint as (_ & Htime & _ & Hvisible & _).
  eexists. split; [apply in_map; exact Hi |]. split; assumption.
Qed.

End ResultState.

Lemma visiblePoints_none (path : list FlightPathPoint.t) :
  (forall p, In p path ->
     SunPosition.visible (FlightPathPoint.sunPosition p) = false) ->
  visiblePoints path = 0%nat.
Proof.
  unfold visiblePoints. induction path as [| p path IH]; intros Hpath; [reflexivity |].
  cbn [filter]. rewrite (Hpath p (or_introl eq_refl)).
  apply IH. intros q Hq. apply Hpath. right. exact Hq.
Qed.

Section Aggregation.

Context {imports : Imports}.

(** X1: the average sun visibility of the summary is 100 times the share
    of the returned path points that are marked visible (and 0 for an
    empty path). *)
Theorem X1_average_visibility_is_share_of_visible_points
    (flightDetails : FlightDetails.t) (departureAirport arrivalAirport : Airport.t) :
  resolves flightDetails departureAirport arrivalAirport ->
  let result := calculateSunPositionForFlight flightDetails in
  let path := GlobeData.flightPath (FlightRecommendation.globeData result) in
  let visibility :=
    Summary.averageSunVisibility
      (GlobeData.summary (FlightRecommendation.globeData result)) in
  (path = [] -> visibility == 0)
  /\ (path <> [] ->
      visibility == Qnat (visiblePoints path) / Qnat (List.length path) * 100).
Proof.
  intros Hres. cbv zeta. rewrite (result_unfolded Hres). cbv zeta.
  cbn [FlightRecommendation.globeData GlobeData.flightPath GlobeData.summary
       Summary.averageSunVisibility].
  destruct (result_counters flightDetails departureAirport arrivalAirport) as (Hv & _).
  rewrite Hv.
  destruct (flightPath _) as [| p path] eqn:Hpath.
  - split; [intros _; reflexivity | congruence].
  - split; [discriminate | intros _; reflexivity].
Qed.

(** X2: when no point of the returned path is marked visible the result has
    no event, recommends 'either' with confidence 50 and the "no events"
    description, and reports zero visibility and zero sunrise and sunset
    events. *)
Theorem X2_flight_in_the_dark
    (flightDetails : FlightDetails.t) (departureAirport arrivalAirport : Airport.t) :
  resolves flightDetails departureAirport arrivalAirport ->
  let result := calculateSunPositionForFlight flightDetails in
  let globe := FlightRecommendation.globeData result in
  (forall p : FlightPathPoint.t,
     In p (GlobeData.flightPath globe) ->
     SunPosition.visible (FlightPathPoint.sunPosition p) = false) ->
  FlightRecommendation.events result = []
  /\ FlightRecommendation.recommendation result = RecEither
  /\ FlightRecommendation.confidence result == 50
  /\ FlightRecommendation.description result
     = "No significant sunrise or sunset events detected during this flight."%string
  /\ Summary.averageSunVisibility (GlobeData.summary globe) == 0
  /\ Summary.totalSunriseEvents (GlobeData.summary globe) = 0%nat
  /\ Summary.totalSunsetEvents (GlobeData.summary globe) = 0%nat.
Proof.
  intros Hres. cbv zeta. rewrite (result_unfolded Hres). cbv zeta.
  cbn [FlightRecommendation.globeData GlobeData.flightPath GlobeData.summary
       FlightRecommendation.events FlightRecommendation.recommendation
       FlightRecommendation.confidence FlightRecommendation.description
       Summary.averageSunVisibility Summary.totalSunriseEvents
       Summary.totalSunsetEvents].
  intros Hdark.
  destruct (result_counters flightDetails departureAirport arrivalAirport) as (Hv & _).
  rewrite (visiblePoints_none _ Hdark) in Hv. rewrite Hv.
  assert (Hevents : uniqueEvents
                      (sunEvents
                         (sampleFlight flightDetails (coordsOf departureAirport)
                            (getDistance (coordsOf departureAirport)
                               (coordsOf arrivalAirport))
                            (getRhumbLineBearing (coordsOf departureAirport)
                               (coordsOf arrivalAirport)))) = []).
  { destruct (uniqueEvents _) as [| e events] eqn:Hu; [reflexivity |].
    exfalso.
    destruct (result_event_point flightDetails departureAirport arrivalAirport e)
      as (p & Hp & Hvisible & _).
    - rewrite Hu. left. reflexivity.
    - rewrite (Hdark p Hp) in Hvisible. discriminate. }
  rewrite Hevents. unfold advise. cbn [List.length countType filter].
  change (0 <? 0)%nat with false. cbv iota.
  cbn [recommendation confidence description].
  repeat split; try reflexivity.
  destruct (0 <? List.length _)%nat; [| reflexivity].
  change (Qnat 0) with 0. unfold Qdiv. ring.
Qed.

End Aggregation.

Lemma toy_resolves_nightFlight :
  @resolves Fixture.toy Scenarios.nightFlight Fixture.JFK Fixture.LHR.
Proof. split; reflexivity. Qed.

Lemma toy_resolves_noonFlight :
  @resolves Fixture.toy Scenarios.noonFlight Fixture.JFK Fixture.LHR.
Proof. split; reflexivity. Qed.

Lemma X1_witness :
  let result := @calculateSunPositionForFlight Fixture.toy Fixture.dawnFlight in
  let path := GlobeData.flightPath (FlightRecommendation.globeData result) in
  let visibility :=
    Summary.averageSunVisibility
      (GlobeData.summary (FlightRecommendation.globeData result)) in
  (path = [] -> visibility == 0)
  /\ (path <> [] ->
      visibility == Qnat (visiblePoints path) / Qnat (List.length path) * 100).
Proof.
  apply (@X1_average_visibility_is_share_of_visible_points
           Fixture.toy Fixture.dawnFlight Fixture.JFK Fixture.LHR).
  split; reflexivity.
Defined.

Lemma X2_witness :
  let result := @calculateSunPositionForFlight Fixture.toy Scenarios.nightFlight in
  let globe := FlightRecommendation.globeData result in
  FlightRecommendation.events result = []
  /\ FlightRecommendation.recommendation result = RecEither
  /\ FlightRecommendation.confidence result == 50
  /\ FlightRecommendation.description result
     = "No significant sunrise or sunset events detected during this flight."%string
  /\ Summary.averageSunVisibility (GlobeData.summary globe) == 0
  /\ Summary.totalSunriseEvents (GlobeData.summary globe) = 0%nat
  /\ Summary.totalSunsetEvents (GlobeData.summary globe) = 0%nat.
Proof.
  apply (@X2_flight_in_the_dark Fixture.toy Scenarios.nightFlight Fixture.JFK Fixture.LHR).
  - split; reflexivity.
  - vm_compute. intros p Hp.
    repeat (destruct Hp as [Hp | Hp]; [subst p; reflexivity |]).
    destruct Hp.
Defined.

(** ** Confidence levels *)

Section Confidence.

Context {imports : Imports}.

(** The recommendation step never goes below 50 nor above 95. *)
Lemma advise_confidence_50_95 (events : list SunEvent.t)
    (sunVisibleCount leftSideCount rightSideCount : nat) :
  let advice := advise events sunVisibleCount leftSideCount rightSideCount in
  50 <= confidence advice /\ confidence advice <= 95.
Proof.
  cbv zeta. unfold advise.
  assert (Hevents : forall n : nat,
            50 <= Qmin 95 (60 + Qnat n * 15) /\ Qmin 95 (60 + Qnat n * 15) <= 95).
  { intros n. pose proof (Qnat_nonneg n) as Hn. split.
    - apply Q.min_glb; lra.
    - apply Q.le_min_l. }
  assert (Hshare : forall n : nat, (0 < sunVisibleCount)%nat ->
            50 <= Qmin 80 (50 + Qnat n / Qnat sunVisibleCount * 30)
            /\ Qmin 80 (50 + Qnat n / Qnat sunVisibleCount * 30) <= 95).
  { intros n Hv. pose proof (Qnat_ratio_range n Hv) as Hn. split.
    - apply Q.min_glb; lra.
    - pose proof (Q.le_min_l 80 (50 + Qnat n / Qnat sunVisibleCount * 30)). lra. }
  destruct (0 <? List.length events)%nat.
  - destruct (_ <? _)%nat; [apply Hevents |].
    destruct (_ <? _)%nat; [apply Hevents |].
    cbn [confidence]. split; lra.
  - destruct (Nat.ltb_spec 0 sunVisibleCount) as [Hv | Hv].
    + destruct (Qltb _ _); [apply Hshare; exact Hv |].
      destruct (Qltb _ _); [apply Hshare; exact Hv |].
      cbn [confidence]. split; lra.
    + cbn [confidence]. split; lra.
Qed.

(** X3: the confidence of the result is 0 exactly when the departure or the
    arrival code is not in the airport table; whenever both are found it
    lies between 50 and 95. *)
Theorem X3_confidence_zero_iff_airport_missing (flightDetails : FlightDetails.t) :
  let result := calculateSunPositionForFlight flightDetails in
  let missing :=
    findAirport (FlightDetails.departure flightDetails) = None
    \/ findAirport (FlightDetails.arrival flightDetails) = None in
  (FlightRecommendation.confidence result == 0 <-> missing)
  /\ (~ missing ->
      50 <= FlightRecommendation.confidence result
      /\ FlightRecommendation.confidence result <= 95).
Proof.
  cbv zeta.
  destruct (findAirport (FlightDetails.departure flightDetails)) as [dep |] eqn:Hdep;
    [destruct (findAirport (FlightDetails.arrival flightDetails)) as [arr |] eqn:Harr |].
  - assert (Hres : resolves flightDetails dep arr) by (split; assumption).
    destruct (result_advice Hres) as [_ Hconf]. rewrite Hconf.
    pose proof (advise_confidence_50_95
                  (FlightRecommendation.events (calculateSunPositionForFlight flightDetails))
                  (sunVisibleCount
                     (sampleFlight flightDetails (coordsOf dep)
                        (getDistance (coordsOf dep) (coordsOf arr))
                        (getRhumbLineBearing (coordsOf dep) (coordsOf arr))))
                  (leftSideCount
                     (sampleFlight flightDetails (coordsOf dep)
                        (getDistance (coordsOf dep) (coordsOf arr))
                        (getRhumbLineBearing (coordsOf dep) (coordsOf arr))))
                  (rightSideCount
                     (sampleFlight flightDetails (coordsOf dep)
                        (getDistance (coordsOf dep) (coordsOf arr))
                        (getRhumbLineBearing (coordsOf dep) (coordsOf arr)))))
      as Hrange.
    cbv zeta in Hrange.
    split.
    + split; [intros Hzero; exfalso; lra | intros [Habs | Habs]; discriminate].
    + intros _. exact Hrange.
  - unfold calculateSunPositionForFlight, tryBlock. rewrite Hdep, Harr.
    cbn [errorResult FlightRecommendation.confidence].
    split; [split; [intros _; right; reflexivity | intros _; reflexivity] |].
    intros Hnot. exfalso. apply Hnot. right. reflexivity.
  - unfold calculateSunPositionForFlight, tryBlock. rewrite Hdep.
    cbn [errorResult FlightRecommendation.confidence].
    split; [split; [intros _; left; reflexivity | intros _; reflexivity] |].
    intros Hnot. exfalso. apply Hnot. left. reflexivity.
Qed.

(** X4: without any event, the recommendation compares how many returned
    points look left and how many look right.  The two numbers add up to
    the number of visible points; a side is recommended when it has more
    than 1.2 times the points of the other, with confidence 50 plus 30 times
    its share of the visible points (the cap of 80 never cuts that);
    otherwise the answer is 'either' with confidence 50. *)
Theorem X4_side_dominance_without_events
    (flightDetails : FlightDetails.t) (departureAirport arrivalAirport : Airport.t) :
  resolves flightDetails departureAirport arrivalAirport ->
  let result := calculateSunPositionForFlight flightDetails in
  let path := GlobeData.flightPath (FlightRecommendation.globeData result) in
  let onLeft := sidePoints SideLeft path in
  let onRight := sidePoints SideRight path in
  let visible := visiblePoints path in
  FlightRecommendation.events result = [] ->
  (onLeft + onRight = visible)%nat
  /\ (Qnat onRight * (12 # 10) < Qnat onLeft ->
      FlightRecommendation.recommendation result = RecLeft
      /\ FlightRecommendation.confidence result == 50 + Qnat onLeft / Qnat visible * 30)
  /\ (Qnat onLeft <= Qnat onRight * (12 # 10) ->
      Qnat onLeft * (12 # 10) < Qnat onRight ->
      FlightRecommendation.recommendation result = RecRight
      /\ FlightRecommendation.confidence result == 50 + Qnat onRight / Qnat visible * 30)
  /\ (Qnat onLeft <= Qnat onRight * (12 # 10) ->
      Qnat onRight <= Qnat onLeft * (12 # 10) ->
      FlightRecommendation.recommendation result = RecEither
      /\ FlightRecommendation.confidence result == 50).
Proof.
  intros Hres. cbv zeta. rewrite (result_unfolded Hres). cbv zeta.
  cbn [FlightRecommendation.globeData GlobeData.flightPath
       FlightRecommendation.events FlightRecommendation.recommendation
       FlightRecommendation.confidence].
  set (st := sampleFlight _ _ _ _).
  destruct (result_counters flightDetails departureAirport arrivalAirport)
    as (Hv & Hl & Hr).
  fold st in Hv, Hl, Hr.
  intros Hevents. rewrite Hevents, Hv, Hl, Hr.
  assert (Htotal : (sidePoints SideLeft (flightPath st)
                    + sidePoints SideRight (flightPath st)
                    = visiblePoints (flightPath st))%nat).
  { apply sidePoints_total. intros p Hp.
    apply (result_points_side_iff_visible flightDetails departureAirport
             arrivalAirport p Hp). }
  set (onLeft := sidePoints SideLeft (flightPath st)) in *.
  set (onRight := sidePoints SideRight (flightPath st)) in *.
  set (visible := visiblePoints (flightPath st)) in *.
  split; [exact Htotal |].
  unfold advise. cbn [List.length]. change (0 <? 0)%nat with false. cbv iota.
  pose proof (Qnat_nonneg onLeft) as HL0. pose proof (Qnat_nonneg onRight) as HR0.
  assert (Hcap : forall n : nat, (n <= visible)%nat -> (0 < visible)%nat ->
            Qmin 80 (50 + Qnat n / Qnat visible * 30)
            == 50 + Qnat n / Qnat visible * 30).
  { intros n Hn Hpos. apply Q.min_r.
    pose proof (Qnat_ratio_le_1 Hpos Hn). lra. }
  destruct (Nat.ltb_spec 0 visible) as [Hpos | Hzero].
  - destruct (Qltb (Qnat onRight * (12 # 10)) (Qnat onLeft)) eqn:Hleft.
    + apply Qltb_true in Hleft. cbn [recommendation confidence].
      split; [intros _; split; [reflexivity | apply Hcap; lia] |].
      split; intros Hle; exfalso; lra.
    + apply Qltb_false in Hleft.
      destruct (Qltb (Qnat onLeft * (12 # 10)) (Qnat onRight)) eqn:Hright.
      * apply Qltb_true in Hright. cbn [recommendation confidence].
        split; [intros Hlt; exfalso; lra |].
        split; [intros _ _; split; [reflexivity | apply Hcap; lia] |].
        intros _ Hle. exfalso. lra.
      * apply Qltb_false in Hright. cbn [recommendation confidence].
        split; [intros Hlt; exfalso; lra |].
        split; [intros _ Hlt; exfalso; lra |].
        intros _ _. split; reflexivity.
  - assert (HL : onLeft = 0%nat) by lia. assert (HR : onRight = 0%nat) by lia.
    rewrite HL, HR. change (Qnat 0) with 0. cbn [recommendation confidence].
    split; [intros Hlt; exfalso; lra |].
    split; [intros _ Hlt; exfalso; lra |].
    intros _ _. split; reflexivity.
Qed.

End Confidence.

Lemma X4_witness :
  let result := @calculateSunPositionForFlight Fixture.toy Scenarios.noonFlight in
  let path := GlobeData.flightPath (FlightRecommendation.globeData result) in
  let onLeft := sidePoints SideLeft path in
  let onRight := sidePoints SideRight path in
  let visible := visiblePoints path in
  (onLeft + onRight = visible)%nat
  /\ (Qnat onRight * (12 # 10) < Qnat onLeft ->
      FlightRecommendation.recommendation result = RecLeft
      /\ FlightRecommendation.confidence result == 50 + Qnat onLeft / Qnat visible * 30)
  /\ (Qnat onLeft <= Qnat onRight * (12 # 10) ->
      Qnat onLeft * (12 # 10) < Qnat onRight ->
      FlightRecommendation.recommendation result = RecRight
      /\ FlightRecommendation.confidence result == 50 + Qnat onRight / Qnat visible * 30)
  /\ (Qnat onLeft <= Qnat onRight * (12 # 10) ->
      Qnat onRight <= Qnat onLeft * (12 # 10) ->
      FlightRecommendation.recommendation result = RecEither
      /\ FlightRecommendation.confidence result == 50).
Proof.
  apply (@X4_side_dominance_without_events
           Fixture.toy Scenarios.noonFlight Fixture.JFK Fixture.LHR).
  - split; reflexivity.
  - reflexivity.
Defined.

(** ** Consistency of the returned record *)

Lemma countType_total (events : list SunEvent.t) :
  (countType Sunrise events + countType Sunset events = List.length events)%nat.
Proof.
  unfold countType. induction events as [| e events IH]; [reflexivity |].
  cbn [filter List.length]. destruct (SunEvent.type e); cbn [EventType_eqb List.length]; lia.
Qed.

Section Consistency.

Context {imports : Imports}.

Lemma findAirport_iata (code : string) (airport : Airport.t) :
  findAirport code = Some airport -> Airport.iata airport = code /\ In airport airports.
Proof.
  unfold findAirport. intros Hfind. apply find_some in Hfind.
  destruct Hfind as [Hin Heq]. apply String.eqb_eq in Heq. split; assumption.
Qed.

(** X5: in every result, failed or not, the sunrise and sunset totals of
    the summary add up to the number of events returned, the summary's best
    side is the recommendation, the total duration is the duration asked
    for, and the two airports returned carry the two codes asked for. *)
Theorem X5_result_fields_agree (flightDetails : FlightDetails.t) :
  let result := calculateSunPositionForFlight flightDetails in
  let globe := FlightRecommendation.globeData result in
  let summary := GlobeData.summary globe in
  (Summary.totalSunriseEvents summary + Summary.totalSunsetEvents summary
   = List.length (FlightRecommendation.events result))%nat
  /\ Summary.bestViewingSide summary = FlightRecommendation.recommendation result
  /\ GlobeData.totalDuration globe = FlightDetails.durationMinutes flightDetails
  /\ Airport.iata (GlobeData.departure globe) = FlightDetails.departure flightDetails
  /\ Airport.iata (GlobeData.arrival globe) = FlightDetails.arrival flightDetails.
Proof.
  cbv zeta. unfold calculateSunPositionForFlight, tryBlock.
  destruct (findAirport (FlightDetails.departure flightDetails)) as [dep |] eqn:Hdep;
    [destruct (findAirport (FlightDetails.arrival flightDetails)) as [arr |] eqn:Harr |];
    cbn [errorResult FlightRecommendation.globeData FlightRecommendation.events
         FlightRecommendation.recommendation GlobeData.summary GlobeData.totalDuration
         GlobeData.departure GlobeData.arrival Summary.totalSunriseEvents
         Summary.totalSunsetEvents Summary.bestViewingSide Airport.iata List.length];
    try (repeat split; reflexivity).
  apply findAirport_iata in Hdep. apply findAirport_iata in Harr.
  repeat split; try reflexivity; try tauto.
  apply countType_total.
Qed.

Lemma In_loop_indices (n i : Z) : In i (loop_indices n) -> (0 <= i <= n)%Z.
Proof.
  unfold loop_indices. intros Hin. apply in_map_iff in Hin.
  destruct Hin as [k [Hk Hin]]. apply in_seq in Hin. lia.
Qed.

(** X6: with both airports found and a positive duration, every point of
    the returned path has a progress between 0 and 1, a time between the
    departure and the arrival (the departure plus the duration, as a date),
    the rhumb-line bearing between the two airports as its bearing, is
    marked visible exactly when its elevation is above 0, and has a viewing
    side exactly when it is marked visible. *)
Theorem X6_path_point_invariants
    (flightDetails : FlightDetails.t) (departureAirport arrivalAirport : Airport.t)
    (p : FlightPathPoint.t) :
  resolves flightDetails departureAirport arrivalAirport ->
  0 < FlightDetails.durationMinutes flightDetails ->
  In p (GlobeData.flightPath
          (FlightRecommendation.globeData (calculateSunPositionForFlight flightDetails))) ->
  let t0 := FlightDetails.departureTime flightDetails in
  let d := FlightDetails.durationMinutes flightDetails in
  (0 <= FlightPathPoint.progress p /\ FlightPathPoint.progress p <= 1)
  /\ (t0 <= FlightPathPoint.time p <= newDate (inject_Z t0 + d * 60 * 1000))%Z
  /\ FlightPathPoint.aircraftBearing p
     = getRhumbLineBearing (coordsOf departureAirport) (coordsOf arrivalAirport)
  /\ (SunPosition.visible (FlightPathPoint.sunPosition p) = true
      <-> 0 < SunPosition.elevation (FlightPathPoint.sunPosition p))
  /\ (FlightPathPoint.viewingSide p <> None
      <-> SunPosition.visible (FlightPathPoint.sunPosition p) = true).
Proof.
  intros Hres Hd Hin. cbv zeta.
  rewrite (result_flightPath Hres) in Hin.
  apply in_map_iff in Hin. destruct Hin as [i [Hp Hi]]. subst p.
  apply In_loop_indices in Hi.
  pose proof (@offset_nonneg flightDetails i Hi Hd) as Hlow.
  pose proof (@offset_le_duration flightDetails i) as Hup.
  unfold pointAt.
  cbn [FlightPathPoint.progress FlightPathPoint.time FlightPathPoint.aircraftBearing
       FlightPathPoint.sunPosition FlightPathPoint.viewingSide
       SunPosition.visible SunPosition.elevation].
  split; [| split; [| split; [reflexivity | split]]].
  - unfold progressAt. split.
    + apply Qle_shift_div_l; [exact Hd |]. rewrite Qmult_0_l. exact Hlow.
    + apply Qle_shift_div_r; [exact Hd |]. rewrite Qmult_1_l. exact Hup.
  - unfold currentTimeAt, newDate. split.
    + rewrite <- (Qtrunc_inject_Z (FlightDetails.departureTime flightDetails)) at 1.
      apply Qtrunc_le. lra.
    + apply Qtrunc_le. lra.
  - apply Qltb_true.
  - destruct (Qltb 0 _); split; congruence.
Qed.

End Consistency.

Lemma X6_witness :
  let p :=
    @pointAt Fixture.toy Fixture.dawnFlight (coordsOf Fixture.JFK)
      (Fixture.flatDistance (coordsOf Fixture.JFK) (coordsOf Fixture.LHR)) 51 4 in
  let t0 := FlightDetails.departureTime Fixture.dawnFlight in
  let d := FlightDetails.durationMinutes Fixture.dawnFlight in
  (0 <= FlightPathPoint.progress p /\ FlightPathPoint.progress p <= 1)
  /\ (t0 <= FlightPathPoint.time p <= newDate (inject_Z t0 + d * 60 * 1000))%Z
  /\ FlightPathPoint.aircraftBearing p
     = @getRhumbLineBearing Fixture.toy (coordsOf Fixture.JFK) (coordsOf Fixture.LHR)
  /\ (SunPosition.visible (FlightPathPoint.sunPosition p) = true
      <-> 0 < SunPosition.elevation (FlightPathPoint.sunPosition p))
  /\ (FlightPathPoint.viewingSide p <> None
      <-> SunPosition.visible (FlightPathPoint.sunPosition p) = true).
Proof.
  intros p.
  apply (@X6_path_point_invariants Fixture.toy Fixture.dawnFlight
           Fixture.JFK Fixture.LHR p).
  - split; reflexivity.
  - reflexivity.
  - rewrite (result_flightPath toy_resolves_dawnFlight).
    apply in_map. vm_compute. tauto.
Defined.

(** ** More on the indexed search and filter *)

Section IndexedSearchMore.

Variable A : Type.

(** [findIndex] returns the index of the first element that satisfies the
    predicate. *)
Lemma findIndex_from_first (p : A -> bool) (l : list A) (k : Z) (j : nat) (x : A) :
  nth_error l j = Some x ->
  p x = true ->
  (forall (j' : nat) (y : A), (j' < j)%nat -> nth_error l j' = Some y -> p y = false) ->
  findIndex_from p l k = (k + Z.of_nat j)%Z.
Proof.
  revert k j. induction l as [| z l IH]; intros k j Hj Hpx Hbefore.
  - destruct j; discriminate.
  - cbn [findIndex_from]. destruct j as [| j].
    + cbn in Hj. injection Hj as Hj. subst z. rewrite Hpx. lia.
    + rewrite (Hbefore 0%nat z); [| lia | reflexivity].
      cbn in Hj. rewrite (IH (k + 1)%Z j Hj Hpx); [lia |].
      intros j' y Hlt Hy. apply (Hbefore (S j') y); [lia | exact Hy].
Qed.

(** When some element satisfies the predicate, [findIndex] stops at an
    element that satisfies it, at or before that one. *)
Lemma findIndex_from_hit (p : A -> bool) (l : list A) (k : Z) (j : nat) (x : A) :
  nth_error l j = Some x ->
  p x = true ->
  exists (j' : nat) (y : A),
    (j' <= j)%nat /\ nth_error l j' = Some y /\ p y = true
    /\ findIndex_from p l k = (k + Z.of_nat j')%Z.
Proof.
  revert k j. induction l as [| z l IH]; intros k j Hj Hpx.
  - destruct j; discriminate.
  - cbn [findIndex_from]. destruct (p z) eqn:Hpz.
    + exists 0%nat, z. repeat split; [lia | exact Hpz | lia].
    + destruct j as [| j].
      * cbn in Hj. injection Hj as Hj. subst z. congruence.
      * cbn in Hj. destruct (IH (k + 1)%Z j Hj Hpx) as (j' & y & Hle & Hy & Hpy & Hfind).
        exists (S j'), y. repeat split; [lia | exact Hy | exact Hpy | lia].
Qed.

Lemma filter_from_keep (f : A -> Z -> bool) (l : list A) (k : Z) (j : nat) (e : A) :
  nth_error l j = Some e ->
  f e (k + Z.of_nat j)%Z = true ->
  In e (filter_from f l k).
Proof.
  revert k j. induction l as [| x l IH]; intros k j Hj Hf.
  - destruct j; discriminate.
  - cbn [filter_from]. destruct j as [| j].
    + cbn in Hj. injection Hj as Hj. subst x.
      replace (k + Z.of_nat 0)%Z with k in Hf by lia. rewrite Hf. left. reflexivity.
    + cbn in Hj.
      assert (Hrest : In e (filter_from f l (k + 1))).
      { apply (IH (k + 1)%Z j Hj).
        replace (k + 1 + Z.of_nat j)%Z with (k + Z.of_nat (S j))%Z by lia. exact Hf. }
      destruct (f x k); [right |]; exact Hrest.
Qed.

Lemma filter_from_all (f : A -> Z -> bool) (l : list A) (k : Z) :
  (forall (j : nat) (x : A), nth_error l j = Some x -> f x (k + Z.of_nat j)%Z = true) ->
  filter_from f l k = l.
Proof.
  revert k. induction l as [| x l IH]; intros k Hall; [reflexivity |].
  cbn [filter_from].
  assert (Hx : f x k = true).
  { replace k with (k + Z.of_nat 0)%Z by lia. apply Hall. reflexivity. }
  rewrite Hx. f_equal. apply IH. intros j y Hy.
  replace (k + 1 + Z.of_nat j)%Z with (k + Z.of_nat (S j))%Z by lia.
  apply Hall. exact Hy.
Qed.

Lemma filter_from_Forall (P : A -> Prop) (f : A -> Z -> bool) (l : list A) (k : Z) :
  Forall P l -> Forall P (filter_from f l k).
Proof.
  revert k. induction l as [| x l IH]; intros k Hall; cbn [filter_from].
  - constructor.
  - inversion Hall as [| ? ? Hx Hl]; subst.
    destruct (f x k); [constructor; [exact Hx |] |]; apply IH; exact Hl.
Qed.

(** The indexed filter keeps a sorted array sorted. *)
Lemma filter_from_StronglySorted (R : A -> A -> Prop) (f : A -> Z -> bool)
    (l : list A) (k : Z) :
  StronglySorted R l -> StronglySorted R (filter_from f l k).
Proof.
  revert k. induction l as [| x l IH]; intros k Hsorted; cbn [filter_from].
  - constructor.
  - inversion Hsorted as [| ? ? Hl Hx]; subst.
    destruct (f x k).
    + constructor; [apply IH; exact Hl | apply filter_from_Forall; exact Hx].
    + apply IH. exact Hl.
Qed.

Lemma StronglySorted_weaken (R R' : A -> A -> Prop) (l : list A) :
  (forall x y : A, R x y -> R' x y) ->
  StronglySorted R l -> StronglySorted R' l.
Proof.
  intros Himpl Hsorted. induction Hsorted as [| x l Hl IH Hx].
  - constructor.
  - constructor; [exact IH |].
    apply (Forall_impl _ (Himpl x) Hx).
Qed.

End IndexedSearchMore.

Lemma sameEvent_refl (e : SunEvent.t) : sameEvent e e = true.
Proof.
  unfold sameEvent. apply andb_true_iff. split.
  - apply EventType_eqb_eq. reflexivity.
  - apply Z.ltb_lt. rewrite Z.sub_diag. reflexivity.
Qed.

Lemma sameEvent_near10 (event e : SunEvent.t) :
  sameEvent event e = true <-> near10 e event.
Proof.
  unfold sameEvent, near10. rewrite andb_true_iff, EventType_eqb_eq, Z.ltb_lt.
  tauto.
Qed.

(** Two retained events, in the order they are retained, are not near each
    other. *)
Lemma uniqueEvents_apart (raw : list SunEvent.t) (a b : nat) (e1 e2 : SunEvent.t) :
  (a < b)%nat ->
  nth_error (uniqueEvents raw) a = Some e1 ->
  nth_error (uniqueEvents raw) b = Some e2 ->
  ~ near10 e1 e2.
Proof.
  intros Hab Ha Hb.
  destruct (filter_from_ordered _ _ _ Hab Ha Hb)
    as (j1 & j2 & Hlt & H1 & H2 & _ & Hkept2).
  cbn [Z.add] in Hkept2.
  apply (@uniqueEvents_first raw j2 e2 Hkept2 j1 e1 Hlt H1).
Qed.

(** X7: de-duplicating an already de-duplicated event list changes
    nothing. *)
Theorem X7_unique_events_idempotent (raw : list SunEvent.t) :
  uniqueEvents (uniqueEvents raw) = uniqueEvents raw.
Proof.
  set (kept := uniqueEvents raw).
  unfold uniqueEvents at 1. unfold filter_index.
  apply filter_from_all. intros a e Ha. cbn [Z.add].
  apply Z.eqb_eq. unfold findIndex. symmetry.
  apply (findIndex_from_first (sameEvent e) kept 0 Ha (sameEvent_refl e)).
  intros a' y Hlt Hy.
  destruct (sameEvent e y) eqn:Hsame; [| reflexivity].
  exfalso. apply sameEvent_near10 in Hsame.
  apply (uniqueEvents_apart raw Hlt Hy Ha Hsame).
Qed.

(** X8: de-duplication drops an event only when an earlier raw event of the
    same type lies less than ten minutes before or after it; in particular
    the first raw event is always retained. *)
Theorem X8_discarded_events_have_a_near_predecessor (raw : list SunEvent.t) :
  (forall (j : nat) (e : SunEvent.t),
     nth_error raw j = Some e ->
     In e (uniqueEvents raw)
     \/ exists (j' : nat) (y : SunEvent.t),
          (j' < j)%nat /\ nth_error raw j' = Some y /\ near10 y e)
  /\ (forall e : SunEvent.t, nth_error raw 0 = Some e ->
        nth_error (uniqueEvents raw) 0 = Some e).
Proof.
  split.
  - intros j e Hj.
    destruct (@findIndex_from_hit _ (sameEvent e) raw 0 j e Hj (sameEvent_refl e))
      as (j' & y & Hle & Hy & Hsame & Hfind).
    destruct (Nat.eq_dec j' j) as [Heq | Hneq].
    + left. subst j'. unfold uniqueEvents, filter_index.
      apply (@filter_from_keep _ _ raw 0 j e Hj). cbn [Z.add].
      apply Z.eqb_eq. unfold findIndex. lia.
    + right. exists j', y. split; [lia |]. split; [exact Hy |].
      apply sameEvent_near10. exact Hsame.
  - intros e He. destruct raw as [| x raw]; [discriminate |].
    cbn in He. injection He as He. subst x.
    unfold uniqueEvents, filter_index, findIndex.
    cbn [filter_from findIndex_from]. rewrite sameEvent_refl.
    reflexivity.
Qed.

(** ** Events in time order *)

Lemma loop_indices_sorted (n : Z) :
  StronglySorted (fun i j : Z => (0 <= i < j)%Z /\ (j <= n)%Z) (loop_indices n).
Proof.
  unfold loop_indices.
  assert (Hseq : forall (len start : nat),
            (Z.of_nat len <= Z.max 0 (n + 1) - Z.of_nat start)%Z ->
            StronglySorted (fun i j : Z => (0 <= i < j)%Z /\ (j <= n)%Z)
              (map Z.of_nat (seq start len))).
  { induction len as [| len IH]; intros start Hbound; cbn [seq map].
    - constructor.
    - constructor; [apply IH; lia |].
      apply Forall_forall. intros j Hj. apply in_map_iff in Hj.
      destruct Hj as [k [Hk Hin]]. apply in_seq in Hin. lia. }
  apply Hseq. lia.
Qed.

Section Chronology.

Context {imports : Imports}.
Variable flightDetails : FlightDetails.t.
Variable departureCoords : Coords.t.
Variables totalDistance flightBearing : Q.

Let emitted := eventsAt flightDetails departureCoords totalDistance flightBearing.

Lemma eventsAt_time (i : Z) (e : SunEvent.t) :
  In e (emitted i) -> SunEvent.time e = currentTimeAt flightDetails i.
Proof.
  unfold emitted, eventsAt. cbv zeta.
  destruct (_ && _); [| intros []].
  intros [He | []]. subst e. reflexivity.
Qed.

Lemma eventsAt_at_most_one (i : Z) :
  emitted i = [] \/ exists e : SunEvent.t, emitted i = [e].
Proof.
  unfold emitted, eventsAt. cbv zeta.
  destruct (_ && _); [right; eexists; reflexivity | left; reflexivity].
Qed.

Lemma raw_events_sorted (R : Z -> Z -> Prop) (l : list Z) :
  (forall i j : Z,
     (i < j <= numIntervalsOf flightDetails)%Z ->
     R (currentTimeAt flightDetails i) (currentTimeAt flightDetails j)) ->
  StronglySorted
    (fun i j : Z => (0 <= i < j)%Z /\ (j <= numIntervalsOf flightDetails)%Z) l ->
  StronglySorted (fun a b : SunEvent.t => R (SunEvent.time a) (SunEvent.time b))
    (flat_map emitted l).
Proof.
  intros Htimes Hsorted. induction Hsorted as [| i l Hl IH Hi]; cbn [flat_map].
  - constructor.
  - destruct (eventsAt_at_most_one i) as [Hnone | [e He]].
    + rewrite Hnone. exact IH.
    + rewrite He. cbn [app]. constructor; [exact IH |].
      apply Forall_forall. intros e' He'.
      apply in_flat_map in He'. destruct He' as [j [Hj He']].
      rewrite Forall_forall in Hi. destruct (Hi j Hj) as [Hij Hjn].
      rewrite (eventsAt_time i e) by (rewrite He; left; reflexivity).
      rewrite (eventsAt_time j e' He').
      apply Htimes. lia.
Qed.

End Chronology.

Section ChronologyResult.

Context {imports : Imports}.

Lemma events_sorted_by (R : Z -> Z -> Prop) (flightDetails : FlightDetails.t) :
  (forall i j : Z,
     (i < j <= numIntervalsOf flightDetails)%Z ->
     R (currentTimeAt flightDetails i) (currentTimeAt flightDetails j)) ->
  StronglySorted (fun a b : SunEvent.t => R (SunEvent.time a) (SunEvent.time b))
    (FlightRecommendation.events (calculateSunPositionForFlight flightDetails)).
Proof.
  intros Htimes.
  destruct (findAirport (FlightDetails.departure flightDetails)) as [dep |] eqn:Hdep;
    [destruct (findAirport (FlightDetails.arrival flightDetails)) as [arr |] eqn:Harr |].
  - assert (Hres : resolves flightDetails dep arr) by (split; assumption).
    rewrite (result_events Hres).
    unfold uniqueEvents, filter_index.
    apply filter_from_StronglySorted.
    apply raw_events_sorted; [exact Htimes | apply loop_indices_sorted].
  - unfold calculateSunPositionForFlight, tryBlock. rewrite Hdep, Harr. constructor.
  - unfold calculateSunPositionForFlight, tryBlock. rewrite Hdep. constructor.
Qed.

(** X9: the events of every result are in order of time, none later than
    the next; when the duration is a whole number of milliseconds (of
    minutes, in particular) the order is strict. *)
Theorem X9_events_in_time_order (flightDetails : FlightDetails.t) :
  let events :=
    FlightRecommendation.events (calculateSunPositionForFlight flightDetails) in
  StronglySorted notLater events
  /\ (forall ms : Z,
        FlightDetails.durationMinutes flightDetails * 60 * 1000 == inject_Z ms ->
        StronglySorted earlier events).
Proof.
  cbv zeta. split.
  - apply (events_sorted_by Z.le). intros i j Hij.
    apply currentTimeAt_monotone. exact Hij.
  - intros ms Hms. apply (events_sorted_by Z.lt). intros i j Hij.
    apply (@currentTimeAt_increasing_whole flightDetails ms i j Hms Hij).
Qed.

End ChronologyResult.

(** * Properties of the form's duration parser *)

(** ** Characters *)

Ltac each_char c := destruct c as [[] [] [] [] [] [] [] []].

Lemma digit_not_space (c : ascii) : isDigit c = true -> isWhiteSpace c = false.
Proof. each_char c; cbn; congruence. Qed.

Lemma digit_not_upper (c : ascii) : isDigit c = true -> isUpper c = false.
Proof. each_char c; cbn; congruence. Qed.

(** ** Strings *)

Lemma append_assoc (a b c : string) : ((a ++ b) ++ c = a ++ (b ++ c))%string.
Proof. induction a as [| x a IH]; cbn; [reflexivity | rewrite IH; reflexivity]. Qed.

Lemma mapString_app (f : ascii -> ascii) (a b : string) :
  mapString f (a ++ b) = (mapString f a ++ mapString f b)%string.
Proof. induction a as [| x a IH]; cbn; [reflexivity | rewrite IH; reflexivity]. Qed.

Lemma toLowerCase_digits (s : string) :
  allString isDigit s = true -> toLowerCase s = s.
Proof.
  unfold toLowerCase. induction s as [| c s IH]; [reflexivity |].
  cbn [allString mapString]. intros Hall. apply andb_true_iff in Hall.
  destruct Hall as [Hc Hs]. rewrite (IH Hs). unfold toLowerChar.
  rewrite (digit_not_upper c Hc). reflexivity.
Qed.

Lemma trimStart_digit (c : ascii) (s : string) :
  isDigit c = true -> trimStart (String c s) = String c s.
Proof. intros Hc. cbn [trimStart]. rewrite (digit_not_space c Hc). reflexivity. Qed.

Lemma trimEnd_app (a b : string) :
  b <> EmptyString -> trimEnd b = b -> trimEnd (a ++ b) = (a ++ b)%string.
Proof.
  intros Hb Hfixed. induction a as [| x a IH]; [exact Hfixed |].
  cbn [append trimEnd]. rewrite IH.
  destruct (a ++ b)%string eqn:Hab; [| reflexivity].
  destruct a; [cbn in Hab; contradiction | discriminate].
Qed.

Lemma trimEnd_digits (s : string) : allString isDigit s = true -> trimEnd s = s.
Proof.
  induction s as [| c s IH]; [reflexivity |].
  cbn [allString trimEnd]. intros Hall. apply andb_true_iff in Hall.
  destruct Hall as [Hc Hs]. rewrite (IH Hs).
  destruct s; [rewrite (digit_not_space c Hc) |]; reflexivity.
Qed.

Lemma digitRun_app (digits rest : string) :
  allString isDigit digits = true ->
  match rest with EmptyString => true | String c _ => negb (isDigit c) end = true ->
  digitRun (digits ++ rest) = (digits, rest).
Proof.
  intros Hdigits Hrest. induction digits as [| c digits IH].
  - cbn [append]. destruct rest as [| c rest]; [reflexivity |].
    cbn [digitRun]. apply negb_true_iff in Hrest. rewrite Hrest. reflexivity.
  - cbn [allString] in Hdigits. apply andb_true_iff in Hdigits.
    destruct Hdigits as [Hc Hs].
    cbn [append digitRun]. rewrite Hc, (IH Hs). reflexivity.
Qed.

(** ** The text of a number *)

Lemma string_of_uint_digits (d : Decimal.uint) :
  allString isDigit (DecimalString.NilEmpty.string_of_uint d) = true.
Proof. induction d; cbn; assumption || reflexivity. Qed.

Lemma decimalValue_string_of_uint (d : Decimal.uint) (acc : N) :
  decimalValue acc (DecimalString.NilEmpty.string_of_uint d)
  = (DecimalPos.Unsigned.of_lu (Decimal.rev d)
     + acc * 10 ^ DecimalPos.Unsigned.usize d)%N.
Proof.
  revert acc.
  induction d as [| d IH | d IH | d IH | d IH | d IH | d IH | d IH | d IH | d IH | d IH];
    intros acc;
    [cbn; rewrite N.mul_1_r; reflexivity | ..];
    cbn [DecimalString.NilEmpty.string_of_uint decimalValue];
    unfold Decimal.rev; cbn [Decimal.revapp];
    rewrite DecimalPos.Unsigned.of_lu_revapp;
    cbn [DecimalPos.Unsigned.usize]; rewrite N.pow_succ_r';
    rewrite IH;
    set (low := DecimalPos.Unsigned.of_lu (Decimal.rev d));
    set (power := (10 ^ DecimalPos.Unsigned.usize d)%N);
    match goal with
    | |- context [(charCode ?c - 48)%N] =>
        let v := eval vm_compute in (charCode c - 48)%N in
        change (charCode c - 48)%N with v
    end;
    match goal with
    | |- context [DecimalPos.Unsigned.of_lu ?u] =>
        let v := eval vm_compute in (DecimalPos.Unsigned.of_lu u) in
        change (DecimalPos.Unsigned.of_lu u) with v
    end;
    ring.
Qed.

Lemma string_of_N_digits (n : N) : allString isDigit (string_of_N n) = true.
Proof.
  unfold string_of_N, DecimalString.NilZero.string_of_uint.
  destruct (N.to_uint n); try reflexivity; apply string_of_uint_digits.
Qed.

Lemma string_of_N_head (n : N) :
  exists (c : ascii) (rest : string),
    string_of_N n = String c rest /\ isDigit c = true.
Proof.
  pose proof (string_of_N_digits n) as Hdigits.
  unfold string_of_N, DecimalString.NilZero.string_of_uint in *.
  destruct (N.to_uint n); cbn in *; eexists; eexists; split; reflexivity.
Qed.

(** Reading the text of a number gives the number back. *)
Lemma parseInt_string_of_N (n : N) : parseInt (string_of_N n) = n.
Proof.
  unfold parseInt, string_of_N.
  rewrite <- (DecimalN.Unsigned.of_to n) at 2.
  unfold N.of_uint. rewrite DecimalPos.Unsigned.of_uint_alt.
  unfold DecimalString.NilZero.string_of_uint.
  destruct (N.to_uint n) as [| d | d | d | d | d | d | d | d | d | d] eqn:Hd;
    [reflexivity | ..];
    rewrite decimalValue_string_of_uint; rewrite N.mul_0_l, N.add_0_r; reflexivity.
Qed.

(** ** The four formats *)

Definition digitText (s : string) : Prop :=
  allString isDigit s = true /\ s <> EmptyString.

Lemma digitText_string_of_N (n : N) : digitText (string_of_N n).
Proof.
  split; [apply string_of_N_digits |].
  destruct (string_of_N_head n) as (c & rest & Hs & _). rewrite Hs. discriminate.
Qed.

Section Formats.

Variables hours minutes : string.
Hypothesis Hhours : digitText hours.
Hypothesis Hminutes : digitText minutes.

Lemma digitText_isEmpty (digits rest : string) :
  digitText digits -> isEmpty (digits ++ rest) = false.
Proof. intros [_ Hne]. destruct digits; [contradiction | reflexivity]. Qed.

Lemma digitText_trimStart (digits rest : string) :
  digitText digits -> trimStart (digits ++ rest) = (digits ++ rest)%string.
Proof.
  intros [Hall Hne]. destruct digits as [| c digits]; [contradiction |].
  cbn [allString] in Hall. apply andb_true_iff in Hall. destruct Hall as [Hc _].
  cbn [append]. apply trimStart_digit. exact Hc.
Qed.

Lemma digitText_trimEnd (digits : string) : digitText digits -> trimEnd digits = digits.
Proof. intros [Hall _]. apply trimEnd_digits. exact Hall. Qed.

Lemma digitText_digitRun (digits : string) :
  digitText digits -> digitRun digits = (digits, EmptyString).
Proof.
  intros [Hall _]. induction digits as [| c digits IH]; [reflexivity |].
  cbn [allString] in Hall. apply andb_true_iff in Hall. destruct Hall as [Hc Hs].
  cbn [digitRun]. rewrite Hc, (IH Hs). reflexivity.
Qed.

(** What [trim] and [toLowerCase] leave alone: digits first, then a tail
    already in lower case that does not end in white space. *)
Lemma normal_text (digits tail : string) :
  digitText digits ->
  tail <> EmptyString -> trimEnd tail = tail -> toLowerCase tail = tail ->
  toLowerCase (trim (digits ++ tail)) = (digits ++ tail)%string.
Proof.
  intros Hdigits Hne Hend Hlower. unfold trim.
  rewrite (digitText_trimStart tail Hdigits), (trimEnd_app digits Hne Hend).
  unfold toLowerCase in *. rewrite mapString_app, Hlower.
  destruct Hdigits as [Hall _]. apply toLowerCase_digits in Hall.
  unfold toLowerCase in Hall. rewrite Hall. reflexivity.
Qed.

Lemma colon_tail_trimEnd : trimEnd (String ":" minutes) = String ":" minutes.
Proof.
  cbn [trimEnd]. rewrite (digitText_trimEnd Hminutes).
  destruct Hminutes as [_ Hne]. destruct minutes; [contradiction | reflexivity].
Qed.

Lemma colon_tail_lower : toLowerCase (String ":" minutes) = String ":" minutes.
Proof.
  unfold toLowerCase. cbn [mapString].
  destruct Hminutes as [Hall _]. apply toLowerCase_digits in Hall.
  unfold toLowerCase in Hall. rewrite Hall. reflexivity.
Qed.

Lemma minutes_tail_trimEnd (unit : string) :
  unit <> EmptyString -> trimEnd unit = unit ->
  trimEnd (minutes ++ unit) = (minutes ++ unit)%string.
Proof. intros Hne Hend. apply trimEnd_app; assumption. Qed.

Lemma parse_number_minutes_word :
  parseDurationToMinutes (minutes ++ " minutes") = Some (parseInt minutes).
Proof.
  unfold parseDurationToMinutes.
  rewrite (digitText_isEmpty _ Hminutes).
  rewrite (normal_text Hminutes); [| discriminate | reflexivity | reflexivity].
  unfold matchNumberUnit.
  rewrite digitRun_app; [| apply Hminutes | reflexivity].
  destruct Hminutes as [_ Hne]. destruct minutes; [contradiction | reflexivity].
Qed.

Lemma parse_number_m :
  parseDurationToMinutes (minutes ++ "m") = Some (parseInt minutes).
Proof.
  unfold parseDurationToMinutes.
  rewrite (digitText_isEmpty _ Hminutes).
  rewrite (normal_text Hminutes); [| discriminate | reflexivity | reflexivity].
  unfold matchNumberUnit.
  rewrite digitRun_app; [| apply Hminutes | reflexivity].
  destruct Hminutes as [_ Hne]. destruct minutes; [contradiction | reflexivity].
Qed.

Lemma parse_number_h :
  parseDurationToMinutes (hours ++ "h") = Some (parseInt hours * 60)%N.
Proof.
  unfold parseDurationToMinutes.
  rewrite (digitText_isEmpty _ Hhours).
  rewrite (normal_text Hhours); [| discriminate | reflexivity | reflexivity].
  unfold matchNumberUnit.
  rewrite digitRun_app; [| apply Hhours | reflexivity].
  destruct Hhours as [_ Hne]. destruct hours; [contradiction | reflexivity].
Qed.

Lemma parse_hours_minutes :
  parseDurationToMinutes (hours ++ "h " ++ minutes ++ "m")
  = Some (parseInt hours * 60 + parseInt minutes)%N.
Proof.
  unfold parseDurationToMinutes.
  rewrite (digitText_isEmpty _ Hhours).
  assert (Htail : trimEnd (minutes ++ "m") = (minutes ++ "m")%string)
    by (apply minutes_tail_trimEnd; [discriminate | reflexivity]).
  assert (Hne : (minutes ++ "m")%string <> EmptyString).
  { destruct minutes; discriminate. }
  rewrite (normal_text Hhours); cycle 1.
  - discriminate.
  - cbn [append trimEnd]. rewrite Htail.
    destruct (minutes ++ "m")%string; [contradiction | reflexivity].
  - unfold toLowerCase. cbn [append mapString]. rewrite mapString_app.
    destruct Hminutes as [Hall _]. apply toLowerCase_digits in Hall.
    unfold toLowerCase in Hall. rewrite Hall. reflexivity.
  - unfold matchNumberUnit, matchHoursMinutes.
    rewrite digitRun_app; [| apply Hhours | reflexivity].
    assert (Hh : isEmpty hours = false).
    { destruct Hhours as [_ Hn]. destruct hours; [contradiction | reflexivity]. }
    rewrite Hh. cbn [append endsWithUnit trimStart isWhiteSpace].
    assert (Hrun : matchMinutesTail (trimStart (" " ++ minutes ++ "m"))
                   = Some minutes).
    { cbn [append trimStart]. change (isWhiteSpace " ") with true. cbv iota.
      rewrite (digitText_trimStart _ Hminutes).
      unfold matchMinutesTail, matchNumberUnit.
      rewrite digitRun_app; [| apply Hminutes | reflexivity].
      destruct Hminutes as [_ Hn]. destruct minutes; [contradiction | reflexivity]. }
    cbn. cbn in Hrun. rewrite Hrun. reflexivity.
Qed.

Lemma parse_colon :
  parseDurationToMinutes (hours ++ ":" ++ minutes)
  = Some (parseInt hours * 60 + parseInt minutes)%N.
Proof.
  unfold parseDurationToMinutes.
  rewrite (digitText_isEmpty _ Hhours).
  assert (Hne : minutes <> EmptyString) by apply Hminutes.
  rewrite (normal_text Hhours);
    [| discriminate | apply colon_tail_trimEnd | apply colon_tail_lower].
  unfold matchNumberUnit, matchHoursMinutes, matchColon.
  rewrite digitRun_app; [| apply Hhours | reflexivity].
  assert (Hh : isEmpty hours = false).
  { destruct Hhours as [_ Hn]. destruct hours; [contradiction | reflexivity]. }
  rewrite Hh. cbn [append]. rewrite (digitText_digitRun Hminutes).
  assert (Hm : isEmpty minutes = false).
  { destruct minutes; [contradiction | reflexivity]. }
  rewrite Hm. reflexivity.
Qed.

(** A number without a unit is not a duration. *)
Lemma parse_bare_number : parseDurationToMinutes minutes = None.
Proof.
  unfold parseDurationToMinutes.
  assert (Hm : isEmpty minutes = false).
  { destruct Hminutes as [_ Hn]. destruct minutes; [contradiction | reflexivity]. }
  rewrite Hm.
  assert (Hnormal : toLowerCase (trim minutes) = minutes).
  { unfold trim.
    assert (Hstart : trimStart minutes = minutes).
    { destruct Hminutes as [Hall Hn]. destruct minutes as [| c s]; [contradiction |].
      cbn [allString] in Hall. apply andb_true_iff in Hall.
      apply trimStart_digit. apply Hall. }
    rewrite Hstart, (digitText_trimEnd Hminutes).
    apply toLowerCase_digits. apply Hminutes. }
  rewrite Hnormal.
  unfold matchNumberUnit, matchHoursMinutes, matchColon.
  rewrite (digitText_digitRun Hminutes), Hm. reflexivity.
Qed.

End Formats.

(** X10: each documented format is read as the minutes it stands for,
    whatever the numbers: "150 minutes" and "150m" as 150, "2h" as 120,
    "2h 30m" and "2:30" as 150, with no check that the minutes stay below
    60; a number without a unit is rejected.  The numbers are taken small
    enough for a double to hold the result exactly. *)
Theorem X10_duration_formats (hours minutes : N) :
  (hours * 60 + minutes <= MAX_SAFE_INTEGER)%N ->
  parseDurationToMinutes (string_of_N minutes ++ " minutes") = Some minutes
  /\ parseDurationToMinutes (string_of_N minutes ++ "m") = Some minutes
  /\ parseDurationToMinutes (string_of_N hours ++ "h") = Some (hours * 60)%N
  /\ parseDurationToMinutes (string_of_N hours ++ "h " ++ string_of_N minutes ++ "m")
     = Some (hours * 60 + minutes)%N
  /\ parseDurationToMinutes (string_of_N hours ++ ":" ++ string_of_N minutes)
     = Some (hours * 60 + minutes)%N
  /\ parseDurationToMinutes (string_of_N minutes) = None.
Proof.
  intros _.
  pose proof (digitText_string_of_N hours) as Hh.
  pose proof (digitText_string_of_N minutes) as Hm.
  rewrite (parse_number_minutes_word Hm), (parse_number_m Hm), (parse_number_h Hh),
    (parse_hours_minutes Hh Hm), (parse_colon Hh Hm), (parse_bare_number Hm),
    !parseInt_string_of_N.
  repeat split.
Qed.

Lemma X10_witness :
  parseDurationToMinutes (string_of_N 90 ++ " minutes") = Some 90%N
  /\ parseDurationToMinutes (string_of_N 90 ++ "m") = Some 90%N
  /\ parseDurationToMinutes (string_of_N 1 ++ "h") = Some (1 * 60)%N
  /\ parseDurationToMinutes (string_of_N 1 ++ "h " ++ string_of_N 90 ++ "m")
     = Some (1 * 60 + 90)%N
  /\ parseDurationToMinutes (string_of_N 1 ++ ":" ++ string_of_N 90)
     = Some (1 * 60 + 90)%N
  /\ parseDurationToMinutes (string_of_N 90) = None.
Proof.
  apply (X10_duration_formats 1 90). vm_compute. discriminate.
Defined.

(** X11: the duration the results panel prints is read back by the form's
    parser as the same number of minutes, for every whole number of
    minutes from 0 up to the largest safe integer. *)
Theorem X11_format_then_parse_duration (minutes : Z) :
  (0 <= minutes <= Z.of_N MAX_SAFE_INTEGER)%Z ->
  parseDurationToMinutes (formatDuration minutes) = Some (Z.to_N minutes).
Proof.
  intros Hrange. unfold formatDuration. cbv zeta.
  assert (Hh : (0 <= minutes / 60)%Z) by (apply Z.div_pos; lia).
  assert (Hm : (0 <= Z.rem minutes 60)%Z) by (apply Z.rem_nonneg; lia).
  unfold string_of_Z.
  destruct (Z.ltb_spec (minutes / 60) 0) as [Habs | _]; [lia |].
  destruct (Z.ltb_spec (Z.rem minutes 60) 0) as [Habs | _]; [lia |].
  rewrite (parse_hours_minutes (digitText_string_of_N _) (digitText_string_of_N _)).
  rewrite !parseInt_string_of_N. f_equal.
  rewrite Z.rem_mod_nonneg by lia.
  pose proof (Z.div_mod minutes 60) as Hdiv.
  pose proof (Z.mod_pos_bound minutes 60) as Hmod.
  lia.
Qed.

Lemma X11_witness :
  parseDurationToMinutes (formatDuration 150%Z) = Some (Z.to_N 150%Z).
Proof.
  apply (@X11_format_then_parse_duration 150%Z). vm_compute. split; discriminate.
Defined.

(** * Properties of the API route *)

Lemma toList_nil (A : Type) (o : option A) : toList o = [] -> o = None.
Proof. destruct o; [discriminate | reflexivity]. Qed.

Lemma validateIataCode_accepts (code : JSONValue) (fieldName : string) :
  validateIataCode code fieldName = None ->
  exists s : string, code = JString s /\ iataShaped (codeOf s).
Proof.
  unfold validateIataCode, iataShaped, codeOf.
  destruct code as [| | b | q | negative | s |]; try discriminate.
  destruct (isEmpty s); [discriminate |].
  destruct (Nat.eqb_spec (String.length (toUpperCase (trim s))) 3) as [Hlen | Hlen];
    cbn [negb]; [| discriminate].
  destruct (allString isUpper (toUpperCase (trim s))) eqn:Hupper;
    cbn [negb]; [| discriminate].
  intros _. exists s. repeat split; assumption.
Qed.

Lemma validateDuration_accepts (duration : JSONValue) :
  validateDuration duration = None <->
  exists minutes : Q, duration = JNumber minutes /\ 30 <= minutes /\ minutes <= 1200.
Proof.
  unfold validateDuration. split.
  - destruct duration as [| | b | q | negative | s |]; try discriminate.
    + destruct (Qltb 0 q) eqn:Hpos; cbn [negb]; [| discriminate].
      destruct (Qltb (20 * 60) q) eqn:Hmax; [discriminate |].
      destruct (Qltb q 30) eqn:Hmin; [discriminate |].
      intros _. exists q. apply Qltb_false in Hmax, Hmin.
      assert (Heq : 20 * 60 == 1200) by reflexivity.
      repeat split; [assumption | lra].
    + destruct negative; discriminate.
  - intros (minutes & Hd & Hmin & Hmax). subst duration.
    assert (Heq : 20 * 60 == 1200) by reflexivity.
    assert (Hpos : Qltb 0 minutes = true) by (apply Qltb_true; lra).
    assert (Hle : Qltb (20 * 60) minutes = false) by (apply Qltb_false; lra).
    assert (Hge : Qltb minutes 30 = false) by (apply Qltb_false; lra).
    rewrite Hpos, Hle, Hge. reflexivity.
Qed.

Section RouteProperties.

Context {clock : Clock}.
Variable Data : Type.
Variable calculate : FlightDetails.t -> Outcome Data.

Lemma validateDepartureTime_accepts (timeString : JSONValue) (date : Z) :
  validateDepartureTime timeString = inr date ->
  exists s : string,
    timeString = JString s /\ Date_parse s = Some date
    /\ (Date_now 0 - dayMs <= date <= Date_now 1 + 365 * dayMs)%Z.
Proof.
  unfold validateDepartureTime.
  destruct timeString as [| | b | q | negative | s |]; try discriminate.
  destruct (isEmpty s); [discriminate |].
  destruct (Date_parse s) as [parsed |] eqn:Hparse; [| discriminate].
  cbv zeta.
  destruct (Z.ltb_spec parsed (Date_now 0 - dayMs)) as [Hpast | Hpast]; [discriminate |].
  destruct (Z.ltb_spec (Date_now 1 + 365 * dayMs) parsed) as [Hfuture | Hfuture];
    [discriminate |].
  intros Hdate. injection Hdate as Hdate. subst parsed.
  exists s. repeat split; [exact Hparse | lia | lia].
Qed.

(** X12: the route answers 200 only to a body whose two codes are strings
    that, trimmed and put in capitals, are three capital letters each and
    differ, whose departure time is a text the date parser understands, not
    more than a day before the first clock reading nor more than 365 days
    after the second, and whose duration is a number from 30 to 1200; the
    data of the answer is what the calculator returned for exactly these
    values. *)
Theorem X12_route_calls_calculator_on_valid_input_only
    (body : RequestBody) (data : Data) :
  POST calculate body = Status200 data ->
  exists (d a t : string) (date : Z) (minutes : Q),
    body = JsonFields (JString d) (JString a) (JString t) (JNumber minutes)
    /\ iataShaped (codeOf d) /\ iataShaped (codeOf a)
    /\ codeOf d <> codeOf a
    /\ Date_parse t = Some date
    /\ (Date_now 0 - dayMs <= date <= Date_now 1 + 365 * dayMs)%Z
    /\ 30 <= minutes /\ minutes <= 1200
    /\ calculate
         {| FlightDetails.departure := codeOf d;
            FlightDetails.arrival := codeOf a;
            FlightDetails.departureTime := date;
            FlightDetails.durationMinutes := minutes |}
       = Returned data.
Proof.
  destruct body as [| | departure arrival departureTime durationMinutes];
    cbn [POST]; try discriminate.
  unfold handleBody, validateRequest.
  destruct (sameAirports departure arrival) as [same | message] eqn:Hsame;
    [| destruct (includes message _); discriminate].
  destruct (validateIataCode departure "Departure airport") as [e |] eqn:Hdep;
    [cbn; discriminate |].
  destruct (validateIataCode arrival "Arrival airport") as [e |] eqn:Harr;
    [cbn; discriminate |].
  destruct same; [cbn; discriminate |].
  destruct (validateDepartureTime departureTime) as [e | date] eqn:Htime;
    [cbn; discriminate |].
  destruct (validateDuration durationMinutes) as [e |] eqn:Hduration;
    [cbn; discriminate |].
  cbn [toList app List.length Nat.ltb Nat.leb].
  apply validateIataCode_accepts in Hdep. destruct Hdep as (d & Hd & Hdshape).
  apply validateIataCode_accepts in Harr. destruct Harr as (a & Ha & Hashape).
  apply validateDepartureTime_accepts in Htime. destruct Htime as (t & Ht & Hparse & Hwindow).
  apply validateDuration_accepts in Hduration.
  destruct Hduration as (minutes & Hm & Hmin & Hmax).
  subst departure arrival departureTime durationMinutes.
  destruct (calculate _) as [recommendation | message] eqn:Hcalc;
    [| destruct (includes message _); discriminate].
  intros Hdata. injection Hdata as Hdata. subst recommendation.
  exists d, a, t, date, minutes.
  split; [reflexivity |]. split; [exact Hdshape |]. split; [exact Hashape |].
  split; [| repeat split; try assumption; lia].
  unfold sameAirports in Hsame. destruct (truthy (JString d) && truthy (JString a)) eqn:Htruthy.
  - injection Hsame as Hsame. apply String.eqb_neq in Hsame. exact Hsame.
  - exfalso. cbn [truthy] in Htruthy.
    destruct Hdshape as [Hlen _]. destruct Hashape as [Hlen' _].
    unfold codeOf in Hlen, Hlen'.
    destruct d; [discriminate Hlen |]. destruct a; [discriminate Hlen' |].
    discriminate Htruthy.
Qed.

(** X13: a body whose departure and arrival are both truthy but not both
    strings (a number, [true], an array, an object) is answered with 500,
    not with 400: the comparison of the two codes throws before the errors
    collected so far are reported.  So is a body that is JSON [null]. *)
Theorem X13_route_500_on_truthy_non_string_code
    (departure arrival departureTime durationMinutes : JSONValue) :
  truthy departure = true ->
  truthy arrival = true ->
  isString departure = false \/ isString arrival = false ->
  POST calculate (JsonFields departure arrival departureTime durationMinutes)
  = Status500 "An unexpected error occurred while processing your request."
  /\ POST calculate JsonNull
     = Status500 "An unexpected error occurred while processing your request.".
Proof.
  intros Hd Ha Hnot. split; [| reflexivity].
  cbn [POST]. unfold handleBody, validateRequest, sameAirports.
  rewrite Hd, Ha. cbn [andb].
  destruct departure as [| | b | q | negative | s |];
    try reflexivity;
    destruct arrival as [| | b' | q' | negative' | s' |];
    try reflexivity;
    destruct Hnot as [Habs | Habs]; discriminate Habs.
Qed.

End RouteProperties.

Lemma X12_witness :
  exists (d a t : string) (date : Z) (minutes : Q),
    RouteFixture.goodRequest
    = JsonFields (JString d) (JString a) (JString t) (JNumber minutes)
    /\ iataShaped (codeOf d) /\ iataShaped (codeOf a)
    /\ codeOf d <> codeOf a
    /\ @Date_parse RouteFixture.clock t = Some date
    /\ (@Date_now RouteFixture.clock 0 - dayMs <= date
        <= @Date_now RouteFixture.clock 1 + 365 * dayMs)%Z
    /\ 30 <= minutes /\ minutes <= 1200
    /\ Returned
         (@calculateSunPositionForFlight Fixture.toy
            {| FlightDetails.departure := codeOf d;
               FlightDetails.arrival := codeOf a;
               FlightDetails.departureTime := date;
               FlightDetails.durationMinutes := minutes |})
       = Returned (@calculateSunPositionForFlight Fixture.toy Fixture.dawnFlight).
Proof.
  apply (@X12_route_calls_calculator_on_valid_input_only RouteFixture.clock
           FlightRecommendation.t
           (fun flightDetails =>
              Returned (@calculateSunPositionForFlight Fixture.toy flightDetails))
           RouteFixture.goodRequest).
  reflexivity.
Defined.

Lemma X13_witness :
  @recommendationRoute Fixture.toy RouteFixture.clock
    (JsonFields (JNumber 5) (JString "LHR") JUndefined JUndefined)
  = Status500 "An unexpected error occurred while processing your request."
  /\ @recommendationRoute Fixture.toy RouteFixture.clock JsonNull
     = Status500 "An unexpected error occurred while processing your request.".
Proof.
  unfold recommendationRoute.
  apply (@X13_route_500_on_truthy_non_string_code RouteFixture.clock
           FlightRecommendation.t
           (fun flightDetails =>
              Returned (@calculateSunPositionForFlight Fixture.toy flightDetails))
           (JNumber 5) (JString "LHR") JUndefined JUndefined).
  - reflexivity.
  - reflexivity.
  - left. reflexivity.
Defined.

(** ** The route on top of the calculator *)

Section RouteAndCalculator.

Context {imports : Imports} {clock : Clock}.

(** X14: a request that passes validation but names an airport that is not
    in the table is answered with status 200, never with the route's
    "Airport not found" 400: the calculator has caught its own exception,
    and the data says so through confidence 0, an empty path and the
    description. *)
Theorem X14_unknown_airport_is_answered_200
    (d a t : string) (date : Z) (minutes : Q) :
  validateRequest (JString d) (JString a) (JString t) (JNumber minutes)
  = Returned ([], Some date) ->
  findAirport (codeOf d) = None \/ findAirport (codeOf a) = None ->
  exists data : FlightRecommendation.t,
    recommendationRoute
      (JsonFields (JString d) (JString a) (JString t) (JNumber minutes))
    = Status200 data
    /\ FlightRecommendation.confidence data = 0
    /\ GlobeData.flightPath (FlightRecommendation.globeData data) = []
    /\ FlightRecommendation.description data
       = ("Unable to calculate sun position: Airport not found: "
          ++ match findAirport (codeOf d) with
             | None => codeOf d
             | Some _ => codeOf a
             end)%string.
Proof.
  intros Hvalid Hmissing.
  unfold recommendationRoute. cbn [POST]. unfold handleBody. rewrite Hvalid.
  cbn [List.length Nat.ltb Nat.leb]. fold (codeOf d). fold (codeOf a).
  eexists. split; [reflexivity |].
  unfold calculateSunPositionForFlight, tryBlock.
  cbn [FlightDetails.departure FlightDetails.arrival].
  destruct (findAirport (codeOf d)) as [dep |] eqn:Hdep.
  - destruct Hmissing as [Habs | Harr]; [discriminate |].
    rewrite Harr. cbn. repeat split.
  - cbn. repeat split.
Qed.

End RouteAndCalculator.

Lemma X14_witness :
  exists data : FlightRecommendation.t,
    @recommendationRoute Fixture.toy RouteFixture.clock RouteFixture.unknownAirportRequest
    = Status200 data
    /\ FlightRecommendation.confidence data = 0
    /\ GlobeData.flightPath (FlightRecommendation.globeData data) = []
    /\ FlightRecommendation.description data
       = ("Unable to calculate sun position: Airport not found: "
          ++ match @findAirport Fixture.toy (codeOf "zzz") with
             | None => codeOf "zzz"
             | Some _ => codeOf "lhr"
             end)%string.
Proof.
  apply (@X14_unknown_airport_is_answered_200 Fixture.toy RouteFixture.clock
           "zzz" "lhr" "1970-01-01T05:40:00Z"
           (5 * 3600 * 1000 + 40 * 60 * 1000) 40).
  - reflexivity.
  - left. reflexivity.
Defined.

(** * The form against the route *)

(** ** [trim] *)

Lemma trimStart_cases (s : string) :
  trimStart s = EmptyString
  \/ exists (c : ascii) (rest : string),
       trimStart s = String c rest /\ isWhiteSpace c = false.
Proof.
  induction s as [| c s IH]; [left; reflexivity |].
  cbn [trimStart]. destruct (isWhiteSpace c) eqn:Hc; [exact IH |].
  right. exists c, s. split; [reflexivity | exact Hc].
Qed.

Lemma trimEnd_head (c : ascii) (rest : string) :
  isWhiteSpace c = false ->
  exists kept : string, trimEnd (String c rest) = String c kept.
Proof.
  intros Hc. cbn [trimEnd]. destruct (trimEnd rest) as [| c' kept'].
  - rewrite Hc. exists EmptyString. reflexivity.
  - eexists. reflexivity.
Qed.

Lemma trimEnd_idempotent (s : string) : trimEnd (trimEnd s) = trimEnd s.
Proof.
  induction s as [| c s IH]; [reflexivity |].
  cbn [trimEnd]. destruct (trimEnd s) as [| c' kept] eqn:Hkept.
  - destruct (isWhiteSpace c) eqn:Hc; [reflexivity |].
    cbn [trimEnd]. rewrite Hc. reflexivity.
  - cbn [trimEnd]. cbn [trimEnd] in IH. rewrite IH. reflexivity.
Qed.

Lemma trim_idempotent (s : string) : trim (trim s) = trim s.
Proof.
  unfold trim. destruct (trimStart_cases s) as [Hempty | (c & rest & Hs & Hc)].
  - rewrite Hempty. reflexivity.
  - rewrite Hs. destruct (@trimEnd_head c rest Hc) as [kept Hkept].
    rewrite Hkept at 1. cbn [trimStart]. rewrite Hc.
    rewrite <- Hkept. apply trimEnd_idempotent.
Qed.

Lemma trim_empty : trim EmptyString = EmptyString.
Proof. reflexivity. Qed.

(** The parser trims for itself: trimming first changes nothing. *)
Lemma parseDurationToMinutes_trim (s : string) :
  parseDurationToMinutes (trim s) = parseDurationToMinutes s.
Proof.
  unfold parseDurationToMinutes. rewrite trim_idempotent.
  destruct s as [| c s]; [reflexivity |].
  cbn [isEmpty].
  destruct (trim (String c s)) as [| c' s'] eqn:Htrim; reflexivity.
Qed.

Section FormAndRoute.

Context {clock : Clock}.

(** X15: the form accepts a duration text exactly when the server action
    can parse it and the route then accepts the number of minutes parsed:
    the check in the browser and the checks on the server agree. *)
Theorem X15_form_and_route_agree_on_duration (sourceCity value : string) :
  validateField sourceCity FlightDuration value = None
  <-> exists minutes : N,
        parseDurationToMinutes value = Some minutes
        /\ validateDuration (JNumber (inject_Z (Z.of_N minutes))) = None.
Proof.
  unfold validateField. rewrite parseDurationToMinutes_trim.
  assert (Hbounds : forall minutes : N,
            ((minutes <? 30)%N = false /\ (1200 <? minutes)%N = false)
            <-> validateDuration (JNumber (inject_Z (Z.of_N minutes))) = None).
  { intros minutes. rewrite validateDuration_accepts, N.ltb_ge, N.ltb_ge. split.
    - intros [Hmin Hmax]. exists (inject_Z (Z.of_N minutes)).
      split; [reflexivity |].
      change 30 with (inject_Z 30). change 1200 with (inject_Z 1200).
      rewrite <- !Zle_Qle. lia.
    - intros (q & Hq & Hmin & Hmax). injection Hq as Hq. rewrite <- Hq in Hmin, Hmax.
      change 30 with (inject_Z 30) in Hmin. change 1200 with (inject_Z 1200) in Hmax.
      rewrite <- Zle_Qle in Hmin, Hmax. lia. }
  destruct (isEmpty (trim value)) eqn:Hempty.
  - split; [discriminate |].
    intros (minutes & Hparse & _). exfalso.
    rewrite <- parseDurationToMinutes_trim in Hparse.
    destruct (trim value); [discriminate Hparse | discriminate Hempty].
  - destruct (parseDurationToMinutes value) as [minutes |].
    + specialize (Hbounds minutes).
      destruct (minutes <? 30)%N; [| destruct (1200 <? minutes)%N].
      * split; [discriminate |]. intros (m & Hm & Hvalid). injection Hm as Hm. subst m.
        apply Hbounds in Hvalid. destruct Hvalid; discriminate.
      * split; [discriminate |]. intros (m & Hm & Hvalid). injection Hm as Hm. subst m.
        apply Hbounds in Hvalid. destruct Hvalid; discriminate.
      * split; [| reflexivity]. intros _. exists minutes.
        split; [reflexivity |]. apply Hbounds. split; reflexivity.
    + split; [discriminate |]. intros (m & Hm & _). discriminate.
Qed.

End FormAndRoute.

(** * Properties of the city table *)

(** ** Letters and case *)

Lemma toLowerChar_idempotent (c : ascii) : toLowerChar (toLowerChar c) = toLowerChar c.
Proof. each_char c; reflexivity. Qed.

Lemma toUpperChar_toLowerChar (c : ascii) : toUpperChar (toLowerChar c) = toUpperChar c.
Proof. each_char c; reflexivity. Qed.

Lemma isLetter_toLowerChar (c : ascii) : isLetter (toLowerChar c) = isLetter c.
Proof. each_char c; reflexivity. Qed.

Lemma isUpper_toLowerChar (c : ascii) : isUpper (toLowerChar c) = false.
Proof. each_char c; reflexivity. Qed.

Lemma isUpper_toUpperChar (c : ascii) : isLetter c = true -> isUpper (toUpperChar c) = true.
Proof. each_char c; cbn; congruence. Qed.

Lemma toUpperChar_capital (c : ascii) : isUpper c = true -> toUpperChar c = c.
Proof. each_char c; cbn; congruence. Qed.

Lemma capital_not_space (c : ascii) : isUpper c = true -> isWhiteSpace c = false.
Proof. each_char c; cbn; congruence. Qed.

(** ** Strings, character by character *)

Lemma length_mapString (f : ascii -> ascii) (s : string) :
  String.length (mapString f s) = String.length s.
Proof. induction s as [| c s IH]; cbn; [reflexivity | rewrite IH; reflexivity]. Qed.

Lemma mapString_mapString (f g h : ascii -> ascii) (s : string) :
  (forall c : ascii, f (g c) = h c) ->
  mapString f (mapString g s) = mapString h s.
Proof.
  intros Hfg. induction s as [| c s IH]; cbn; [reflexivity |].
  rewrite Hfg, IH. reflexivity.
Qed.

Lemma allString_mapString (p : ascii -> bool) (f : ascii -> ascii) (s : string) :
  (forall c : ascii, p (f c) = p c) ->
  allString p (mapString f s) = allString p s.
Proof.
  intros Hpf. induction s as [| c s IH]; cbn; [reflexivity |].
  rewrite Hpf, IH. reflexivity.
Qed.

Lemma filterString_mapString (p : ascii -> bool) (f : ascii -> ascii) (s : string) :
  (forall c : ascii, p (f c) = p c) ->
  filterString p (mapString f s) = mapString f (filterString p s).
Proof.
  intros Hpf. induction s as [| c s IH]; cbn; [reflexivity |].
  rewrite Hpf, IH. destruct (p c); reflexivity.
Qed.

Lemma substring_mapString (f : ascii -> ascii) (n m : nat) (s : string) :
  substring n m (mapString f s) = mapString f (substring n m s).
Proof.
  revert n m. induction s as [| c s IH]; intros [| n] [| m]; cbn;
    try reflexivity; rewrite IH; reflexivity.
Qed.

Lemma length_substring_0 (m : nat) (s : string) :
  String.length (substring 0 m s) = Nat.min m (String.length s).
Proof.
  revert m. induction s as [| c s IH]; intros [| m]; cbn; try reflexivity.
  rewrite IH. reflexivity.
Qed.

Lemma allString_substring (p : ascii -> bool) (n m : nat) (s : string) :
  allString p s = true -> allString p (substring n m s) = true.
Proof.
  revert n m. induction s as [| c s IH]; intros [| n] [| m]; cbn;
    try reflexivity; intros Hall; apply andb_true_iff in Hall; destruct Hall as [Hc Hs].
  - rewrite Hc. apply IH. exact Hs.
  - apply IH. exact Hs.
  - apply IH. exact Hs.
Qed.

Lemma allString_filterString (p : ascii -> bool) (s : string) :
  allString p (filterString p s) = true.
Proof.
  induction s as [| c s IH]; cbn; [reflexivity |].
  destruct (p c) eqn:Hc; [cbn; rewrite Hc; exact IH | exact IH].
Qed.

Lemma filterString_all (p : ascii -> bool) (s : string) :
  allString p s = true -> filterString p s = s.
Proof.
  induction s as [| c s IH]; cbn; [reflexivity |].
  intros Hall. apply andb_true_iff in Hall. destruct Hall as [Hc Hs].
  rewrite Hc, (IH Hs). reflexivity.
Qed.

Lemma substring_whole (s : string) : substring 0 (String.length s) s = s.
Proof. induction s as [| c s IH]; cbn; [reflexivity | rewrite IH; reflexivity]. Qed.

Lemma allString_impl (p q : ascii -> bool) (s : string) :
  (forall c : ascii, p c = true -> q c = true) ->
  allString p s = true -> allString q s = true.
Proof.
  intros Hpq. induction s as [| c s IH]; cbn; [reflexivity |].
  intros Hall. apply andb_true_iff in Hall. destruct Hall as [Hc Hs].
  rewrite (Hpq c Hc), (IH Hs). reflexivity.
Qed.

Lemma toLowerCase_idempotent (s : string) : toLowerCase (toLowerCase s) = toLowerCase s.
Proof. apply mapString_mapString, toLowerChar_idempotent. Qed.

Lemma toUpperCase_toLowerCase (s : string) : toUpperCase (toLowerCase s) = toUpperCase s.
Proof. apply mapString_mapString, toUpperChar_toLowerChar. Qed.

Lemma toUpperCase_capitals (s : string) : allString isUpper s = true -> toUpperCase s = s.
Proof.
  induction s as [| c s IH]; cbn; [reflexivity |].
  intros Hall. apply andb_true_iff in Hall. destruct Hall as [Hc Hs].
  unfold toUpperCase in IH. rewrite (toUpperChar_capital c Hc), (IH Hs). reflexivity.
Qed.

Lemma capitals_of_letters (s : string) :
  allString isLetter s = true -> allString isUpper (toUpperCase s) = true.
Proof.
  induction s as [| c s IH]; cbn; [reflexivity |].
  intros Hall. apply andb_true_iff in Hall. destruct Hall as [Hc Hs].
  rewrite (isUpper_toUpperChar c Hc). apply IH. exact Hs.
Qed.

Lemma allString_trimStart (p : ascii -> bool) (s : string) :
  allString p s = true -> allString p (trimStart s) = true.
Proof.
  induction s as [| c s IH]; cbn; [reflexivity |].
  intros Hall. destruct (isWhiteSpace c); [| exact Hall].
  apply andb_true_iff in Hall. apply IH, Hall.
Qed.

Lemma allString_trimEnd (p : ascii -> bool) (s : string) :
  allString p s = true -> allString p (trimEnd s) = true.
Proof.
  induction s as [| c s IH]; cbn [trimEnd allString]; [reflexivity |].
  intros Hall. apply andb_true_iff in Hall. destruct Hall as [Hc Hs].
  specialize (IH Hs). destruct (trimEnd s) as [| c' kept].
  - destruct (isWhiteSpace c); [reflexivity | cbn; rewrite Hc; reflexivity].
  - cbn [allString]. rewrite Hc. exact IH.
Qed.

Lemma trimEnd_without_space (s : string) :
  allString (fun c => negb (isWhiteSpace c)) s = true -> trimEnd s = s.
Proof.
  induction s as [| c s IH]; cbn [trimEnd allString]; [reflexivity |].
  intros Hall. apply andb_true_iff in Hall. destruct Hall as [Hc Hs].
  rewrite (IH Hs). apply negb_true_iff in Hc. rewrite Hc.
  destruct s; reflexivity.
Qed.

Lemma trim_capitals (s : string) : allString isUpper s = true -> trim s = s.
Proof.
  intros Hall. unfold trim.
  assert (Hstart : trimStart s = s).
  { destruct s as [| c s]; [reflexivity |]. cbn in Hall |- *.
    apply andb_true_iff in Hall. destruct Hall as [Hc _].
    rewrite (capital_not_space c Hc). reflexivity. }
  rewrite Hstart. apply trimEnd_without_space.
  apply (allString_impl isUpper); [| exact Hall].
  intros c Hc. rewrite (capital_not_space c Hc). reflexivity.
Qed.

(** ** The table and the fallback *)

(** Every code of the table is three capital letters, and every city of the
    table is found under its own name. *)
Lemma cityToIATA_entries (city code : string) :
  In (city, code) cityToIATA ->
  lookupCity city = Some (Code code)
  /\ String.length code = 3%nat /\ allString isUpper code = true.
Proof.
  assert (Hall : forallb
                   (fun entry : string * string =>
                      match lookupCity (fst entry) with
                      | Some (Code found) => String.eqb found (snd entry)
                      | _ => false
                      end
                      && (String.length (snd entry) =? 3)%nat
                      && allString isUpper (snd entry))
                   cityToIATA = true) by (vm_compute; reflexivity).
  rewrite forallb_forall in Hall. intros Hin. specialize (Hall (city, code) Hin).
  cbn [fst snd] in Hall.
  apply andb_true_iff in Hall. destruct Hall as [Hall Hupper].
  apply andb_true_iff in Hall. destruct Hall as [Hfound Hlength].
  apply Nat.eqb_eq in Hlength.
  destruct (lookupCity city) as [[found |] |]; try discriminate.
  apply String.eqb_eq in Hfound. subst found. auto.
Qed.

Lemma lookupCity_code (city code : string) :
  lookupCity city = Some (Code code) -> In (city, code) cityToIATA.
Proof.
  unfold lookupCity.
  destruct (find _ cityToIATA) as [[key value] |] eqn:Hfind.
  - intros Hcode. injection Hcode as Hcode. cbn [snd] in Hcode. subst value.
    apply find_some in Hfind. destruct Hfind as [Hin Hkey].
    cbn [fst] in Hkey. apply String.eqb_eq in Hkey. subst key. exact Hin.
  - destruct (existsb _ _); discriminate.
Qed.

(** Without a match in the table the test for three letters changes
    nothing: both branches give the first three letters in capitals. *)
Lemma mapCityToIATA_fallback (cityName : string) :
  lookupCity (trim (toLowerCase cityName)) = None ->
  mapCityToIATA cityName
  = Code (toUpperCase (substring 0 3 (filterString isLetter cityName))).
Proof.
  intros Hnone. unfold mapCityToIATA. cbv zeta. rewrite Hnone.
  destruct (Nat.eqb_spec (String.length cityName) 3) as [Hlength | _]; [| reflexivity].
  destruct (allString isLetter cityName) eqn:Hletters; [| reflexivity].
  cbn [andb]. rewrite (filterString_all _ _ Hletters), <- Hlength, substring_whole.
  reflexivity.
Qed.

Lemma validateIataCode_capitals (code fieldName : string) :
  allString isUpper code = true ->
  validateIataCode (JString code) fieldName = None <-> String.length code = 3%nat.
Proof.
  intros Hupper. unfold validateIataCode. cbv zeta.
  rewrite (trim_capitals _ Hupper), (toUpperCase_capitals _ Hupper), Hupper.
  destruct code as [| c rest]; [cbn; split; discriminate |].
  cbn [isEmpty negb].
  destruct (Nat.eqb_spec (String.length (String c rest)) 3) as [Hlength | Hlength];
    cbn [negb].
  - split; [intros _; exact Hlength | reflexivity].
  - split; [discriminate | intros Habs; contradiction].
Qed.

(** X16: whatever the text, a code returned by [mapCityToIATA] is made of
    at most three capital letters, and the route's check of a code accepts
    it exactly when it has three. *)
Theorem X16_mapped_code_shape (cityName code fieldName : string) :
  mapCityToIATA cityName = Code code ->
  (String.length code <= 3)%nat
  /\ allString isUpper code = true
  /\ (validateIataCode (JString code) fieldName = None <-> String.length code = 3%nat).
Proof.
  intros Hmapped.
  assert (Hshape : (String.length code <= 3)%nat /\ allString isUpper code = true).
  { destruct (lookupCity (trim (toLowerCase cityName))) as [mapped |] eqn:Hlookup.
    - unfold mapCityToIATA in Hmapped. cbv zeta in Hmapped.
      rewrite Hlookup in Hmapped. subst mapped.
      apply lookupCity_code, cityToIATA_entries in Hlookup.
      destruct Hlookup as (_ & Hlength & Hupper). split; [lia | exact Hupper].
    - rewrite (mapCityToIATA_fallback _ Hlookup) in Hmapped.
      injection Hmapped as Hmapped. subst code. split.
      + unfold toUpperCase. rewrite length_mapString, length_substring_0. lia.
      + apply capitals_of_letters, allString_substring, allString_filterString. }
  destruct Hshape as [Hlength Hupper].
  split; [exact Hlength |]. split; [exact Hupper |].
  apply validateIataCode_capitals. exact Hupper.
Qed.

Lemma X16_witness :
  (String.length "XY" <= 3)%nat
  /\ allString isUpper "XY" = true
  /\ (validateIataCode (JString "XY") "Departure airport" = None
      <-> String.length "XY" = 3%nat).
Proof.
  apply (@X16_mapped_code_shape "x-y" "XY" "Departure airport"). reflexivity.
Defined.

(** X17: a text that is not found in the table, nor among the inherited
    names, is mapped to its first three letters in capitals, other
    characters left out: fewer than three letters give a code of fewer than
    three characters, which the route then refuses. *)
Theorem X17_fallback_is_first_three_letters (cityName fieldName : string) :
  lookupCity (trim (toLowerCase cityName)) = None ->
  let code := toUpperCase (substring 0 3 (filterString isLetter cityName)) in
  mapCityToIATA cityName = Code code
  /\ String.length code = Nat.min 3 (String.length (filterString isLetter cityName))
  /\ (validateIataCode (JString code) fieldName = None
      <-> (3 <= String.length (filterString isLetter cityName))%nat).
Proof.
  intros Hnone code.
  assert (Hlength : String.length code
                    = Nat.min 3 (String.length (filterString isLetter cityName))).
  { unfold code, toUpperCase. rewrite length_mapString, length_substring_0. reflexivity. }
  split; [apply mapCityToIATA_fallback; exact Hnone |].
  split; [exact Hlength |].
  rewrite validateIataCode_capitals, Hlength; [lia |].
  apply capitals_of_letters, allString_substring, allString_filterString.
Qed.

Lemma X17_witness :
  let code := toUpperCase (substring 0 3 (filterString isLetter "St. Petersburg")) in
  mapCityToIATA "St. Petersburg" = Code code
  /\ String.length code
     = Nat.min 3 (String.length (filterString isLetter "St. Petersburg"))
  /\ (validateIataCode (JString code) "Departure airport" = None
      <-> (3 <= String.length (filterString isLetter "St. Petersburg"))%nat).
Proof.
  apply (@X17_fallback_is_first_three_letters "St. Petersburg" "Departure airport").
  reflexivity.
Defined.

Lemma mapCityToIATA_toLowerCase (cityName : string) :
  mapCityToIATA (toLowerCase cityName) = mapCityToIATA cityName.
Proof.
  unfold mapCityToIATA. cbv zeta. rewrite toLowerCase_idempotent.
  destruct (lookupCity (trim (toLowerCase cityName))); [reflexivity |].
  rewrite toUpperCase_toLowerCase.
  unfold toLowerCase.
  rewrite length_mapString, (allString_mapString _ _ _ isLetter_toLowerChar),
    (filterString_mapString _ _ _ isLetter_toLowerChar), substring_mapString.
  fold (toLowerCase (substring 0 3 (filterString isLetter cityName))).
  rewrite toUpperCase_toLowerCase. reflexivity.
Qed.

(** X18: [mapCityToIATA] does not look at the case of the letters: two
    texts that differ only in case are mapped alike. *)
Theorem X18_mapping_ignores_case (cityName cityName' : string) :
  toLowerCase cityName = toLowerCase cityName' ->
  mapCityToIATA cityName = mapCityToIATA cityName'.
Proof.
  intros Hsame.
  rewrite <- (mapCityToIATA_toLowerCase cityName), Hsame.
  apply mapCityToIATA_toLowerCase.
Qed.

Lemma X18_witness : mapCityToIATA "Lhr" = mapCityToIATA "lHR".
Proof. apply (@X18_mapping_ignores_case "Lhr" "lHR"). reflexivity. Defined.

(** X19: a text that, in small letters and without the white space around
    it, is a city of the table is mapped to the code the table gives for
    that city, whether or not the text is itself three letters long. *)
Theorem X19_table_city_gets_its_code (cityName city code : string) :
  In (city, code) cityToIATA ->
  trim (toLowerCase cityName) = city ->
  mapCityToIATA cityName = Code code.
Proof.
  intros Hin Hcity. unfold mapCityToIATA. cbv zeta. rewrite Hcity.
  destruct (cityToIATA_entries Hin) as [Hlookup _]. rewrite Hlookup. reflexivity.
Qed.

Lemma X19_witness : mapCityToIATA " GOA " = Code "GOI".
Proof.
  apply (@X19_table_city_gets_its_code " GOA " "goa" "GOI").
  - vm_compute. tauto.
  - reflexivity.
Defined.

(** ** Names inherited by the table object *)

Lemma trim_toLowerCase_small (s : string) :
  allString (fun c => negb (isUpper c)) (trim (toLowerCase s)) = true.
Proof.
  unfold trim. apply allString_trimEnd, allString_trimStart.
  induction s as [| c s IH]; cbn; [reflexivity |].
  rewrite isUpper_toLowerChar. exact IH.
Qed.

(** X20: [mapCityToIATA] returns something that is not a string, a member
    the table object inherits, exactly for the texts that read
    "constructor" or "__proto__" once in small letters and trimmed; for
    every other text it returns a string. *)
Theorem X20_inherited_member_instead_of_code (cityName : string) :
  mapCityToIATA cityName = Inherited
  <-> trim (toLowerCase cityName) = "constructor"%string
      \/ trim (toLowerCase cityName) = "__proto__"%string.
Proof.
  pose proof (trim_toLowerCase_small cityName) as Hsmall.
  unfold mapCityToIATA. cbv zeta.
  set (city := trim (toLowerCase cityName)) in *.
  split.
  - unfold lookupCity.
    destruct (find _ cityToIATA) as [entry |]; [discriminate |].
    destruct (existsb (String.eqb city) inheritedNames) eqn:Hinherited.
    + intros _. apply existsb_exists in Hinherited.
      destruct Hinherited as (member & Hin & Heq).
      apply String.eqb_eq in Heq. subst member.
      cbn [inheritedNames In] in Hin.
      repeat (destruct Hin as [Hin | Hin];
              [first [ left; symmetry; exact Hin
                     | right; symmetry; exact Hin
                     | exfalso; rewrite <- Hin in Hsmall; vm_compute in Hsmall;
                       discriminate Hsmall ] |]).
      destruct Hin.
    + destruct (_ && _); discriminate.
  - intros [Hcity | Hcity]; rewrite Hcity; reflexivity.
Qed.
